(** * Exchange connectivity core of Crypto-navigate

    A shallow embedding of [src/services/binanceWebSocket.ts] (class
    [BinanceWebSocket]): the ban guard, the sliding-window rate limiter,
    the request executor [makeAuthenticatedRequest] with its table of
    pending requests, the ticker subscriptions of the stream session, the
    timers, order placement and the position view.

    Conventions of the embedding.
    - The fields of the singleton and the parts of the browser it talks to
      (clock, [localStorage], timers, the socket, [fetch]) form one record
      [State]; every method is a function on it.
    - [Date.now()] reads the field [clock]; the clock moves only while a
      method is suspended (a timer or a [fetch]).
    - What the platform computes (dates, signatures, the printing and
      parsing of numbers) and what the environment does (the outcome of
      each [fetch], how late each timer fires) are parameters of the
      model.
    - An async method is run from its call to its settlement, as it goes
      when no other call runs in between; the executor is also given in
      three pieces, cut at its suspension points, so that two calls can be
      interleaved.
    - Callbacks (listeners, promise resolvers) are represented by handles.
    - [localStorage.setItem] and [ws.send] are taken not to throw, and
      [console.*] output is not modelled. *)

From Stdlib Require Import ZArith QArith Qabs String Ascii List Lia Bool.
From Stdlib Require Import DecimalString.
From Stdlib Require Import Lqa.
From stdpp Require Import gmap strings list sorting.

Local Open Scope Z_scope.
Set Warnings "-register-all".
Set Default Proof Using "Type".

(** String literals are appended by computation. *)
#[local] Arguments String.append !_ _ / : simpl nomatch.
#[local] Arguments Ascii.eqb : simpl never.

(** ** JavaScript strings and numbers *)

(** Strings are sequences of code units below 256; the line terminators
    U+2028 and U+2029 are therefore outside the model. *)

Definition dquote : string := String "034"%char EmptyString.

(** [s.startsWith(p)] *)
Fixpoint starts_with (p s : string) : bool :=
  match p, s with
  | EmptyString, _ => true
  | String a p', String b s' => Ascii.eqb a b && starts_with p' s'
  | String _ _, EmptyString => false
  end.

(** [hay.includes(needle)] *)
Fixpoint str_includes (hay needle : string) : bool :=
  starts_with needle hay ||
  match hay with
  | EmptyString => false
  | String _ hay' => str_includes hay' needle
  end.

Definition lower_ascii (c : ascii) : ascii :=
  let n := nat_of_ascii c in
  if ((65 <=? n) && (n <=? 90))%nat then ascii_of_nat (n + 32) else c.

(** [s.toLowerCase()] on the ASCII letters; the other code units are left
    as they are, which does not move the places where ["banned"] occurs. *)
Fixpoint toLowerCase (s : string) : string :=
  match s with
  | EmptyString => EmptyString
  | String c s' => String (lower_ascii c) (toLowerCase s')
  end.

(** [String(n)] and [n.toString()] for an integer [n]. *)
Definition Z_to_string (z : Z) : string := NilZero.string_of_int (Z.to_int z).

Definition isDigit (c : ascii) : bool :=
  let n := nat_of_ascii c in ((48 <=? n) && (n <=? 57))%nat.

Definition isLineTerminator (c : ascii) : bool :=
  let n := nat_of_ascii c in ((n =? 10) || (n =? 13))%nat.

Fixpoint all_digits (s : string) : bool :=
  match s with
  | EmptyString => true
  | String c s' => isDigit c && all_digits s'
  end.

Definition starts_with_digit (s : string) : bool :=
  match s with
  | EmptyString => false
  | String c _ => isDigit c
  end.

Fixpoint no_line_terminator (s : string) : bool :=
  match s with
  | EmptyString => true
  | String c s' => negb (isLineTerminator c) && no_line_terminator s'
  end.

Fixpoint drop_prefix (p s : string) : option string :=
  match p, s with
  | EmptyString, _ => Some s
  | String a p', String b s' => if Ascii.eqb a b then drop_prefix p' s' else None
  | String _ _, EmptyString => None
  end.

(** The regular expression [/IP\(.*\) banned until (\d+)/], by backtracking
    as the engine does: leftmost start, [.*] greedy and stopped by a line
    terminator, [\d+] greedy.  The result is capture group 1. *)

Fixpoint take_digits (s : string) : string :=
  match s with
  | EmptyString => EmptyString
  | String c s' => if isDigit c then String c (take_digits s') else EmptyString
  end.

(** [\) banned until (\d+)] at the head of [s]. *)
Definition match_tail (s : string) : option string :=
  match drop_prefix ") banned until " s with
  | Some r =>
      match take_digits r with
      | EmptyString => None
      | d => Some d
      end
  | None => None
  end.

(** [.*\) banned until (\d+)] at the head of [s]: the longest [.*] first. *)
Fixpoint match_dotstar (s : string) : option string :=
  match s with
  | EmptyString => match_tail s
  | String c s' =>
      if isLineTerminator c then match_tail s
      else match match_dotstar s' with
           | Some d => Some d
           | None => match_tail s
           end
  end.

Definition match_here (s : string) : option string :=
  match drop_prefix "IP(" s with
  | Some r => match_dotstar r
  | None => None
  end.

(** [s.match(banRegex)] reduced to [match[1]]. *)
Fixpoint banRegex_match (s : string) : option string :=
  match match_here s with
  | Some d => Some d
  | None =>
      match s with
      | EmptyString => None
      | String _ s' => banRegex_match s'
      end
  end.

Definition digit_value (c : ascii) : Z := Z.of_nat (nat_of_ascii c) - 48.

Fixpoint digits_value (acc : Z) (s : string) : Z :=
  match s with
  | EmptyString => acc
  | String c s' => digits_value (10 * acc + digit_value c) s'
  end.

(** A non-negative integer as the nearest IEEE double (ties to even); the
    overflow to [Infinity] beyond 2^1024 is not modelled. *)
Definition round_to_double (n : Z) : Z :=
  if n <? 2 ^ 53 then n
  else
    let e := Z.log2 n - 52 in
    let q := n / 2 ^ e in
    let r := n mod 2 ^ e in
    let half := 2 ^ (e - 1) in
    if r <? half then q * 2 ^ e
    else if half <? r then (q + 1) * 2 ^ e
    else if Z.even q then q * 2 ^ e else (q + 1) * 2 ^ e.

(** [parseInt(d, 10)] on a non-empty string of decimal digits, which is all
    capture group 1 can be; the result is never [NaN]. *)
Definition parseInt10 (d : string) : Z := round_to_double (digits_value 0 d).

(** A JavaScript number that need not be an integer (quantities, prices). *)
Inductive JsNumber :=
| NaN
| Num (q : Q).

(** Truthiness of a number: [0] and [NaN] are falsy. *)
Definition num_truthy (n : JsNumber) : bool :=
  match n with
  | NaN => false
  | Num q => negb (Qeq_bool q 0)
  end.

(** [n <= 0]; every comparison with [NaN] is false. *)
Definition num_le0 (n : JsNumber) : bool :=
  match n with
  | NaN => false
  | Num q => Qle_bool q 0
  end.

(** A thrown value: every value thrown on the paths modelled is an [Error]
    object (or a [TypeError] / [DOMException]) with a name and a message. *)
Record JsError := mkError { ename : string; emessage : string }.

Definition Error (msg : string) : JsError := mkError "Error" msg.

(** [error.toString()] *)
Definition error_toString (e : JsError) : string := ename e +:+ ": " +:+ emessage e.

(** ** Data model *)

Record BanInfo := mkBanInfo { isBanned : bool; banUntil : Z }.

Inductive ReadyState := CONNECTING | OPEN | CLOSING | CLOSED.

Inductive WireMethod := SUBSCRIBE | UNSUBSCRIBE | PING.

Definition same_method (a b : WireMethod) : bool :=
  match a, b with
  | SUBSCRIBE, SUBSCRIBE | UNSUBSCRIBE, UNSUBSCRIBE | PING, PING => true
  | _, _ => false
  end.

(** A frame handed to [ws.send]; [wm_id] is [Date.now()] ([None] for the
    keepalive, whose id is the string ['pong']). *)
Record WireMsg := mkWire {
  wm_method : WireMethod;
  wm_params : list string;
  wm_id : option Z
}.

Inductive HttpMethod := GET | POST | PUT | DELETE.

Definition method_name (m : HttpMethod) : string :=
  match m with GET => "GET" | POST => "POST" | PUT => "PUT" | DELETE => "DELETE" end.

(** One call of [fetch]: the endpoint is kept beside the full URL so that
    requests can be counted per endpoint. *)
Record FetchReq := mkFetch {
  fr_endpoint : string;
  fr_method : HttpMethod;
  fr_url : string;
  fr_body : option string;
  fr_apikey : option string
}.

Record ApiKeys := mkKeys { binanceApiKey : string; binanceSecretKey : string }.

(** JSON values as [response.json()] delivers them. *)
Inductive Json :=
| JNull
| JBool (b : bool)
| JNum (n : JsNumber)
| JStr (s : string)
| JArr (items : list Json)
| JObj (fields : list (string * Json)).

(** [JSON.parse(errorText)] as far as the error path looks at it: the parse
    throws, or it yields a value whose [code] is a number or not and whose
    [msg] is a string or not. *)
Inductive ParsedBody :=
| NotJson
| JsonBody (code : option Z) (msg : option string).

(** What one [fetch] comes to. *)
Inductive FetchOutcome :=
| RespOk (body : option Json)
    (* response.ok; [None]: response.json() throws *)
| RespError (status : Z) (statusText errorText : string) (parsed : ParsedBody)
| FetchFailed (e : JsError).
    (* fetch rejects: a network failure, or an AbortError after 30 s *)

(** An entry of [pendingRequests]: the resolvers of one promise, by handle. *)
Record Waiter := mkWaiter { w_promise : nat; w_params : list (string * string) }.

Inductive Side := BUY | SELL.
Inductive OrderType := MARKET | LIMIT.

Definition side_name (s : Side) : string := match s with BUY => "BUY" | SELL => "SELL" end.
Definition type_name (t : OrderType) : string :=
  match t with MARKET => "MARKET" | LIMIT => "LIMIT" end.

(** The order handed back by [placeOrder]: the response and the arguments its
    fields are computed from (the conversions of each field are not needed
    here). *)
Record Trade := mkTrade {
  tr_response : Json;
  tr_symbol : string;
  tr_side : Side;
  tr_type : OrderType;
  tr_quantity : JsNumber;
  tr_price : option JsNumber;
  tr_leverage : option JsNumber;
  tr_now : Z
}.

Inductive PositionSide := LONG | SHORT.

Record Position := mkPosition {
  pos_symbol : Json;
  pos_side : PositionSide;
  pos_size : JsNumber;
  pos_entryPrice : JsNumber;
  pos_markPrice : JsNumber;
  pos_unrealizedPnL : JsNumber;
  pos_leverage : JsNumber
}.

(** What a waiter promise is settled with. *)
Inductive Value :=
| VJson (j : Json)
| VPositions (ps : list Position).

Inductive Settlement :=
| Resolved (v : Value)
| Rejected (e : JsError).

Record CacheEntry (A : Type) := mkCache { ce_data : A; ce_timestamp : Z }.
Arguments mkCache {A} _ _.
Arguments ce_data {A} _.
Arguments ce_timestamp {A} _.

(** What a pending timer does when it fires. *)
Inductive TimerAction :=
| TPing                               (* startPingInterval *)
| TListenKeyRefresh (apiKey : string) (* startListenKeyRefresh *)
| TReconnect                          (* handleReconnect, () => this.connect() *)
| TReconnectCooldown.                 (* handleReconnect, counter reset then connect *)

Record State := mkState {
  (* fields of BinanceWebSocket *)
  ws : option ReadyState;
  pingInterval : option nat;
  subscribers : gmap string (gset nat);
  accountSubscribers : gset nat;
  klineSubscribers : gmap string (gset nat);
  depthSubscribers : gmap string (gset nat);
  listenKey : option string;
  listenKeyInterval : option nat;
  reconnectAttempts : Z;
  isConnecting : bool;
  requestTimestamps : list Z;
  pendingRequests : gmap string (list Waiter);
  accountInfoCache : option (CacheEntry Json);
  banInfo : BanInfo;
  lastBanCheckTime : Z;
  (* the browser *)
  credentials : option ApiKeys;        (* authService.getApiCredentials() *)
  onLine : bool;                       (* navigator.onLine *)
  localStorage : gmap string string;
  clock : Z;                           (* Date.now() *)
  timers : list (nat * TimerAction);   (* pending setTimeout / setInterval *)
  nextTimerId : nat;
  wire : list WireMsg;                 (* frames sent, oldest first *)
  network : list FetchReq;             (* fetch calls issued, oldest first *)
  settled : list (nat * Settlement);   (* resolve / reject calls on waiters *)
  nextPromise : nat;
  suspensions : nat                    (* timers slept on and fetches awaited *)
}.

Definition maxReconnectAttempts : Z := 5.

Definition set_ws v s := mkState v (pingInterval s) (subscribers s) (accountSubscribers s) (klineSubscribers s) (depthSubscribers s) (listenKey s) (listenKeyInterval s) (reconnectAttempts s) (isConnecting s) (requestTimestamps s) (pendingRequests s) (accountInfoCache s) (banInfo s) (lastBanCheckTime s) (credentials s) (onLine s) (localStorage s) (clock s) (timers s) (nextTimerId s) (wire s) (network s) (settled s) (nextPromise s) (suspensions s).
Definition set_pingInterval v s := mkState (ws s) v (subscribers s) (accountSubscribers s) (klineSubscribers s) (depthSubscribers s) (listenKey s) (listenKeyInterval s) (reconnectAttempts s) (isConnecting s) (requestTimestamps s) (pendingRequests s) (accountInfoCache s) (banInfo s) (lastBanCheckTime s) (credentials s) (onLine s) (localStorage s) (clock s) (timers s) (nextTimerId s) (wire s) (network s) (settled s) (nextPromise s) (suspensions s).
Definition set_subscribers v s := mkState (ws s) (pingInterval s) v (accountSubscribers s) (klineSubscribers s) (depthSubscribers s) (listenKey s) (listenKeyInterval s) (reconnectAttempts s) (isConnecting s) (requestTimestamps s) (pendingRequests s) (accountInfoCache s) (banInfo s) (lastBanCheckTime s) (credentials s) (onLine s) (localStorage s) (clock s) (timers s) (nextTimerId s) (wire s) (network s) (settled s) (nextPromise s) (suspensions s).
Definition set_accountSubscribers v s := mkState (ws s) (pingInterval s) (subscribers s) v (klineSubscribers s) (depthSubscribers s) (listenKey s) (listenKeyInterval s) (reconnectAttempts s) (isConnecting s) (requestTimestamps s) (pendingRequests s) (accountInfoCache s) (banInfo s) (lastBanCheckTime s) (credentials s) (onLine s) (localStorage s) (clock s) (timers s) (nextTimerId s) (wire s) (network s) (settled s) (nextPromise s) (suspensions s).
Definition set_listenKey v s := mkState (ws s) (pingInterval s) (subscribers s) (accountSubscribers s) (klineSubscribers s) (depthSubscribers s) v (listenKeyInterval s) (reconnectAttempts s) (isConnecting s) (requestTimestamps s) (pendingRequests s) (accountInfoCache s) (banInfo s) (lastBanCheckTime s) (credentials s) (onLine s) (localStorage s) (clock s) (timers s) (nextTimerId s) (wire s) (network s) (settled s) (nextPromise s) (suspensions s).
Definition set_listenKeyInterval v s := mkState (ws s) (pingInterval s) (subscribers s) (accountSubscribers s) (klineSubscribers s) (depthSubscribers s) (listenKey s) v (reconnectAttempts s) (isConnecting s) (requestTimestamps s) (pendingRequests s) (accountInfoCache s) (banInfo s) (lastBanCheckTime s) (credentials s) (onLine s) (localStorage s) (clock s) (timers s) (nextTimerId s) (wire s) (network s) (settled s) (nextPromise s) (suspensions s).
Definition set_reconnectAttempts v s := mkState (ws s) (pingInterval s) (subscribers s) (accountSubscribers s) (klineSubscribers s) (depthSubscribers s) (listenKey s) (listenKeyInterval s) v (isConnecting s) (requestTimestamps s) (pendingRequests s) (accountInfoCache s) (banInfo s) (lastBanCheckTime s) (credentials s) (onLine s) (localStorage s) (clock s) (timers s) (nextTimerId s) (wire s) (network s) (settled s) (nextPromise s) (suspensions s).
Definition set_isConnecting v s := mkState (ws s) (pingInterval s) (subscribers s) (accountSubscribers s) (klineSubscribers s) (depthSubscribers s) (listenKey s) (listenKeyInterval s) (reconnectAttempts s) v (requestTimestamps s) (pendingRequests s) (accountInfoCache s) (banInfo s) (lastBanCheckTime s) (credentials s) (onLine s) (localStorage s) (clock s) (timers s) (nextTimerId s) (wire s) (network s) (settled s) (nextPromise s) (suspensions s).
Definition set_requestTimestamps v s := mkState (ws s) (pingInterval s) (subscribers s) (accountSubscribers s) (klineSubscribers s) (depthSubscribers s) (listenKey s) (listenKeyInterval s) (reconnectAttempts s) (isConnecting s) v (pendingRequests s) (accountInfoCache s) (banInfo s) (lastBanCheckTime s) (credentials s) (onLine s) (localStorage s) (clock s) (timers s) (nextTimerId s) (wire s) (network s) (settled s) (nextPromise s) (suspensions s).
Definition set_pendingRequests v s := mkState (ws s) (pingInterval s) (subscribers s) (accountSubscribers s) (klineSubscribers s) (depthSubscribers s) (listenKey s) (listenKeyInterval s) (reconnectAttempts s) (isConnecting s) (requestTimestamps s) v (accountInfoCache s) (banInfo s) (lastBanCheckTime s) (credentials s) (onLine s) (localStorage s) (clock s) (timers s) (nextTimerId s) (wire s) (network s) (settled s) (nextPromise s) (suspensions s).
Definition set_accountInfoCache v s := mkState (ws s) (pingInterval s) (subscribers s) (accountSubscribers s) (klineSubscribers s) (depthSubscribers s) (listenKey s) (listenKeyInterval s) (reconnectAttempts s) (isConnecting s) (requestTimestamps s) (pendingRequests s) v (banInfo s) (lastBanCheckTime s) (credentials s) (onLine s) (localStorage s) (clock s) (timers s) (nextTimerId s) (wire s) (network s) (settled s) (nextPromise s) (suspensions s).
Definition set_banInfo v s := mkState (ws s) (pingInterval s) (subscribers s) (accountSubscribers s) (klineSubscribers s) (depthSubscribers s) (listenKey s) (listenKeyInterval s) (reconnectAttempts s) (isConnecting s) (requestTimestamps s) (pendingRequests s) (accountInfoCache s) v (lastBanCheckTime s) (credentials s) (onLine s) (localStorage s) (clock s) (timers s) (nextTimerId s) (wire s) (network s) (settled s) (nextPromise s) (suspensions s).
Definition set_lastBanCheckTime v s := mkState (ws s) (pingInterval s) (subscribers s) (accountSubscribers s) (klineSubscribers s) (depthSubscribers s) (listenKey s) (listenKeyInterval s) (reconnectAttempts s) (isConnecting s) (requestTimestamps s) (pendingRequests s) (accountInfoCache s) (banInfo s) v (credentials s) (onLine s) (localStorage s) (clock s) (timers s) (nextTimerId s) (wire s) (network s) (settled s) (nextPromise s) (suspensions s).
Definition set_localStorage v s := mkState (ws s) (pingInterval s) (subscribers s) (accountSubscribers s) (klineSubscribers s) (depthSubscribers s) (listenKey s) (listenKeyInterval s) (reconnectAttempts s) (isConnecting s) (requestTimestamps s) (pendingRequests s) (accountInfoCache s) (banInfo s) (lastBanCheckTime s) (credentials s) (onLine s) v (clock s) (timers s) (nextTimerId s) (wire s) (network s) (settled s) (nextPromise s) (suspensions s).
Definition set_clock v s := mkState (ws s) (pingInterval s) (subscribers s) (accountSubscribers s) (klineSubscribers s) (depthSubscribers s) (listenKey s) (listenKeyInterval s) (reconnectAttempts s) (isConnecting s) (requestTimestamps s) (pendingRequests s) (accountInfoCache s) (banInfo s) (lastBanCheckTime s) (credentials s) (onLine s) (localStorage s) v (timers s) (nextTimerId s) (wire s) (network s) (settled s) (nextPromise s) (suspensions s).
Definition set_timers v s := mkState (ws s) (pingInterval s) (subscribers s) (accountSubscribers s) (klineSubscribers s) (depthSubscribers s) (listenKey s) (listenKeyInterval s) (reconnectAttempts s) (isConnecting s) (requestTimestamps s) (pendingRequests s) (accountInfoCache s) (banInfo s) (lastBanCheckTime s) (credentials s) (onLine s) (localStorage s) (clock s) v (nextTimerId s) (wire s) (network s) (settled s) (nextPromise s) (suspensions s).
Definition set_nextTimerId v s := mkState (ws s) (pingInterval s) (subscribers s) (accountSubscribers s) (klineSubscribers s) (depthSubscribers s) (listenKey s) (listenKeyInterval s) (reconnectAttempts s) (isConnecting s) (requestTimestamps s) (pendingRequests s) (accountInfoCache s) (banInfo s) (lastBanCheckTime s) (credentials s) (onLine s) (localStorage s) (clock s) (timers s) v (wire s) (network s) (settled s) (nextPromise s) (suspensions s).
Definition set_wire v s := mkState (ws s) (pingInterval s) (subscribers s) (accountSubscribers s) (klineSubscribers s) (depthSubscribers s) (listenKey s) (listenKeyInterval s) (reconnectAttempts s) (isConnecting s) (requestTimestamps s) (pendingRequests s) (accountInfoCache s) (banInfo s) (lastBanCheckTime s) (credentials s) (onLine s) (localStorage s) (clock s) (timers s) (nextTimerId s) v (network s) (settled s) (nextPromise s) (suspensions s).
Definition set_network v s := mkState (ws s) (pingInterval s) (subscribers s) (accountSubscribers s) (klineSubscribers s) (depthSubscribers s) (listenKey s) (listenKeyInterval s) (reconnectAttempts s) (isConnecting s) (requestTimestamps s) (pendingRequests s) (accountInfoCache s) (banInfo s) (lastBanCheckTime s) (credentials s) (onLine s) (localStorage s) (clock s) (timers s) (nextTimerId s) (wire s) v (settled s) (nextPromise s) (suspensions s).
Definition set_settled v s := mkState (ws s) (pingInterval s) (subscribers s) (accountSubscribers s) (klineSubscribers s) (depthSubscribers s) (listenKey s) (listenKeyInterval s) (reconnectAttempts s) (isConnecting s) (requestTimestamps s) (pendingRequests s) (accountInfoCache s) (banInfo s) (lastBanCheckTime s) (credentials s) (onLine s) (localStorage s) (clock s) (timers s) (nextTimerId s) (wire s) (network s) v (nextPromise s) (suspensions s).
Definition set_nextPromise v s := mkState (ws s) (pingInterval s) (subscribers s) (accountSubscribers s) (klineSubscribers s) (depthSubscribers s) (listenKey s) (listenKeyInterval s) (reconnectAttempts s) (isConnecting s) (requestTimestamps s) (pendingRequests s) (accountInfoCache s) (banInfo s) (lastBanCheckTime s) (credentials s) (onLine s) (localStorage s) (clock s) (timers s) (nextTimerId s) (wire s) (network s) (settled s) v (suspensions s).
Definition set_suspensions v s := mkState (ws s) (pingInterval s) (subscribers s) (accountSubscribers s) (klineSubscribers s) (depthSubscribers s) (listenKey s) (listenKeyInterval s) (reconnectAttempts s) (isConnecting s) (requestTimestamps s) (pendingRequests s) (accountInfoCache s) (banInfo s) (lastBanCheckTime s) (credentials s) (onLine s) (localStorage s) (clock s) (timers s) (nextTimerId s) (wire s) (network s) (settled s) (nextPromise s) v.
Definition set_klineSubscribers v s := mkState (ws s) (pingInterval s) (subscribers s) (accountSubscribers s) v (depthSubscribers s) (listenKey s) (listenKeyInterval s) (reconnectAttempts s) (isConnecting s) (requestTimestamps s) (pendingRequests s) (accountInfoCache s) (banInfo s) (lastBanCheckTime s) (credentials s) (onLine s) (localStorage s) (clock s) (timers s) (nextTimerId s) (wire s) (network s) (settled s) (nextPromise s) (suspensions s).
Definition set_depthSubscribers v s := mkState (ws s) (pingInterval s) (subscribers s) (accountSubscribers s) (klineSubscribers s) v (listenKey s) (listenKeyInterval s) (reconnectAttempts s) (isConnecting s) (requestTimestamps s) (pendingRequests s) (accountInfoCache s) (banInfo s) (lastBanCheckTime s) (credentials s) (onLine s) (localStorage s) (clock s) (timers s) (nextTimerId s) (wire s) (network s) (settled s) (nextPromise s) (suspensions s).

Definition MAX_REQUESTS_PER_MINUTE : Z := 600.
Definition REQUEST_WINDOW_MS : Z := 60000.
Definition RATE_LIMIT_BUFFER : Z := 200.
Definition BAN_CHECK_STORAGE_KEY : string := "binance-ban-timestamp".
Definition BASE_API_URL : string := "https://testnet.binancefuture.com".
Definition twelveHoursMs : Z := 12 * 60 * 60 * 1000.
Definition maxWaitTime : Z := 30000.

(** [JSON.stringify(banInfo)], for an end of the ban below 10^21: up to
    there a whole number is printed in full, beyond it with an exponent. *)
Definition stringify_banInfo (b : BanInfo) : string :=
  "{" +:+ dquote +:+ "isBanned" +:+ dquote +:+ ":"
  +:+ (if isBanned b then "true" else "false")
  +:+ "," +:+ dquote +:+ "banUntil" +:+ dquote +:+ ":"
  +:+ Z_to_string (banUntil b) +:+ "}".

(** [Math.ceil(a / b)] for integers [a >= 0] and [b > 0]. *)
Definition ceil_div (a b : Z) : Z := (a + b - 1) / b.

(** [xs.sort((a, b) => a - b)] *)
Definition sort_ascending (l : list Z) : list Z := merge_sort Z.le l.

(** [Math.min(...xs)] of a non-empty array. *)
Definition list_min (x : Z) (l : list Z) : Z := foldr Z.min x l.

(** ** Stream events and the order history *)

(** The [MarketData] handed to the listeners of a ticker; [md_lastUpdated]
    is the instant whose ISO form is stored. *)
Record MarketData := mkMarketData {
  md_symbol : string;
  md_price : JsNumber;
  md_change : JsNumber;
  md_changePercent : JsNumber;
  md_volume : JsNumber;
  md_high24h : JsNumber;
  md_low24h : JsNumber;
  md_lastUpdated : Z
}.

(** The candle handed to the listeners of a kline stream; [time] and
    [isClosed] are passed on as they came ([None] is [undefined]). *)
Record KlineEvent := mkKlineEvent {
  ke_time : option Json;
  ke_open : JsNumber;
  ke_high : JsNumber;
  ke_low : JsNumber;
  ke_close : JsNumber;
  ke_volume : JsNumber;
  ke_isClosed : option Json
}.

Inductive Payload :=
| PTicker (m : MarketData)
| PKline (k : KlineEvent)
| PRaw (data : Json).

(** What [handleMessage] does with a message: nothing, or one call of each
    listener of a set with the same payload. *)
Inductive Dispatch :=
| Dropped
| Delivered (payload : Payload) (listeners : gset nat).

(** An element of the list [getOrderHistory] returns.  [ht_time] is
    [order.time], which is both the [timestamp] and the instant whose ISO
    form is [entryTime]; the leverage is the constant 1. *)
Record HistoryTrade := mkHistoryTrade {
  ht_id : string;
  ht_symbol : option Json;
  ht_side : option Json;
  ht_type : option Json;
  ht_quantity : JsNumber;
  ht_price : JsNumber;
  ht_entryPrice : JsNumber;
  ht_time : Json;
  ht_status : option Json
}.

(** The singleton together with its field [orderHistoryCache]. *)
Record Session := mkSession {
  ss_state : State;
  orderHistoryCache : gmap string (CacheEntry (list HistoryTrade))
}.

(** [a || b] on numbers *)
Definition num_or (a b : JsNumber) : JsNumber := if num_truthy a then a else b.


(** [s.split(c)] for a separator of one character *)
Fixpoint split_on (c : ascii) (s : string) : list string :=
  match s with
  | EmptyString => [EmptyString]
  | String a s' =>
      if Ascii.eqb a c then EmptyString :: split_on c s'
      else
        match split_on c s' with
        | piece :: pieces => String a piece :: pieces
        | [] => [String a EmptyString]
        end
  end.

(** ** Lists kept by the hooks *)

(** [xs.findIndex(p)]; [None] stands for [-1]. *)
Fixpoint findIndex {A : Type} (p : A -> bool) (xs : list A) : option nat :=
  match xs with
  | [] => None
  | x :: xs' => if p x then Some 0%nat else option_map S (findIndex p xs')
  end.

Section TradeList.

Context {A : Type} (id : A -> string).

(** The updater handed to [setTrades] in [hooks/useTrades.ts], by
    [createOrder] and by the handler of ORDER_TRADE_UPDATE: the trade
    replaces the first one with its id, or is added at the end. *)
Definition upsert_trade (trade : A) (prev : list A) : list A :=
  match findIndex (fun t => String.eqb (id t) (id trade)) prev with
  | Some existingIndex => <[existingIndex := trade]> prev
  | None => prev ++ [trade]
  end.

End TradeList.

Section KlineList.

Context {A : Type} (time : A -> JsNumber) (isClosed : A -> bool).




End KlineList.

(** The environment of a run: what the platform computes and what the
    network and the timers do. *)
Section Core.

(** [new Date(t).toLocaleString()] *)
Variable toLocaleString : Z -> string.
Variable encodeURIComponent : string -> string.
(** hex HMAC-SHA256 of a message under a key ([generateSignature]) *)
Variable hmacSha256Hex : string -> string -> string.
(** [String(n)] for a number that need not be an integer *)
Variable numberToString : JsNumber -> string.
(** [parseFloat(v)] *)
Variable parseFloat : Json -> JsNumber.
(** the outcome of the [n]-th [fetch] *)
Variable fetchOracle : nat -> FetchOutcome.
(** milliseconds by which the [n]-th suspension overruns its delay *)
Variable lateness : nat -> nat.
(** whether [new Date(v)] is a valid date *)
Variable isValidTime : Json -> bool.

(** *** Ban guard *)

Definition resetBanInfo (st : State) : State :=
  let b := mkBanInfo false 0 in
  set_localStorage
    (<[BAN_CHECK_STORAGE_KEY := stringify_banInfo b]> (localStorage st))
    (set_banInfo b st).

Definition checkIfBanned (st : State) : bool * State :=
  if negb (isBanned (banInfo st)) || (banUntil (banInfo st) <? clock st) then
    (false, if isBanned (banInfo st) then resetBanInfo st else st)
  else
    (true,
     if 60000 <? clock st - lastBanCheckTime st
     then set_lastBanCheckTime (clock st) st
     else st).

Definition setBanned (banUntilTimestamp : Z) (st : State) : State :=
  let b := mkBanInfo true banUntilTimestamp in
  set_localStorage
    (<[BAN_CHECK_STORAGE_KEY := stringify_banInfo b]> (localStorage st))
    (set_banInfo b st).

Definition mentions_ban (msg : string) : bool :=
  str_includes msg "418" || str_includes (toLowerCase msg) "banned".

Definition detectBanFromError (e : JsError) (st : State) : bool * State :=
  match emessage e with
  | EmptyString => (false, st)
  | msg =>
      match banRegex_match msg with
      | Some d => (true, setBanned (parseInt10 d) st)
      | None =>
          if mentions_ban msg
          then (true, setBanned (clock st + twelveHoursMs) st)
          else (false, st)
      end
  end.

Record BanStatus := mkBanStatus {
  bs_isBanned : bool;
  bs_banUntil : Z;
  bs_remainingMinutes : Z
}.

(** Times are whole numbers of milliseconds.  The source computes the
    difference and the quotient in doubles; both are exact, and
    [Math.ceil] of the quotient is the ceiling of the exact quotient, while
    the clock is not negative and the end of the ban is below 2^53. *)
Definition getBanStatus (st : State) : BanStatus * State :=
  let st1 := snd (checkIfBanned st) in
  let remainingMs := Z.max 0 (banUntil (banInfo st1) - clock st1) in
  (mkBanStatus (isBanned (banInfo st1) && (0 <? remainingMs))
               (banUntil (banInfo st1))
               (ceil_div remainingMs (60 * 1000)),
   st1).

Definition ban_error (st : State) : JsError :=
  Error ("API requests are blocked due to Binance IP ban until "
         +:+ toLocaleString (banUntil (banInfo st))).

(** *** Rate limiter *)

Definition canMakeRequest (st : State) : bool * State :=
  let '(banned, st1) := checkIfBanned st in
  if banned then (false, st1)
  else
    let now := clock st1 in
    let ts := List.filter (fun t => now - t <? REQUEST_WINDOW_MS) (requestTimestamps st1) in
    (Z.of_nat (length ts) <? MAX_REQUESTS_PER_MINUTE - RATE_LIMIT_BUFFER,
     set_requestTimestamps ts st1).

Definition push_timestamp (st : State) : State :=
  set_requestTimestamps (requestTimestamps st ++ [clock st]) st.

Definition timeout_error (st : State) : JsError :=
  Error ("Timeout waiting for rate limit window ("
         +:+ Z_to_string (Z.of_nat (length (requestTimestamps st)))
         +:+ "/" +:+ Z_to_string MAX_REQUESTS_PER_MINUTE
         +:+ " requests in window)").

(** The eviction of the timeout branch: the oldest tenth, rounded up.
    [Math.ceil(n * 0.1)] is computed in doubles; for every [n] an array
    can have the product rounds to a value whose ceiling is that of
    [n / 10]. *)
Definition evict_oldest_tenth (st : State) : State :=
  let n := Z.of_nat (length (requestTimestamps st)) in
  let removeCount := ceil_div n 10 in
  set_requestTimestamps
    (drop (Z.to_nat removeCount) (sort_ascending (requestTimestamps st))) st.

Inductive WaitStep :=
| WaitRejected (e : JsError)
| WaitResolved
| WaitAgain (checkInterval : Z).

(** The closure [wait] of [waitForRateLimit], run when its timer fires. *)
Definition wait_callback (startTime nextSlotTime : Z) (st : State) : WaitStep * State :=
  if maxWaitTime <? clock st - startTime then
    let st1 :=
      if MAX_REQUESTS_PER_MINUTE - RATE_LIMIT_BUFFER - 10
           <? Z.of_nat (length (requestTimestamps st))
      then evict_oldest_tenth st
      else st in
    (WaitRejected (timeout_error st1), st1)
  else
    let '(banned, st1) := checkIfBanned st in
    if banned then (WaitRejected (ban_error st1), st1)
    else
      let '(ok, st2) := canMakeRequest st1 in
      if ok then (WaitResolved, push_timestamp st2)
      else
        let remainingTime := Z.max 100 (nextSlotTime - clock st2) in
        let checkInterval := Z.min 1000 (Z.max 100 (remainingTime / 2)) in
        (WaitAgain checkInterval, st2).

Inductive WaitBegin :=
| BeginRejected (e : JsError)
| BeginResolved
| BeginWaiting (startTime nextSlotTime initialDelay : Z).

(** [waitForRateLimit] up to the point where it either settles or arms
    the first timer.  Delays are halved in whole milliseconds, as
    [setTimeout] takes them. *)
Definition waitForRateLimit_begin (st : State) : WaitBegin * State :=
  let '(banned, st1) := checkIfBanned st in
  if banned then (BeginRejected (ban_error st1), st1)
  else
    let '(ok, st2) := canMakeRequest st1 in
    if ok then (BeginResolved, push_timestamp st2)
    else
      let startTime := clock st2 in
      let oldestRequest :=
        match requestTimestamps st2 with
        | [] => clock st2 - REQUEST_WINDOW_MS
        | t :: ts => list_min t ts
        end in
      let nextSlotTime := oldestRequest + REQUEST_WINDOW_MS in
      let waitTime := Z.max 100 (nextSlotTime - clock st2) in
      let initialDelay := Z.min 1000 (waitTime / 2) in
      (BeginWaiting startTime nextSlotTime initialDelay, st2).

(** A suspension on a timer of [ms] milliseconds: the clock has moved by
    at least that much when the callback runs. *)
Definition sleep (ms : Z) (st : State) : State :=
  set_suspensions (S (suspensions st))
    (set_clock (clock st + Z.max 0 ms + Z.of_nat (lateness (suspensions st))) st).

Inductive WaitEnd :=
| WaitOk
| WaitFailed (e : JsError)
| WaitOutOfFuel.

(** The timer loop of [waitForRateLimit] when no other call runs in
    between. *)
Fixpoint wait_loop (fuel : nat) (startTime nextSlotTime delay : Z) (st : State)
  : WaitEnd * State :=
  match fuel with
  | O => (WaitOutOfFuel, st)
  | S fuel' =>
      match wait_callback startTime nextSlotTime (sleep delay st) with
      | (WaitRejected e, st1) => (WaitFailed e, st1)
      | (WaitResolved, st1) => (WaitOk, st1)
      | (WaitAgain d, st1) => wait_loop fuel' startTime nextSlotTime d st1
      end
  end.

(** The loop gives up after thirty seconds and each round lasts fifty
    milliseconds or more: seven hundred rounds are never used up. *)
Definition wait_fuel : nat := 700.

(** [waitForRateLimit] from call to settlement. *)
Definition waitForRateLimit (st : State) : WaitEnd * State :=
  match waitForRateLimit_begin st with
  | (BeginRejected e, st1) => (WaitFailed e, st1)
  | (BeginResolved, st1) => (WaitOk, st1)
  | (BeginWaiting s n d, st1) => wait_loop wait_fuel s n d st1
  end.

(** *** The request executor *)

Record Request := mkRequest {
  rq_endpoint : string;
  rq_method : HttpMethod;
  rq_params : list (string * string);
  rq_requiresSignature : bool;
  rq_cacheKey : option string;
  rq_cacheTTL : Z;
  rq_allowDuringBan : bool
}.

(** [if (cacheKey)]: a key that is present and not the empty string. *)
Definition truthy_key (k : option string) : option string :=
  match k with
  | Some EmptyString => None
  | other => other
  end.

(** [params[k] = v] on an object whose keys are listed in insertion order. *)
Fixpoint params_set (k v : string) (ps : list (string * string)) : list (string * string) :=
  match ps with
  | [] => [(k, v)]
  | (k', v') :: ps' =>
      if String.eqb k k' then (k, v) :: ps' else (k', v') :: params_set k v ps'
  end.

Fixpoint join_with (sep : string) (l : list string) : string :=
  match l with
  | [] => EmptyString
  | [x] => x
  | x :: l' => x +:+ sep +:+ join_with sep l'
  end.

Definition buildQueryString (params : list (string * string)) : string :=
  join_with "&" (map (fun kv => fst kv +:+ "=" +:+ encodeURIComponent (snd kv)) params).

(** How a call of an async method stands when control comes back to its
    caller for good.  [Awaiting p]: the promise handed back is the waiter
    promise [p], which only another call can settle; what the caller does
    after that is outside a sequential run.  [OutOfFuel] is what the wait
    loop below answers when its fuel is used up, which does not happen. *)
Inductive Outcome (A : Type) :=
| Returned (a : A)
| Thrown (e : JsError)
| Awaiting (p : nat)
| OutOfFuel.
Arguments Returned {A} _.
Arguments Thrown {A} _.
Arguments Awaiting {A} _.
Arguments OutOfFuel {A}.

(** [pending.forEach(({ reject }) => reject(e)); pendingRequests.delete(key)]
    under the guard [cacheKey && pendingRequests.has(cacheKey)]. *)
Definition settle_pending (key : option string) (r : Settlement) (st : State) : State :=
  match truthy_key key with
  | Some k =>
      match pendingRequests st !! k with
      | Some waiters =>
          set_pendingRequests (delete k (pendingRequests st))
            (set_settled (settled st ++ map (fun w => (w_promise w, r)) waiters) st)
      | None => st
      end
  | None => st
  end.

Inductive Registered :=
| AsWaiter (p : nat)
| AsOwner.

(** The block [if (cacheKey) { ... }] at the head of the executor. *)
Definition register_request (rq : Request) (st : State) : Registered * State :=
  match truthy_key (rq_cacheKey rq) with
  | Some k =>
      match pendingRequests st !! k with
      | Some (w :: ws) =>
          let p := nextPromise st in
          (AsWaiter p,
           set_nextPromise (S p)
             (set_pendingRequests
                (<[k := (w :: ws) ++ [mkWaiter p (rq_params rq)]]> (pendingRequests st)) st))
      | _ => (AsOwner, set_pendingRequests (<[k := []]> (pendingRequests st)) st)
      end
  | None => (AsOwner, st)
  end.

Inductive Entered :=
| EnterThrown (e : JsError)
| EnterWaiter (p : nat)
| EnterAdmitted
| EnterQueued (startTime nextSlotTime initialDelay : Z).

(** [makeAuthenticatedRequest] from its first line to its first
    suspension inside [await this.waitForRateLimit()]. *)
Definition mar_enter (rq : Request) (st : State) : Entered * State :=
  if rq_requiresSignature rq && negb (bool_decide (is_Some (credentials st))) then
    (EnterThrown (Error "API credentials not found"), st)
  else
    let '(banned, st1) :=
      if rq_allowDuringBan rq then (false, st) else checkIfBanned st in
    if banned then (EnterThrown (ban_error st1), st1)
    else
      match register_request rq st1 with
      | (AsWaiter p, st2) => (EnterWaiter p, st2)
      | (AsOwner, st2) =>
          match waitForRateLimit_begin st2 with
          | (BeginRejected e, st3) =>
              (EnterThrown e, settle_pending (rq_cacheKey rq) (Rejected e) st3)
          | (BeginResolved, st3) => (EnterAdmitted, st3)
          | (BeginWaiting s n d, st3) => (EnterQueued s n d, st3)
          end
      end.

Definition is_query_method (m : HttpMethod) : bool :=
  match m with GET | DELETE => true | POST | PUT => false end.

(** From the slot being granted to the call of [fetch]: the request is
    built and issued.  [creds] is the value read on entry. *)
Definition mar_issue (rq : Request) (creds : option ApiKeys) (st : State) : State :=
  let params :=
    if rq_requiresSignature rq
    then params_set "timestamp" (Z_to_string (clock st)) (rq_params rq)
    else rq_params rq in
  let query0 := buildQueryString params in
  let query :=
    match rq_requiresSignature rq, creds with
    | true, Some c => query0 +:+ "&signature=" +:+ hmacSha256Hex query0 (binanceSecretKey c)
    | _, _ => query0
    end in
  let url0 := BASE_API_URL +:+ rq_endpoint rq in
  let url := if is_query_method (rq_method rq) then url0 +:+ "?" +:+ query else url0 in
  let body := if is_query_method (rq_method rq) then None else Some query in
  let apikey :=
    match creds with
    | Some c => match binanceApiKey c with EmptyString => None | k => Some k end
    | None => None
    end in
  set_network (network st ++ [mkFetch (rq_endpoint rq) (rq_method rq) url body apikey]) st.

(** The block guarded by [response.status === 418 || response.status === 429]. *)
Definition ban_from_response (status : Z) (parsed : ParsedBody) (st : State) : State :=
  if (status =? 418) || (status =? 429) then
    match parsed with
    | JsonBody (Some code) msg =>
        if code =? -1003 then
          match msg with
          | Some m =>
              match banRegex_match m with
              | Some d => setBanned (parseInt10 d) st
              | None => setBanned (clock st + twelveHoursMs) st
              end
          | None => st (* errorJson.msg.match throws; caught and logged *)
          end
        else st
    | _ => st
    end
  else st.

Definition request_failed_error (status : Z) (statusText errorText : string) : JsError :=
  Error ("Request failed: " +:+ Z_to_string status +:+ " " +:+ statusText
         +:+ " - " +:+ errorText).

Definition enhanced_error (rq : Request) (e : JsError) : JsError :=
  Error ("Network error while " +:+ method_name (rq_method rq) +:+ " "
         +:+ rq_endpoint rq +:+ ": " +:+ emessage e).

(** The outer [catch] of the executor. *)
Definition mar_catch (rq : Request) (e : JsError) (st : State) : Outcome Json * State :=
  let st1 := snd (detectBanFromError e st) in
  let enhanced := enhanced_error rq e in
  (Thrown enhanced, settle_pending (rq_cacheKey rq) (Rejected enhanced) st1).

(** From the settling of [fetch] to the end of the executor. *)
Definition mar_settle (rq : Request) (o : FetchOutcome) (st : State) : Outcome Json * State :=
  match o with
  | RespOk body =>
      let data := default (JObj []) body in
      (Returned data, settle_pending (rq_cacheKey rq) (Resolved (VJson data)) st)
  | RespError status statusText errorText parsed =>
      mar_catch rq (request_failed_error status statusText errorText)
        (ban_from_response status parsed st)
  | FetchFailed e =>
      mar_catch rq
        (if String.eqb (ename e) "AbortError"
         then Error "Request timed out after 30 seconds" else e)
        st
  end.

(** The suspension on [fetch]: time passes. *)
Definition await_fetch (st : State) : State :=
  set_suspensions (S (suspensions st))
    (set_clock (clock st + Z.of_nat (lateness (suspensions st))) st).

Definition mar_perform (rq : Request) (creds : option ApiKeys) (st : State)
  : Outcome Json * State :=
  let o := fetchOracle (length (network st)) in
  mar_settle rq o (await_fetch (mar_issue rq creds st)).

(** [makeAuthenticatedRequest] run from call to settlement with no other
    call in between. *)
Definition makeAuthenticatedRequest (rq : Request) (st : State) : Outcome Json * State :=
  let creds := credentials st in
  match mar_enter rq st with
  | (EnterThrown e, st1) => (Thrown e, st1)
  | (EnterWaiter p, st1) => (Awaiting p, st1)
  | (EnterAdmitted, st1) => mar_perform rq creds st1
  | (EnterQueued s n d, st1) =>
      match wait_loop wait_fuel s n d st1 with
      | (WaitOk, st2) => mar_perform rq creds st2
      | (WaitFailed e, st2) =>
          (Thrown e, settle_pending (rq_cacheKey rq) (Rejected e) st2)
      | (WaitOutOfFuel, st2) => (OutOfFuel, st2)
      end
  end.

(** *** Stream session *)

Definition is_open (st : State) : bool :=
  match ws st with
  | Some OPEN => true
  | _ => false
  end.

(** [connect]: the handlers it installs are [ws_onclose] and the timer
    actions below; [new WebSocket(WS_URL)] yields a socket in state
    CONNECTING. *)
Definition connect (st : State) : State :=
  if isConnecting st || is_open st then st
  else set_ws (Some CONNECTING) (set_isConnecting true st).

(** [setTimeout] / [setInterval]: a fresh handle and a pending timer. *)
Definition set_timer (a : TimerAction) (st : State) : nat * State :=
  let id := nextTimerId st in
  (id, set_nextTimerId (S id) (set_timers (timers st ++ [(id, a)]) st)).

(** [clearTimeout] / [clearInterval] *)
Definition clear_timer (id : nat) (st : State) : State :=
  set_timers (List.filter (fun t => negb (Nat.eqb (fst t) id)) (timers st)) st.

Definition startPingInterval (st : State) : State :=
  let '(id, st1) := set_timer TPing st in
  set_pingInterval (Some id) st1.

Definition stopPingInterval (st : State) : State :=
  match pingInterval st with
  | Some id => set_pingInterval None (clear_timer id st)
  | None => st
  end.

Definition startListenKeyRefresh (apiKey : string) (st : State) : State :=
  let st1 :=
    match listenKeyInterval st with
    | Some id => clear_timer id st
    | None => st
    end in
  let '(id, st2) := set_timer (TListenKeyRefresh apiKey) st1 in
  set_listenKeyInterval (Some id) st2.

Definition handleReconnect (st : State) : State :=
  if reconnectAttempts st <? maxReconnectAttempts then
    snd (set_timer TReconnect (set_reconnectAttempts (reconnectAttempts st + 1) st))
  else
    snd (set_timer TReconnectCooldown st).

(** The [onclose] handler of a socket created by [connect]. *)
Definition ws_onclose (st : State) : State :=
  handleReconnect (set_isConnecting false (stopPingInterval st)).

(** [disconnect]: the socket it closes is dropped from the field at once;
    its close event comes later and runs [ws_onclose]. *)
Definition disconnect (st : State) : State :=
  let st1 :=
    match ws st with
    | Some _ => set_ws None st
    | None => st
    end in
  let st2 := stopPingInterval st1 in
  match listenKeyInterval st2 with
  | Some id => set_listenKeyInterval None (clear_timer id st2)
  | None => st2
  end.

(** The callbacks handed to [setTimeout] by [handleReconnect]; a timeout
    is gone once it has fired. *)
Definition fire_reconnect (id : nat) (st : State) : State :=
  match List.find (fun t => Nat.eqb (fst t) id) (timers st) with
  | Some (_, TReconnect) => connect (clear_timer id st)
  | Some (_, TReconnectCooldown) =>
      connect (set_reconnectAttempts 0 (clear_timer id st))
  | _ => st
  end.

Definition send_frame (m : WireMethod) (params : list string) (st : State) : State :=
  if is_open st
  then set_wire (wire st ++ [mkWire m params (Some (clock st))]) st
  else st.

Definition sendSubscription (params : list string) (st : State) : State :=
  send_frame SUBSCRIBE params st.

Definition sendUnsubscription (params : list string) (st : State) : State :=
  send_frame UNSUBSCRIBE params st.

Definition ticker_stream (symbol : string) : string := toLowerCase symbol +:+ "@ticker".

Definition subscribe (symbol : string) (callback : nat) (st : State) : State :=
  let st1 := if is_open st then st else connect st in
  let st2 :=
    match subscribers st1 !! symbol with
    | Some _ => st1
    | None =>
        let st1' := set_subscribers (<[symbol := ∅]> (subscribers st1)) st1 in
        if is_open st1' then sendSubscription [ticker_stream symbol] st1' else st1'
    end in
  match subscribers st2 !! symbol with
  | Some ls => set_subscribers (<[symbol := ls ∪ {[callback]}]> (subscribers st2)) st2
  | None => st2
  end.

Definition unsubscribe (symbol : string) (callback : nat) (st : State) : State :=
  match subscribers st !! symbol with
  | Some ls =>
      let ls' := ls ∖ {[callback]} in
      if bool_decide (ls' = ∅) then
        let st1 := set_subscribers (delete symbol (subscribers st)) st in
        if is_open st1 then sendUnsubscription [ticker_stream symbol] st1 else st1
      else set_subscribers (<[symbol := ls']> (subscribers st)) st
  | None => st
  end.

(** *** Account information and positions *)

Definition json_truthy (v : Json) : bool :=
  match v with
  | JNull => false
  | JBool b => b
  | JNum n => num_truthy n
  | JStr EmptyString => false
  | JStr _ => true
  | JArr _ | JObj _ => true
  end.

(** [v.k]; [None] is [undefined].  The last of several equal keys wins, as
    in [JSON.parse]. *)
Definition json_get (k : string) (v : Json) : option Json :=
  match v with
  | JObj fields =>
      match List.find (fun kv => String.eqb (fst kv) k) (rev fields) with
      | Some kv => Some (snd kv)
      | None => None
      end
  | _ => None
  end.

Definition opt_truthy (v : option Json) : bool :=
  match v with
  | Some j => json_truthy j
  | None => false
  end.

Definition parseFloat' (v : option Json) : JsNumber :=
  match v with
  | Some j => parseFloat j
  | None => NaN
  end.

Definition mock_account_info (now : Z) : Json :=
  JObj [("positions", JArr []); ("assets", JArr []); ("canTrade", JBool false);
        ("canDeposit", JBool false); ("canWithdraw", JBool false);
        ("updateTime", JNum (Num (inject_Z now)));
        ("totalWalletBalance", JStr "0.00000000")].

Definition account_request : Request :=
  mkRequest "/fapi/v2/account" GET [] true (Some "account_info") 60000 false.

(** A promise pushed on the waiter list of [key]. *)
Definition push_waiter (key : string) (st : State) : nat * State :=
  let p := nextPromise st in
  (p,
   set_nextPromise (S p)
     (set_pendingRequests
        (alter (fun ws => ws ++ [mkWaiter p []]) key (pendingRequests st)) st)).

(** [pendingRequests.has(key) && pendingRequests.get(key)?.length] *)
Definition has_waiters (key : string) (st : State) : bool :=
  match pendingRequests st !! key with
  | Some (_ :: _) => true
  | _ => false
  end.

Definition cached_account (st : State) : option Json :=
  match accountInfoCache st with
  | Some c => Some (ce_data c)
  | None => None
  end.

(** The [catch] block of [getAccountInfo]. *)
Definition getAccountInfo_catch (e : JsError) (st : State) : Outcome Json * State :=
  let st1 := snd (detectBanFromError e st) in
  let '(banned, st2) := checkIfBanned st1 in
  if banned || str_includes (error_toString e) "rate limit" then
    match cached_account st2 with
    | Some d => (Returned d, st2)
    | None => (Thrown e, st2)
    end
  else (Thrown e, st2).

(** The [try] block of [getAccountInfo]; [now] was read on entry. *)
Definition getAccountInfo_try (now : Z) (st : State) : Outcome Json * State :=
  if has_waiters "account_info" st then
    let '(p, st1) := push_waiter "account_info" st in (Awaiting p, st1)
  else
    let st1 := set_pendingRequests (<["account_info" := []]> (pendingRequests st)) st in
    match makeAuthenticatedRequest account_request st1 with
    | (Returned data, st2) =>
        (Returned data,
         if json_truthy data
         then set_accountInfoCache (Some (mkCache data now)) st2
         else st2)
    | (Thrown e, st2) => getAccountInfo_catch e st2
    | other => other
    end.

Definition cache_is_fresh (now : Z) (st : State) : bool :=
  match accountInfoCache st with
  | Some c => now - ce_timestamp c <? 60000
  | None => false
  end.

Definition getAccountInfo (st : State) : Outcome Json * State :=
  let now := clock st in
  if cache_is_fresh now st then
    (Returned (default JNull (cached_account st)), st)
  else
    let '(banned, st1) := checkIfBanned st in
    if banned then
      (Returned (default (mock_account_info (clock st1)) (cached_account st1)), st1)
    else getAccountInfo_try now st1.

(** One element of [accountInfo.positions] under the filter and the map
    of [getOpenPositions]; reading a property of [null] throws. *)
Definition position_of (p : Json) : JsError + option Position :=
  match p with
  | JNull =>
      inl (mkError "TypeError" "Cannot read properties of null (reading 'positionAmt')")
  | _ =>
      let amt := parseFloat' (json_get "positionAmt" p) in
      let keep := match amt with NaN => true | Num q => negb (Qeq_bool q 0) end in
      if keep then
        inr (Some (mkPosition
               (default JNull (json_get "symbol" p))
               (match amt with Num q => if Qlt_le_dec 0 q then LONG else SHORT | NaN => SHORT end)
               (match amt with Num q => Num (Qabs q) | NaN => NaN end)
               (parseFloat' (json_get "entryPrice" p))
               (parseFloat' (json_get "markPrice" p))
               (parseFloat' (json_get "unrealizedProfit" p))
               (parseFloat' (json_get "leverage" p))))
      else inr None
  end.

Fixpoint positions_of (items : list Json) : JsError + list Position :=
  match items with
  | [] => inr []
  | p :: rest =>
      match position_of p with
      | inl e => inl e
      | inr o =>
          match positions_of rest with
          | inl e => inl e
          | inr ps => inr (match o with Some x => x :: ps | None => ps end)
          end
      end
  end.

(** The [catch] block of [getOpenPositions]. *)
Definition getOpenPositions_catch (e : JsError) (st : State)
  : Outcome (list Position) * State :=
  let st1 := snd (detectBanFromError e st) in
  let waiters := default [] (pendingRequests st1 !! "open_positions") in
  (Returned [],
   set_pendingRequests (delete "open_positions" (pendingRequests st1))
     (set_settled (settled st1 ++ map (fun w => (w_promise w, Rejected e)) waiters) st1)).

(** [getAccountInfo().catch(async (error) => ...)]: one more try after a
    rate-limit failure, two seconds later. *)
Definition account_info_with_retry (st : State) : Outcome Json * State :=
  match getAccountInfo st with
  | (Thrown e, st1) =>
      if str_includes (error_toString e) "rate limit"
      then getAccountInfo (sleep (2 ^ 1 * 1000) st1)
      else (Thrown e, st1)
  | other => other
  end.

(** What [getOpenPositions] does with the account information. *)
Definition getOpenPositions_extract (accountInfo : Json) (st : State)
  : Outcome (list Position) * State :=
  if json_truthy accountInfo && opt_truthy (json_get "positions" accountInfo) then
    match json_get "positions" accountInfo with
    | Some (JArr items) =>
        match positions_of items with
        | inr positions =>
            let waiters := default [] (pendingRequests st !! "open_positions") in
            (Returned positions,
             set_pendingRequests (delete "open_positions" (pendingRequests st))
               (set_settled
                  (settled st ++ map (fun w => (w_promise w, Resolved (VPositions positions))) waiters)
                  st))
        | inl e => getOpenPositions_catch e st
        end
    | _ =>
        getOpenPositions_catch
          (mkError "TypeError" "accountInfo.positions.filter is not a function") st
    end
  else (Returned [], st).

Definition getOpenPositions (st : State) : Outcome (list Position) * State :=
  if has_waiters "open_positions" st then
    let '(p, st1) := push_waiter "open_positions" st in (Awaiting p, st1)
  else
    let st1 := set_pendingRequests (<["open_positions" := []]> (pendingRequests st)) st in
    match account_info_with_retry st1 with
    | (Returned accountInfo, st2) => getOpenPositions_extract accountInfo st2
    | (Thrown e, st2) => getOpenPositions_catch e st2
    | (Awaiting p, st2) => (Awaiting p, st2)
    | (OutOfFuel, st2) => (OutOfFuel, st2)
    end.

(** *** Order gateway *)

(** [symbol.replace('/', '')] *)
Fixpoint remove_first_slash (s : string) : string :=
  match s with
  | EmptyString => EmptyString
  | String c s' => if Ascii.eqb c "/" then s' else String c (remove_first_slash s')
  end.

Definition leverage_request (symbol : string) (leverage : JsNumber) : Request :=
  mkRequest "/fapi/v1/leverage" POST
    [("symbol", remove_first_slash symbol); ("leverage", numberToString leverage)]
    true
    (Some ("leverage_" +:+ symbol +:+ "_" +:+ numberToString leverage))
    30000 false.

Definition setLeverage (symbol : string) (leverage : JsNumber) (st : State)
  : Outcome unit * State :=
  match makeAuthenticatedRequest (leverage_request symbol leverage) st with
  | (Returned _, st1) => (Returned tt, st1)
  | (Thrown e, st1) => (Thrown e, st1)
  | (Awaiting p, st1) => (Awaiting p, st1)
  | (OutOfFuel, st1) => (OutOfFuel, st1)
  end.

Definition price_truthy (price : option JsNumber) : bool :=
  match price with
  | Some p => num_truthy p
  | None => false
  end.

Definition is_limit (t : OrderType) : bool :=
  match t with LIMIT => true | MARKET => false end.

Definition order_params (symbol : string) (side : Side) (type : OrderType)
    (quantity : JsNumber) (price : option JsNumber) : list (string * string) :=
  [("symbol", remove_first_slash symbol); ("side", side_name side);
   ("type", type_name type); ("quantity", numberToString quantity)]
  ++ (match price with
      | Some p => if num_truthy p && is_limit type then [("price", numberToString p)] else []
      | None => []
      end)
  ++ (if is_limit type then [("timeInForce", "GTC")] else []).

Definition order_request (symbol : string) (side : Side) (type : OrderType)
    (quantity : JsNumber) (price : option JsNumber) : Request :=
  mkRequest "/fapi/v1/order" POST
    (order_params symbol side type quantity price)
    true
    (Some ("order_" +:+ symbol +:+ "_" +:+ side_name side +:+ "_" +:+ type_name type
           +:+ "_" +:+ numberToString quantity +:+ "_"
           +:+ (match price with
                | Some p => if num_truthy p then numberToString p else EmptyString
                | None => EmptyString
                end)))
    30000 false.

(** The object literal returned on success; evaluating it throws when the
    response is [null] or carries a [time] that is no date. *)
Definition build_trade (data : Json) (symbol : string) (side : Side) (type : OrderType)
    (quantity : JsNumber) (price leverage : option JsNumber) (now : Z) : JsError + Trade :=
  match data with
  | JNull => inl (mkError "TypeError" "Cannot read properties of null (reading 'orderId')")
  | _ =>
      if opt_truthy (json_get "time" data)
         && negb (isValidTime (default JNull (json_get "time" data)))
      then inl (mkError "RangeError" "Invalid time value")
      else inr (mkTrade data symbol side type quantity price leverage now)
  end.

Definition maxAttempts : nat := 3.

(** The errors after which [placeOrder] does not try again. *)
Definition is_non_transient (msg : string) : bool :=
  str_includes msg "Invalid API-key" || str_includes msg "Signature"
  || str_includes msg "Parameter" || str_includes msg "banned".

(** The loop [while (attempts < maxAttempts)], on the number of attempts
    left.  The request object is the same at every attempt: the only
    field the executor writes to it, [timestamp], is written again by
    the next attempt. *)
Fixpoint order_loop (remaining : nat) (rq : Request)
    (finish : Json -> Z -> JsError + Trade) (st : State) : Outcome Trade * State :=
  match remaining with
  | O => (Thrown (Error ("Failed to place order after "
                         +:+ Z_to_string (Z.of_nat maxAttempts) +:+ " attempts")), st)
  | S remaining' =>
      (* the value of [attempts] after [attempts++] in the catch block *)
      let attempts := Z.of_nat maxAttempts - Z.of_nat remaining' in
      match makeAuthenticatedRequest rq st with
      | (Returned data, st1) =>
          match finish data (clock st1) with
          | inr trade => (Returned trade, st1)
          | inl e =>
              if (Z.of_nat maxAttempts <=? attempts) || is_non_transient (emessage e)
              then (Thrown e, st1)
              else order_loop remaining' rq finish (sleep (2 ^ attempts * 1000) st1)
          end
      | (Thrown e, st1) =>
          if (Z.of_nat maxAttempts <=? attempts) || is_non_transient (emessage e)
          then (Thrown e, st1)
          else order_loop remaining' rq finish (sleep (2 ^ attempts * 1000) st1)
      | (Awaiting p, st1) => (Awaiting p, st1)
      | (OutOfFuel, st1) => (OutOfFuel, st1)
      end
  end.

(** The message of the error [placeOrder] throws in the end. *)
Definition user_message (e : JsError) : string :=
  let m := emessage e in
  if str_includes m "Failed to fetch" then
    "Network error: Could not connect to Binance API. Please check your internet connection."
  else if str_includes m "banned" then
    "Your IP is currently banned by Binance. Please try again later."
  else if str_includes m "Invalid API-key" then
    "Invalid API credentials. Please check your API key and secret."
  else if str_includes m "Signature" then
    "Authentication error. Please check your API credentials."
  else if str_includes m "Parameter" then
    "Invalid order parameters. Please check your order details."
  else "Error: " +:+ m.

Definition price_required_error : JsError := Error "Price is required for LIMIT orders".
Definition invalid_parameters_error : JsError := Error "Invalid order parameters".
Definition offline_error : JsError := Error "No internet connection available".

(** [if (leverage) { try { await this.setLeverage(...) } catch { } }]: a
    failure to set the leverage is logged and forgotten. *)
Definition preset_leverage (symbol : string) (leverage : option JsNumber) (st : State)
  : Outcome unit * State :=
  match leverage with
  | Some l =>
      if num_truthy l then
        match setLeverage symbol l st with
        | (Returned _, st1) | (Thrown _, st1) => (Returned tt, st1)
        | other => other
        end
      else (Returned tt, st)
  | None => (Returned tt, st)
  end.

(** [if (!this.isConnected) await this.connect()] *)
Definition ensure_connected (st : State) : State :=
  if is_open st then st else connect st.

Definition price_unusable (price : option JsNumber) : bool :=
  negb (price_truthy price)
  || match price with Some p => num_le0 p | None => false end.

(** The [try] block of [placeOrder]. *)
Definition placeOrder_try (symbol : string) (side : Side) (type : OrderType)
    (quantity : JsNumber) (price leverage : option JsNumber) (st : State)
  : Outcome Trade * State :=
  if negb (onLine st) then (Thrown offline_error, st)
  else
    let st1 := ensure_connected st in
    if bool_decide (symbol = EmptyString) || negb (num_truthy quantity) || num_le0 quantity
    then (Thrown invalid_parameters_error, st1)
    else if is_limit type && price_unusable price
    then (Thrown price_required_error, st1)
    else
      match preset_leverage symbol leverage st1 with
      | (Returned _, st2) =>
          order_loop maxAttempts
            (order_request symbol side type quantity price)
            (fun data now =>
               build_trade data symbol side type quantity price leverage now)
            st2
      | (Thrown e, st2) => (Thrown e, st2)
      | (Awaiting p, st2) => (Awaiting p, st2)
      | (OutOfFuel, st2) => (OutOfFuel, st2)
      end.

Definition placeOrder (symbol : string) (side : Side) (type : OrderType)
    (quantity : JsNumber) (price leverage : option JsNumber) (st : State)
  : Outcome Trade * State :=
  match placeOrder_try symbol side type quantity price leverage st with
  | (Thrown e, st1) => (Thrown (Error (user_message e)), st1)
  | other => other
  end.

(** The [fetch] calls made to an endpoint. *)
Definition requests_to (endpoint : string) (st : State) : list FetchReq :=
  List.filter (fun r => String.eqb (fr_endpoint r) endpoint) (network st).

(** The frames of one kind sent for a stream. *)
Definition frames_for (m : WireMethod) (stream : string) (st : State) : list WireMsg :=
  List.filter
    (fun f => same_method (wm_method f) m && bool_decide (wm_params f = [stream]))
    (wire st).

(** *** Kline, depth and account streams *)

Definition kline_key (symbol interval : string) : string := symbol +:+ "_" +:+ interval.

Definition kline_stream (symbol interval : string) : string :=
  toLowerCase symbol +:+ "@kline_" +:+ interval.

Definition depth_stream (symbol : string) : string := toLowerCase symbol +:+ "@depth20@100ms".

Definition subscribeKlines (symbol interval : string) (callback : nat) (st : State) : State :=
  let st1 := if is_open st then st else connect st in
  let key := kline_key symbol interval in
  let st2 :=
    match klineSubscribers st1 !! key with
    | Some _ => st1
    | None =>
        let st1' := set_klineSubscribers (<[key := ∅]> (klineSubscribers st1)) st1 in
        if is_open st1' then sendSubscription [kline_stream symbol interval] st1' else st1'
    end in
  match klineSubscribers st2 !! key with
  | Some ls => set_klineSubscribers (<[key := ls ∪ {[callback]}]> (klineSubscribers st2)) st2
  | None => st2
  end.

Definition subscribeDepth (symbol : string) (callback : nat) (st : State) : State :=
  let st1 := if is_open st then st else connect st in
  let st2 :=
    match depthSubscribers st1 !! symbol with
    | Some _ => st1
    | None =>
        let st1' := set_depthSubscribers (<[symbol := ∅]> (depthSubscribers st1)) st1 in
        if is_open st1' then sendSubscription [depth_stream symbol] st1' else st1'
    end in
  match depthSubscribers st2 !! symbol with
  | Some ls => set_depthSubscribers (<[symbol := ls ∪ {[callback]}]> (depthSubscribers st2)) st2
  | None => st2
  end.

(** [if (this.listenKey)]: a key that is held and is not the empty string. *)
Definition held_listenKey (st : State) : option string := truthy_key (listenKey st).

Definition subscribeAccount (callback : nat) (st : State) : State :=
  let st1 := set_accountSubscribers (accountSubscribers st ∪ {[callback]}) st in
  if is_open st1 then
    match held_listenKey st1 with
    | Some k => sendSubscription [k] st1
    | None => st1
    end
  else connect st1.

Definition unsubscribeKlines (symbol interval : string) (callback : nat) (st : State) : State :=
  let key := kline_key symbol interval in
  match klineSubscribers st !! key with
  | Some ls =>
      let ls' := ls ∖ {[callback]} in
      if bool_decide (ls' = ∅) then
        let st1 := set_klineSubscribers (delete key (klineSubscribers st)) st in
        if is_open st1 then sendUnsubscription [kline_stream symbol interval] st1 else st1
      else set_klineSubscribers (<[key := ls']> (klineSubscribers st)) st
  | None => st
  end.

Definition unsubscribeDepth (symbol : string) (callback : nat) (st : State) : State :=
  match depthSubscribers st !! symbol with
  | Some ls =>
      let ls' := ls ∖ {[callback]} in
      if bool_decide (ls' = ∅) then
        let st1 := set_depthSubscribers (delete symbol (depthSubscribers st)) st in
        if is_open st1 then sendUnsubscription [depth_stream symbol] st1 else st1
      else set_depthSubscribers (<[symbol := ls']> (depthSubscribers st)) st
  | None => st
  end.

Definition unsubscribeAccount (callback : nat) (st : State) : State :=
  let st1 := set_accountSubscribers (accountSubscribers st ∖ {[callback]}) st in
  if bool_decide (accountSubscribers st1 = ∅) && is_open st1 then
    match held_listenKey st1 with
    | Some k => sendUnsubscription [k] st1
    | None => st1
    end
  else st1.

(** *** Incoming messages *)

(** [String(v)], which is also what a template literal makes of [v]: an
    array is the list of its elements separated by commas, [null] among
    them being left empty. *)
Fixpoint js_toString (v : Json) : string :=
  match v with
  | JNull => "null"
  | JBool true => "true"
  | JBool false => "false"
  | JNum n => numberToString n
  | JStr s => s
  | JArr items =>
      join_with ","
        (map (fun item => match item with JNull => EmptyString | _ => js_toString item end)
             items)
  | JObj _ => "[object Object]"
  end.

(** [`${v}`] for a property that may be missing. *)
Definition template (v : option Json) : string :=
  match v with
  | Some j => js_toString j
  | None => "undefined"
  end.

(** [v === literal] for a string literal *)
Definition is_literal (literal : string) (v : option Json) : bool :=
  match v with
  | Some (JStr s) => String.eqb s literal
  | _ => false
  end.

(** [symbol && registry.has(symbol)]: the keys of a registry are strings. *)
Definition listeners_of (registry : gmap string (gset nat)) (symbol : option Json)
  : option (string * gset nat) :=
  match symbol with
  | Some (JStr (String c s' as k)) =>
      match registry !! k with
      | Some ls => Some (k, ls)
      | None => None
      end
  | _ => None
  end.

Definition cannot_read (what property : string) : JsError :=
  mkError "TypeError"
    ("Cannot read properties of " +:+ what +:+ " (reading '" +:+ property +:+ "')").

(** [handleMessage]: reading a property of [null] or [undefined] throws;
    what a listener throws is caught and logged listener by listener. *)
Definition handleMessage (data : Json) (st : State) : JsError + Dispatch :=
  match data with
  | JNull => inl (cannot_read "null" "id")
  | _ =>
      let e := json_get "e" data in
      if is_literal "pong" (json_get "id" data) then inr Dropped
      else if is_literal "24hrTicker" e then
        match listeners_of (subscribers st) (json_get "s" data) with
        | Some (symbol, ls) =>
            inr (Delivered
                   (PTicker (mkMarketData symbol
                               (parseFloat' (json_get "c" data))
                               (parseFloat' (json_get "p" data))
                               (parseFloat' (json_get "P" data))
                               (parseFloat' (json_get "v" data))
                               (parseFloat' (json_get "h" data))
                               (parseFloat' (json_get "l" data))
                               (clock st)))
                   ls)
        | None => inr Dropped
        end
      else if is_literal "kline" e then
        match json_get "k" data with
        | None => inl (cannot_read "undefined" "i")
        | Some JNull => inl (cannot_read "null" "i")
        | Some k =>
            let key := template (json_get "s" data) +:+ "_" +:+ template (json_get "i" k) in
            match klineSubscribers st !! key with
            | Some ls =>
                inr (Delivered
                       (PKline (mkKlineEvent (json_get "t" k)
                                  (parseFloat' (json_get "o" k))
                                  (parseFloat' (json_get "h" k))
                                  (parseFloat' (json_get "l" k))
                                  (parseFloat' (json_get "c" k))
                                  (parseFloat' (json_get "v" k))
                                  (json_get "x" k)))
                       ls)
            | None => inr Dropped
            end
        end
      else if is_literal "depthUpdate" e then
        match listeners_of (depthSubscribers st) (json_get "s" data) with
        | Some (_, ls) => inr (Delivered (PRaw data) ls)
        | None => inr Dropped
        end
      else if is_literal "ACCOUNT_UPDATE" e || is_literal "ORDER_TRADE_UPDATE" e then
        inr (Delivered (PRaw data) (accountSubscribers st))
      else inr Dropped
  end.

(** The [onmessage] handler of the socket; [parsed] is what [JSON.parse]
    makes of the text of the event, [None] when it throws.  Whatever is
    thrown on the way is caught and logged. *)
Definition ws_onmessage (parsed : option Json) (st : State) : Dispatch :=
  match parsed with
  | Some data =>
      match handleMessage data st with
      | inr d => d
      | inl _ => Dropped
      end
  | None => Dropped
  end.

(** The callback of [klineSubscribers.forEach] in [resubscribeAll], which
    takes the symbol and the interval back out of the key. *)
Definition resubscribe_kline (key : string) (st : State) : State :=
  let parts := split_on "_" key in
  let symbol := default EmptyString (parts !! 0%nat) in
  let interval := template (JStr <$> parts !! 1%nat) in
  sendSubscription [toLowerCase symbol +:+ "@kline_" +:+ interval] st.

(** *** Order history *)

(** [symbol || 'all'] *)
Definition symbol_or_all (symbol : option string) : string :=
  default "all" (truthy_key symbol).

Definition history_key (symbol : option string) : string :=
  "orderHistory_" +:+ symbol_or_all symbol.

Definition history_request (symbol : option string) : Request :=
  mkRequest "/fapi/v1/allOrders" GET
    ([("limit", "50")]
     ++ match truthy_key symbol with
        | Some s => [("symbol", remove_first_slash s)]
        | None => []
        end)
    true
    (Some ("orders_" +:+ symbol_or_all symbol))
    60000 false.

(** The object literal built for one order; its fields are evaluated in
    the order written, so a missing [orderId] is reported before a [time]
    that is no date. *)
Definition trade_of_order (order : Json) : JsError + HistoryTrade :=
  match order with
  | JNull => inl (cannot_read "null" "orderId")
  | _ =>
      match json_get "orderId" order with
      | None => inl (cannot_read "undefined" "toString")
      | Some JNull => inl (cannot_read "null" "toString")
      | Some orderId =>
          match json_get "time" order with
          | Some time =>
              if isValidTime time then
                inr (mkHistoryTrade
                       (js_toString orderId)
                       (json_get "symbol" order)
                       (json_get "side" order)
                       (json_get "type" order)
                       (parseFloat' (json_get "origQty" order))
                       (parseFloat' (json_get "price" order))
                       (num_or (parseFloat' (json_get "avgPrice" order))
                          (num_or (parseFloat' (json_get "price" order)) (Num 0)))
                       time
                       (json_get "status" order))
              else inl (mkError "RangeError" "Invalid time value")
          | None => inl (mkError "RangeError" "Invalid time value")
          end
      end
  end.

Fixpoint trades_of (items : list Json) : JsError + list HistoryTrade :=
  match items with
  | [] => inr []
  | order :: rest =>
      match trade_of_order order with
      | inl e => inl e
      | inr trade =>
          match trades_of rest with
          | inl e => inl e
          | inr trades => inr (trade :: trades)
          end
      end
  end.

(** [orders.map(...)] on what the executor answered. *)
Definition trades_of_orders (orders : Json) : JsError + list HistoryTrade :=
  match orders with
  | JArr items => trades_of items
  | JNull => inl (cannot_read "null" "map")
  | _ => inl (mkError "TypeError" "orders.map is not a function")
  end.

Definition with_state (st : State) (s : Session) : Session :=
  mkSession st (orderHistoryCache s).

(** The [catch] block of [getOrderHistory]. *)
Definition getOrderHistory_catch (e : JsError)
    (cachedEntry : option (CacheEntry (list HistoryTrade))) (st : State) (s : Session)
  : Outcome (list HistoryTrade) * Session :=
  let st1 := snd (detectBanFromError e st) in
  match cachedEntry with
  | Some c => (Returned (ce_data c), with_state st1 s)
  | None => (Thrown e, with_state st1 s)
  end.

(** [cachedEntry && now - cachedEntry.timestamp < 60000] *)
Definition history_is_fresh (now : Z) (cachedEntry : option (CacheEntry (list HistoryTrade)))
  : bool :=
  match cachedEntry with
  | Some c => now - ce_timestamp c <? 60000
  | None => false
  end.

Definition getOrderHistory (symbol : option string) (s : Session)
  : Outcome (list HistoryTrade) * Session :=
  let cacheKey := history_key symbol in
  let now := clock (ss_state s) in
  let cachedEntry := orderHistoryCache s !! cacheKey in
  if history_is_fresh now cachedEntry then
    (Returned (default [] (ce_data <$> cachedEntry)), s)
  else
    let '(banned, st1) := checkIfBanned (ss_state s) in
    if banned then (Returned (default [] (ce_data <$> cachedEntry)), with_state st1 s)
    else
      match makeAuthenticatedRequest (history_request symbol) st1 with
      | (Returned orders, st2) =>
          match trades_of_orders orders with
          | inr trades =>
              (Returned trades,
               mkSession st2 (<[cacheKey := mkCache trades now]> (orderHistoryCache s)))
          | inl e => getOrderHistory_catch e cachedEntry st2 s
          end
      | (Thrown e, st2) => getOrderHistory_catch e cachedEntry st2 s
      | (Awaiting p, st2) => (Awaiting p, with_state st2 s)
      | (OutOfFuel, st2) => (OutOfFuel, with_state st2 s)
      end.

(** *** Callers in the hooks *)

(** [retryWithBackoff] of [hooks/useTrades.ts], on the number of attempts
    left; with no attempt to make the loop is not entered and the function
    returns [undefined], which is [None]. *)
Fixpoint retry_loop {A : Type} (remaining : nat) (retries : nat) (delay : Z)
    (fn : State -> Outcome A * State) (st : State) : Outcome (option A) * State :=
  match remaining with
  | O => (Returned None, st)
  | S remaining' =>
      let attempt := Z.of_nat retries - Z.of_nat remaining' in
      match fn st with
      | (Returned a, st1) => (Returned (Some a), st1)
      | (Thrown e, st1) =>
          if attempt =? Z.of_nat retries then (Thrown e, st1)
          else retry_loop remaining' retries delay fn (sleep (delay * 2 ^ attempt) st1)
      | (Awaiting p, st1) => (Awaiting p, st1)
      | (OutOfFuel, st1) => (OutOfFuel, st1)
      end
  end.

Definition retryWithBackoff {A : Type} (fn : State -> Outcome A * State)
    (retries : nat) (delay : Z) (st : State) : Outcome (option A) * State :=
  retry_loop retries retries delay fn st.

(** The request [getListenKey] hands to the executor: no signature, and
    allowed during a ban. *)
Definition listenKey_request : Request :=
  mkRequest "/fapi/v1/listenKey" POST [] false (Some "listenKey") 30000 true.

(** *** States used in examples *)

(** The singleton as its constructor leaves it, in a browser that is on
    line, with nothing stored and no credentials. *)
Definition initial_state : State :=
  mkState None None ∅ ∅ ∅ ∅ None None 0 false [] ∅ None (mkBanInfo false 0) 0
          None true ∅ 0 [] 1 [] [] [] 0 0.

Definition set_credentials (c : option ApiKeys) (s : State) : State :=
  mkState (ws s) (pingInterval s) (subscribers s) (accountSubscribers s)
    (klineSubscribers s) (depthSubscribers s) (listenKey s) (listenKeyInterval s)
    (reconnectAttempts s) (isConnecting s) (requestTimestamps s) (pendingRequests s)
    (accountInfoCache s) (banInfo s) (lastBanCheckTime s) c (onLine s)
    (localStorage s) (clock s) (timers s) (nextTimerId s) (wire s) (network s)
    (settled s) (nextPromise s) (suspensions s).

Definition set_onLine (b : bool) (s : State) : State :=
  mkState (ws s) (pingInterval s) (subscribers s) (accountSubscribers s)
    (klineSubscribers s) (depthSubscribers s) (listenKey s) (listenKeyInterval s)
    (reconnectAttempts s) (isConnecting s) (requestTimestamps s) (pendingRequests s)
    (accountInfoCache s) (banInfo s) (lastBanCheckTime s) (credentials s) b
    (localStorage s) (clock s) (timers s) (nextTimerId s) (wire s) (network s)
    (settled s) (nextPromise s) (suspensions s).

Definition test_keys : ApiKeys := mkKeys "key" "secret".

(** A session with credentials at time 1 000 000. *)
Definition ready_state : State :=
  set_clock 1000000 (set_credentials (Some test_keys) initial_state).

(** The same session with the stream socket open. *)
Definition open_state : State := set_ws (Some OPEN) ready_state.

(** A ban that ended at 1 000 whose flag is still set at 2 000. *)
Definition stale_ban_state : State :=
  set_clock 2000 (set_banInfo (mkBanInfo true 1000) initial_state).

End Core.

Arguments Returned {A} _.
Arguments Thrown {A} _.
Arguments Awaiting {A} _.
Arguments OutOfFuel {A}.

Arguments set_ws _ _ /.
Arguments set_pingInterval _ _ /.
Arguments set_subscribers _ _ /.
Arguments set_accountSubscribers _ _ /.
Arguments set_listenKey _ _ /.
Arguments set_listenKeyInterval _ _ /.
Arguments set_reconnectAttempts _ _ /.
Arguments set_isConnecting _ _ /.
Arguments set_requestTimestamps _ _ /.
Arguments set_pendingRequests _ _ /.
Arguments set_accountInfoCache _ _ /.
Arguments set_banInfo _ _ /.
Arguments set_lastBanCheckTime _ _ /.
Arguments set_localStorage _ _ /.
Arguments set_clock _ _ /.
Arguments set_timers _ _ /.
Arguments set_nextTimerId _ _ /.
Arguments set_wire _ _ /.
Arguments set_network _ _ /.
Arguments set_settled _ _ /.
Arguments set_nextPromise _ _ /.
Arguments set_suspensions _ _ /.
Arguments set_credentials _ _ /.
Arguments set_onLine _ _ /.
Arguments set_klineSubscribers _ _ /.
Arguments set_depthSubscribers _ _ /.

(** ** Inputs used in examples *)

(** A platform for examples: dates print as their epoch value, numbers that
    are integers print in decimal, nothing is escaped or signed, and every
    suspension lasts exactly as long as asked. *)
Definition plain_date (t : Z) : string := Z_to_string t.
Definition plain_encode (s : string) : string := s.
Definition plain_hmac (msg key : string) : string := "0".
Definition plain_number (n : JsNumber) : string :=
  match n with
  | NaN => "NaN"
  | Num q => Z_to_string (Qnum q / Z.pos (Qden q))
  end.
Definition plain_parseFloat (v : Json) : JsNumber :=
  match v with
  | JNum n => n
  | _ => NaN
  end.
Definition on_time (n : nat) : nat := 0%nat.
Definition any_time_valid (v : Json) : bool := true.

Definition quoted (s : string) : string := dquote +:+ s +:+ dquote.

(** The body of an error response: an object with [code] and [msg]. *)
Definition json_error_text (code msg : string) : string :=
  "{" +:+ quoted "code" +:+ ":" +:+ code +:+ "," +:+ quoted "msg" +:+ ":"
  +:+ quoted msg +:+ "}".

Definition ban_notice : string :=
  "Way too many requests; IP(1.2.3.4) banned until 1700000000000. Please use the websocket for live updates to avoid bans.".

Definition order_limit_notice : string :=
  "Too many new orders; current limit is 300 orders per TEN_SECONDS.".

(** A 418 that announces the ban and its end. *)
Definition ban_response : FetchOutcome :=
  RespError 418 "I'm a teapot" (json_error_text "-1003" ban_notice)
    (JsonBody (Some (-1003)) (Some ban_notice)).

(** A 429 for the order rate limit: code -1015, no ban announced. *)
Definition order_limit_response : FetchOutcome :=
  RespError 429 "Too Many Requests" (json_error_text "-1015" order_limit_notice)
    (JsonBody (Some (-1015)) (Some order_limit_notice)).

(** Four hundred requests recorded one millisecond apart from 1 000 000 on,
    seen at 1 030 401 by a call that began to wait at 1 000 400. *)
Definition saturated_state : State :=
  set_requestTimestamps (map (fun i => 1000000 + Z.of_nat i) (seq 0 400))
    (set_clock 1030401 ready_state).

(** The session with the browser off line. *)
Definition offline_state : State := set_onLine false ready_state.

Definition invalid_key_notice : string :=
  "Invalid API-key, IP, or permissions for action.".

(** A 401 for a key the venue does not accept. *)
Definition invalid_key_response : FetchOutcome :=
  RespError 401 "Unauthorized" (json_error_text "-2015" invalid_key_notice)
    (JsonBody (Some (-2015)) (Some invalid_key_notice)).



(** The open session after its socket has dropped: the close handler has
    run and armed a reconnect timer. *)
Definition dropped_state : State := ws_onclose (set_ws (Some CLOSED) open_state).

(** A venue that answers every request with an empty list of orders. *)
Definition no_orders (n : nat) : FetchOutcome := RespOk (Some (JArr [])).

(** A network that is down. *)
Definition network_down (n : nat) : FetchOutcome :=
  FetchFailed (mkError "TypeError" "Failed to fetch").

(** The session under a ban that lasts until 2 000 000. *)
Definition banned_state : State := set_banInfo (mkBanInfo true 2000000) ready_state.

(** The request [getOrderHistory()] hands to the executor. *)
Definition orders_request : Request :=
  mkRequest "/fapi/v1/allOrders" GET [("limit", "50")] true (Some "orders_all") 60000 false.

(** Four hundred requests recorded at 940 500, seen at 1 000 000: the
    window is full for another half second. *)
Definition busy_state : State :=
  set_requestTimestamps (repeat 940500 400) ready_state.

(** An account with a flat position, a long one and a short one. *)
Definition account_with_positions : Json :=
  JObj [("positions",
         JArr [JObj [("symbol", JStr "BTCUSDT"); ("positionAmt", JNum (Num 0))];
               JObj [("symbol", JStr "ETHUSDT"); ("positionAmt", JNum (Num 2))];
               JObj [("symbol", JStr "BNBUSDT"); ("positionAmt", JNum (Num (-3)))]])].

(** A 24-hour ticker event as the venue sends it. *)
Definition ticker_message : Json :=
  JObj [("e", JStr "24hrTicker"); ("E", JNum (Num 1700000000000)); ("s", JStr "BTCUSDT");
        ("c", JStr "50000.10"); ("p", JStr "120.50"); ("P", JStr "0.24");
        ("v", JStr "1000"); ("h", JStr "50500"); ("l", JStr "49000")].

(** The answer of the venue to a request for the orders: one filled order. *)
Definition order_list : Json :=
  JArr [JObj [("orderId", JNum (Num 42)); ("symbol", JStr "BTCUSDT");
              ("side", JStr "BUY"); ("type", JStr "MARKET"); ("status", JStr "FILLED");
              ("origQty", JNum (Num 1)); ("price", JNum (Num 0));
              ("avgPrice", JNum (Num 50000)); ("time", JNum (Num 1700000000000))]].

(** A session that has asked for no order history yet. *)
Definition new_session : Session := mkSession ready_state ∅.





(** A banned session that holds account information fetched at time 0. *)
Definition banned_cached_state : State :=
  set_accountInfoCache (Some (mkCache account_with_positions 0)) banned_state.

(** ** Vocabulary of the properties *)

(** The message [msg] carries the ban pattern with the digits [d]: the text
    ["IP(" ... ") banned until " d] on one line, the first ["IP("] of the
    message opening it, [d] being the whole run of digits, and no second
    [") banned until "] after it. *)
Definition carries_ban_pattern (msg d : string) : Prop :=
  exists pre mid rest,
    msg = pre +:+ "IP(" +:+ mid +:+ ") banned until " +:+ d +:+ rest
    /\ str_includes pre "IP(" = false
    /\ no_line_terminator mid = true
    /\ d <> EmptyString
    /\ all_digits d = true
    /\ starts_with_digit rest = false
    /\ str_includes rest ") banned until " = false.

(** What an HTTP error response tells the ban guard, and the time the ban is
    to last until: the exact timestamp of the pattern; or, when the message
    has no such pattern, twelve hours from now for a 418, and for a 429
    whose JSON body has code -1003 and a [msg] without the pattern. *)
Inductive BanSignal (now status : Z) (message : string) (parsed : ParsedBody) : Z -> Prop :=
| SignalTimestamp d :
    carries_ban_pattern message d ->
    digits_value 0 d < 2 ^ 53 ->
    BanSignal now status message parsed (digits_value 0 d)
| SignalTeapot :
    banRegex_match message = None ->
    status = 418 ->
    BanSignal now status message parsed (now + twelveHoursMs)
| SignalRateLimitCode m :
    banRegex_match message = None ->
    status = 429 ->
    parsed = JsonBody (Some (-1003)) (Some m) ->
    banRegex_match m = None ->
    BanSignal now status message parsed (now + twelveHoursMs).

(** No call is registered as a waiter: every list of [pendingRequests] is
    empty. *)
Definition no_waiters (st : State) : Prop :=
  forall k ws, pendingRequests st !! k = Some ws -> ws = [].

(** [st'] differs from [st] in nothing a request can be observed by: the
    same [fetch] calls, the same pending table, the same settlements, the
    same credentials, and a clock that has not gone back. *)
Definition quiet (st st' : State) : Prop :=
  network st' = network st
  /\ pendingRequests st' = pendingRequests st
  /\ settled st' = settled st
  /\ credentials st' = credentials st
  /\ clock st <= clock st'.

(** The errors of the limiter: the timeout and the ban. *)
Definition limiter_error (toLocaleString : Z -> string) (e : JsError) : Prop :=
  (exists sx, e = timeout_error sx) \/ (exists sx, e = ban_error toLocaleString sx).

(** How a run of the executor for [rq] from [st] ends: refused before any
    [fetch] (no credentials, a ban, no slot), parked as a waiter, or, with
    exactly one [fetch] issued to the endpoint, answered or failed. *)
Inductive RequestRun (toLocaleString : Z -> string) (rq : Request) (st : State)
  : Outcome Json -> State -> Prop :=
| RunRefused e st' :
    network st' = network st ->
    e = Error "API credentials not found" \/ limiter_error toLocaleString e ->
    RequestRun toLocaleString rq st (Thrown e) st'
| RunParked p st' :
    network st' = network st ->
    ~ no_waiters st ->
    RequestRun toLocaleString rq st (Awaiting p) st'
| RunAnswered data r st' :
    network st' = network st ++ [r] ->
    fr_endpoint r = rq_endpoint rq ->
    RequestRun toLocaleString rq st (Returned data) st'
| RunFailed e0 r st' :
    network st' = network st ++ [r] ->
    fr_endpoint r = rq_endpoint rq ->
    RequestRun toLocaleString rq st (Thrown (enhanced_error rq e0)) st'.

(** The date printed in the ban error does not happen to spell one of the
    markers [placeOrder] looks for. *)
Definition plain_dates (toLocaleString : Z -> string) : Prop :=
  forall t,
    is_non_transient
      ("API requests are blocked due to Binance IP ban until " +:+ toLocaleString t) = false.

(** The arguments pass the checks of [placeOrder]. *)
Definition valid_order (symbol : string) (type : OrderType) (quantity : JsNumber)
    (price : option JsNumber) : Prop :=
  symbol <> EmptyString
  /\ num_truthy quantity = true
  /\ num_le0 quantity = false
  /\ is_limit type && price_unusable price = false.

(** Every pending listen-key refresh timer is the one whose handle is held
    in [listenKeyInterval]. *)
Definition refresh_tracked (st : State) : Prop :=
  forall id apiKey,
    (id, TListenKeyRefresh apiKey) ∈ timers st -> listenKeyInterval st = Some id.

Fixpoint digit_free (s : string) : bool :=
  match s with
  | EmptyString => true
  | String c s' => negb (isDigit c) && digit_free s'
  end.

(** The requests recorded that are less than a minute old. *)
Definition in_window (st : State) : list Z :=
  List.filter (fun t => clock st - t <? REQUEST_WINDOW_MS) (requestTimestamps st).

(** The limiter has a slot to give: fewer than four hundred requests are
    less than a minute old. *)
Definition slot_free (st : State) : Prop :=
  Z.of_nat (length (in_window st)) < MAX_REQUESTS_PER_MINUTE - RATE_LIMIT_BUFFER.

(** The window of the limiter holds: at most four hundred requests are
    recorded, each less than a minute old. *)
Definition window_respected (st : State) : Prop :=
  Z.of_nat (length (requestTimestamps st)) <= MAX_REQUESTS_PER_MINUTE - RATE_LIMIT_BUFFER
  /\ Forall (fun t => clock st - t < REQUEST_WINDOW_MS) (requestTimestamps st).

(** A ban is in force: the flag is set and its end has not passed. *)
Definition ban_in_force (st : State) : Prop :=
  isBanned (banInfo st) = true /\ clock st <= banUntil (banInfo st).

(** The ban record held in memory is the one in [localStorage]. *)
Definition ban_persisted (st : State) : Prop :=
  localStorage st !! BAN_CHECK_STORAGE_KEY = Some (stringify_banInfo (banInfo st)).

(** From [st] to [st'] the ban record and the storage are both untouched,
    or the record of [st'] has been written to the storage. *)
Definition ban_record_kept (st st' : State) : Prop :=
  (banInfo st' = banInfo st /\ localStorage st' = localStorage st)
  \/ ban_persisted st'.

(** A position worth listing: its size is positive, or its amount could
    not be read as a number, and then it is listed as a short position of
    size [NaN]. *)
Definition listed_position (p : Position) : Prop :=
  match pos_size p with
  | Num size => (0 < size)%Q
  | NaN => pos_side p = SHORT
  end.

(** The session after the connection attempt every [subscribe] starts
    with. *)
Definition attempted (st : State) : State := if is_open st then st else connect st.

(** No key of the registry is left with an empty set of listeners. *)
Definition no_empty_entry (registry : gmap string (gset nat)) : Prop :=
  forall k ls, registry !! k = Some ls -> ls <> ∅.

Definition listeners_nonempty (st : State) : Prop :=
  no_empty_entry (subscribers st)
  /\ no_empty_entry (klineSubscribers st)
  /\ no_empty_entry (depthSubscribers st).

(** The calls a client of the stream session can make. *)
Inductive StreamCall :=
| CallSubscribe (symbol : string) (callback : nat)
| CallSubscribeKlines (symbol interval : string) (callback : nat)
| CallSubscribeDepth (symbol : string) (callback : nat)
| CallSubscribeAccount (callback : nat)
| CallUnsubscribe (symbol : string) (callback : nat)
| CallUnsubscribeKlines (symbol interval : string) (callback : nat)
| CallUnsubscribeDepth (symbol : string) (callback : nat)
| CallUnsubscribeAccount (callback : nat)
| CallConnect
| CallDisconnect.

Definition run_call (c : StreamCall) (st : State) : State :=
  match c with
  | CallSubscribe symbol callback => subscribe symbol callback st
  | CallSubscribeKlines symbol interval callback => subscribeKlines symbol interval callback st
  | CallSubscribeDepth symbol callback => subscribeDepth symbol callback st
  | CallSubscribeAccount callback => subscribeAccount callback st
  | CallUnsubscribe symbol callback => unsubscribe symbol callback st
  | CallUnsubscribeKlines symbol interval callback =>
      unsubscribeKlines symbol interval callback st
  | CallUnsubscribeDepth symbol callback => unsubscribeDepth symbol callback st
  | CallUnsubscribeAccount callback => unsubscribeAccount callback st
  | CallConnect => connect st
  | CallDisconnect => disconnect st
  end.

Definition run_calls (calls : list StreamCall) (st : State) : State :=
  foldl (fun s c => run_call c s) st calls.

(** A 24-hour ticker event for the symbol [K]. *)
Definition ticker_event (K : string) (data : Json) : Prop :=
  is_literal "pong" (json_get "id" data) = false
  /\ json_get "e" data = Some (JStr "24hrTicker")
  /\ json_get "s" data = Some (JStr K).

Fixpoint underscore_free (s : string) : bool :=
  match s with
  | EmptyString => true
  | String c s' => negb (Ascii.eqb c "_") && underscore_free s'
  end.

(** The entry of [accountInfo.positions] holds nothing: its amount reads
    as zero. *)
Definition flat_entry (parseFloat : Json -> JsNumber) (entry : Json) : Prop :=
  exists amt,
    parseFloat' parseFloat (json_get "positionAmt" entry) = Num amt /\ (amt == 0)%Q.

(** The position [p] is the one held by the entry: its size is the absolute
    value of the amount of the entry, which is not zero, and its side
    follows the sign of the amount; the other fields are those of the
    entry.  An amount that cannot be read gives a short position of size
    [NaN]. *)
Definition position_reflects (parseFloat : Json -> JsNumber) (entry : Json)
    (p : Position) : Prop :=
  pos_symbol p = default JNull (json_get "symbol" entry)
  /\ pos_entryPrice p = parseFloat' parseFloat (json_get "entryPrice" entry)
  /\ pos_markPrice p = parseFloat' parseFloat (json_get "markPrice" entry)
  /\ pos_unrealizedPnL p = parseFloat' parseFloat (json_get "unrealizedProfit" entry)
  /\ pos_leverage p = parseFloat' parseFloat (json_get "leverage" entry)
  /\ match parseFloat' parseFloat (json_get "positionAmt" entry) with
     | Num amt =>
         ~ (amt == 0)%Q
         /\ pos_size p = Num (Qabs amt)
         /\ ((0 < amt)%Q -> pos_side p = LONG)
         /\ ((amt < 0)%Q -> pos_side p = SHORT)
     | NaN => pos_size p = NaN /\ pos_side p = SHORT
     end.

(** [ps] lists the entries that hold something, in their order, one
    position for each, and nothing else. *)
Inductive open_entries (parseFloat : Json -> JsNumber)
  : list Json -> list Position -> Prop :=
| open_entries_nil : open_entries parseFloat [] []
| open_entries_flat (entry : Json) (rest : list Json) (ps : list Position) :
    flat_entry parseFloat entry ->
    open_entries parseFloat rest ps ->
    open_entries parseFloat (entry :: rest) ps
| open_entries_listed (entry : Json) (rest : list Json) (p : Position)
    (ps : list Position) :
    position_reflects parseFloat entry p ->
    open_entries parseFloat rest ps ->
    open_entries parseFloat (entry :: rest) (p :: ps).

(** The times of the session are in the range in which a double holds
    every whole number: the clock is not negative, as [Date.now()] is not,
    and the end of the ban is below 2^53. *)
Definition safe_times (st : State) : Prop :=
  0 <= clock st /\ banUntil (banInfo st) < 2 ^ 53.

(** The handles of the pending timers are all below the next handle. *)
Definition timers_fresh (st : State) : Prop :=
  Forall (fun t => (fst t < nextTimerId st)%nat) (timers st).

(** Reads a field of the state that [settle_pending] leaves alone. *)
Ltac settle_pending_field :=
  unfold settle_pending;
  destruct (truthy_key _) as [?k|]; [destruct (pendingRequests _ !! _) |]; reflexivity.

(** ** The ban guard *)

Lemma checkIfBanned_expired st :
  isBanned (banInfo st) = true ->
  banUntil (banInfo st) < clock st ->
  checkIfBanned st = (false, resetBanInfo st).
Proof.
  intros Hflag Hpast. unfold checkIfBanned. rewrite Hflag. simpl.
  destruct (Z.ltb_spec (banUntil (banInfo st)) (clock st)); [reflexivity | lia].
Qed.

(** C4. A stale ban flag corrects itself: when [isBanned] is set but
    [banUntil] lies in the past, [checkIfBanned] answers [false] and writes
    the cleared record to the field and to [localStorage], and
    [getBanStatus], which runs the same check, reports [isBanned = false];
    no reset from outside is involved. *)
Theorem ban_flag_self_corrects (st : State) :
  isBanned (banInfo st) = true ->
  banUntil (banInfo st) < clock st ->
  fst (checkIfBanned st) = false
  /\ banInfo (snd (checkIfBanned st)) = mkBanInfo false 0
  /\ localStorage (snd (checkIfBanned st)) !! BAN_CHECK_STORAGE_KEY
     = Some (stringify_banInfo (mkBanInfo false 0))
  /\ bs_isBanned (fst (getBanStatus st)) = false
  /\ banInfo (snd (getBanStatus st)) = mkBanInfo false 0
  /\ localStorage (snd (getBanStatus st)) !! BAN_CHECK_STORAGE_KEY
     = Some (stringify_banInfo (mkBanInfo false 0)).
Proof.
  intros Hflag Hpast.
  unfold getBanStatus. rewrite (checkIfBanned_expired st Hflag Hpast). simpl.
  repeat split; apply lookup_insert_eq.
Qed.

Lemma ban_flag_self_corrects_witness :
  isBanned (banInfo stale_ban_state) = true
  /\ banUntil (banInfo stale_ban_state) < clock stale_ban_state
  /\ fst (checkIfBanned stale_ban_state) = false
  /\ bs_isBanned (fst (getBanStatus stale_ban_state)) = false.
Proof.
  assert (Hflag : isBanned (banInfo stale_ban_state) = true) by reflexivity.
  assert (Hpast : banUntil (banInfo stale_ban_state) < clock stale_ban_state)
    by (simpl; lia).
  pose proof (ban_flag_self_corrects stale_ban_state Hflag Hpast) as H.
  split; [exact Hflag |]. split; [exact Hpast |].
  split; [apply H |]. apply H.
Defined.

(** ** The ban pattern *)

Lemma drop_prefix_append (p s : string) : drop_prefix p (p +:+ s) = Some s.
Proof.
  induction p as [|a p IH]; simpl; [reflexivity |].
  now rewrite Ascii.eqb_refl.
Qed.

Lemma drop_prefix_starts_with (p s : string) :
  starts_with p s = false -> drop_prefix p s = None.
Proof.
  revert s. induction p as [|a p IH]; intros [|b s]; simpl; try discriminate; auto.
  destruct (Ascii.eqb a b); simpl; auto.
Qed.

Lemma take_digits_run (d rest : string) :
  all_digits d = true -> starts_with_digit rest = false ->
  take_digits (d +:+ rest) = d.
Proof.
  intros Hd Hrest. induction d as [|c d IH]; simpl in *.
  - destruct rest as [|c r]; simpl in *; [reflexivity | now rewrite Hrest].
  - apply andb_true_iff in Hd as [Hc Hd]. rewrite Hc. now rewrite IH.
Qed.

Lemma match_tail_hit (d rest : string) :
  d <> EmptyString -> all_digits d = true -> starts_with_digit rest = false ->
  match_tail (") banned until " +:+ d +:+ rest) = Some d.
Proof.
  intros Hne Hd Hrest. unfold match_tail.
  rewrite drop_prefix_append, take_digits_run by assumption.
  destruct d; [contradiction | reflexivity].
Qed.

Lemma str_includes_false_inv (c : ascii) (s needle : string) :
  str_includes (String c s) needle = false ->
  starts_with needle (String c s) = false /\ str_includes s needle = false.
Proof. simpl. intros H. now apply orb_false_iff in H. Qed.

Lemma match_dotstar_absent (s : string) :
  str_includes s ") banned until " = false -> match_dotstar s = None.
Proof.
  induction s as [|c s IH]; intros H.
  - reflexivity.
  - apply str_includes_false_inv in H as [Hhere Hlater].
    assert (Htail : match_tail (String c s) = None).
    { unfold match_tail. now rewrite (drop_prefix_starts_with _ _ Hhere). }
    change (match_dotstar (String c s))
      with (if isLineTerminator c then match_tail (String c s)
            else match match_dotstar s with
                 | Some d => Some d
                 | None => match_tail (String c s)
                 end).
    rewrite (IH Hlater), Htail. now destruct (isLineTerminator c).
Qed.

Lemma digit_not_paren (c : ascii) : isDigit c = true -> Ascii.eqb ")" c = false.
Proof.
  intros H. destruct (Ascii.eqb_spec ")" c) as [<- |]; [discriminate H | reflexivity].
Qed.

Lemma match_tail_other (c : ascii) (s : string) :
  Ascii.eqb ")" c = false -> match_tail (String c s) = None.
Proof. intros H. unfold match_tail. simpl. now rewrite H. Qed.

Lemma match_dotstar_skip (c : ascii) (s : string) :
  Ascii.eqb ")" c = false -> match_dotstar s = None ->
  match_dotstar (String c s) = None.
Proof.
  intros Hc Hs. simpl. rewrite Hs, (match_tail_other c s Hc).
  now destruct (isLineTerminator c).
Qed.

Lemma match_dotstar_digits (d rest : string) :
  all_digits d = true ->
  str_includes rest ") banned until " = false ->
  match_dotstar (d +:+ rest) = None.
Proof.
  intros Hd Hrest. induction d as [|c d IH]; simpl in Hd |- *.
  - now apply match_dotstar_absent.
  - apply andb_true_iff in Hd as [Hc Hd].
    apply (match_dotstar_skip c (d +:+ rest) (digit_not_paren c Hc) (IH Hd)).
Qed.

Lemma match_dotstar_tail (d rest : string) :
  d <> EmptyString -> all_digits d = true -> starts_with_digit rest = false ->
  str_includes rest ") banned until " = false ->
  match_dotstar (") banned until " +:+ d +:+ rest) = Some d.
Proof.
  intros Hne Hd Hrest Hfree.
  pose proof (match_tail_hit d rest Hne Hd Hrest) as Htail.
  assert (Hnone : match_dotstar (" banned until " +:+ d +:+ rest) = None).
  { cbn [String.append]. repeat (apply match_dotstar_skip; [reflexivity |]).
    now apply match_dotstar_digits. }
  change (") banned until " +:+ d +:+ rest)
    with (String ")" (" banned until " +:+ d +:+ rest)) in Htail |- *.
  change (match_dotstar (String ")" (" banned until " +:+ d +:+ rest)))
    with (match match_dotstar (" banned until " +:+ d +:+ rest) with
          | Some x => Some x
          | None => match_tail (String ")" (" banned until " +:+ d +:+ rest))
          end).
  now rewrite Hnone.
Qed.

Lemma match_dotstar_greedy (mid tail : string) (d : string) :
  no_line_terminator mid = true ->
  match_dotstar tail = Some d ->
  match_dotstar (mid +:+ tail) = Some d.
Proof.
  intros Hmid Htail. induction mid as [|c mid IH]; simpl in Hmid |- *.
  - exact Htail.
  - apply andb_true_iff in Hmid as [Hc Hmid].
    apply negb_true_iff in Hc. now rewrite Hc, (IH Hmid).
Qed.

Lemma match_here_miss (pre tail : string) :
  pre <> EmptyString ->
  starts_with "IP(" pre = false ->
  match_here (pre +:+ "IP(" +:+ tail) = None.
Proof.
  intros Hne Hpre. unfold match_here.
  rewrite drop_prefix_starts_with; [reflexivity |].
  destruct pre as [|a [|b [|c pre]]]; [contradiction | | |]; simpl in Hpre |- *.
  - destruct (Ascii.eqb "I" a); [reflexivity | reflexivity].
  - destruct (Ascii.eqb "I" a), (Ascii.eqb "P" b); reflexivity.
  - exact Hpre.
Qed.

Lemma banRegex_match_leftmost (pre tail d : string) :
  str_includes pre "IP(" = false ->
  match_dotstar tail = Some d ->
  banRegex_match (pre +:+ "IP(" +:+ tail) = Some d.
Proof.
  intros Hpre Htail. induction pre as [|c pre IH].
  - simpl. unfold match_here. simpl. now rewrite Htail.
  - apply str_includes_false_inv in Hpre as [Hhere Hlater].
    change (banRegex_match (String c pre +:+ "IP(" +:+ tail))
      with (match match_here (String c pre +:+ "IP(" +:+ tail) with
            | Some x => Some x
            | None => banRegex_match (pre +:+ "IP(" +:+ tail)
            end).
    rewrite (match_here_miss (String c pre) tail) by (congruence || assumption).
    now apply IH.
Qed.

(** The pattern is found, and with the digits it carries. *)
Lemma banRegex_match_pattern (msg d : string) :
  carries_ban_pattern msg d -> banRegex_match msg = Some d.
Proof.
  intros (pre & mid & rest & -> & Hpre & Hmid & Hne & Hd & Hrest & Hfree).
  apply banRegex_match_leftmost; [assumption |].
  apply match_dotstar_greedy; [assumption |].
  now apply match_dotstar_tail.
Qed.

Lemma round_to_double_exact (n : Z) : n < 2 ^ 53 -> round_to_double n = n.
Proof.
  intros H. unfold round_to_double.
  destruct (Z.ltb_spec n (2 ^ 53)); [reflexivity | lia].
Qed.

(** ** What an error response does to the ban record *)

Lemma settle_pending_banInfo (key : option string) (r : Settlement) (st : State) :
  banInfo (settle_pending key r st) = banInfo st.
Proof.
  unfold settle_pending. destruct (truthy_key key); [|reflexivity].
  destruct (pendingRequests st !! s); reflexivity.
Qed.

Lemma settle_pending_localStorage (key : option string) (r : Settlement) (st : State) :
  localStorage (settle_pending key r st) = localStorage st.
Proof.
  unfold settle_pending. destruct (truthy_key key); [|reflexivity].
  destruct (pendingRequests st !! s); reflexivity.
Qed.

Lemma ban_from_response_clock (status : Z) (parsed : ParsedBody) (st : State) :
  clock (ban_from_response status parsed st) = clock st.
Proof.
  unfold ban_from_response.
  destruct ((status =? 418) || (status =? 429)); [|reflexivity].
  destruct parsed as [|[code|] [m|]]; try reflexivity;
    destruct (code =? -1003); try reflexivity.
  destruct (banRegex_match m); reflexivity.
Qed.

Lemma detectBanFromError_match (e : JsError) (d : string) (st : State) :
  banRegex_match (emessage e) = Some d ->
  snd (detectBanFromError e st) = setBanned (parseInt10 d) st.
Proof.
  intros H. unfold detectBanFromError. destruct (emessage e) eqn:Hm.
  - discriminate H.
  - now rewrite H.
Qed.

Lemma detectBanFromError_default (e : JsError) (st : State) :
  banRegex_match (emessage e) = None ->
  mentions_ban (emessage e) = true ->
  snd (detectBanFromError e st) = setBanned (clock st + twelveHoursMs) st.
Proof.
  intros Hnone Hban. unfold detectBanFromError. destruct (emessage e) eqn:Hm.
  - discriminate Hban.
  - now rewrite Hnone, Hban.
Qed.

Lemma detectBanFromError_silent (e : JsError) (st : State) :
  banRegex_match (emessage e) = None ->
  mentions_ban (emessage e) = false ->
  snd (detectBanFromError e st) = st.
Proof.
  intros Hnone Hban. unfold detectBanFromError. destruct (emessage e) eqn:Hm.
  - reflexivity.
  - now rewrite Hnone, Hban.
Qed.

Lemma teapot_mentions_ban (statusText errorText : string) :
  mentions_ban (emessage (request_failed_error 418 statusText errorText)) = true.
Proof. reflexivity. Qed.

(** C3, as amended.  An error response whose message carries the pattern
    [IP(...) banned until T], with [T] below 2^53, sets the ban record to
    banned until exactly [T].  When the message has no such pattern, the
    record is set to banned until now plus twelve hours for a 418, and for
    a 429 whose JSON body has code -1003 and a [msg] without the pattern.
    In each case the record is also written to [localStorage]. *)
Theorem ban_guard_follows_error (rq : Request) (st : State) (status : Z)
    (statusText errorText : string) (parsed : ParsedBody) (t : Z) :
  BanSignal (clock st) status
    (emessage (request_failed_error status statusText errorText)) parsed t ->
  let st' := snd (mar_settle rq (RespError status statusText errorText parsed) st) in
  banInfo st' = mkBanInfo true t
  /\ localStorage st' !! BAN_CHECK_STORAGE_KEY = Some (stringify_banInfo (mkBanInfo true t)).
Proof.
  intros Hsignal. cbn zeta. unfold mar_settle, mar_catch. cbn [snd].
  rewrite settle_pending_banInfo, settle_pending_localStorage.
  set (e := request_failed_error status statusText errorText) in *.
  set (st1 := ban_from_response status parsed st).
  assert (Hclock : clock st1 = clock st) by apply ban_from_response_clock.
  destruct Hsignal as [d Hpattern Hsafe | Hnone -> | m Hnone -> -> Hm].
  - rewrite (detectBanFromError_match e d st1 (banRegex_match_pattern _ _ Hpattern)).
    unfold parseInt10. rewrite (round_to_double_exact _ Hsafe).
    split; [reflexivity | apply lookup_insert_eq].
  - rewrite (detectBanFromError_default e st1 Hnone (teapot_mentions_ban _ _)).
    rewrite Hclock. split; [reflexivity | apply lookup_insert_eq].
  - destruct (mentions_ban (emessage e)) eqn:Hban.
    + rewrite (detectBanFromError_default e st1 Hnone Hban).
      rewrite Hclock. split; [reflexivity | apply lookup_insert_eq].
    + rewrite (detectBanFromError_silent e st1 Hnone Hban).
      subst st1. unfold ban_from_response. simpl. rewrite Hm.
      split; [reflexivity | apply lookup_insert_eq].
Qed.

Lemma ban_notice_carries_pattern :
  carries_ban_pattern
    (emessage (request_failed_error 418 "I'm a teapot" (json_error_text "-1003" ban_notice)))
    "1700000000000".
Proof.
  exists ("Request failed: 418 I'm a teapot - {" +:+ quoted "code" +:+ ":-1003,"
          +:+ quoted "msg" +:+ ":" +:+ dquote +:+ "Way too many requests; "),
         "1.2.3.4",
         (". Please use the websocket for live updates to avoid bans." +:+ dquote +:+ "}").
  repeat split; try reflexivity. discriminate.
Defined.

Lemma ban_guard_follows_error_witness :
  banInfo (snd (mar_settle orders_request ban_response ready_state))
  = mkBanInfo true 1700000000000.
Proof.
  refine (proj1 (ban_guard_follows_error orders_request ready_state 418 "I'm a teapot"
                   (json_error_text "-1003" ban_notice)
                   (JsonBody (Some (-1003)) (Some ban_notice)) 1700000000000 _)).
  apply (SignalTimestamp _ _ _ _ "1700000000000").
  - exact ban_notice_carries_pattern.
  - reflexivity.
Defined.

(** C3, the claim as stated fails: a 429 whose body has another code (here
    -1015, the order rate limit) and whose text mentions neither ["418"]
    nor ["banned"] is a 429-class error without a timestamp, yet the ban
    record stays as it was instead of being set to now plus twelve hours. *)
Lemma rate_limit_error_without_ban :
  let st := ready_state in
  let st' := snd (mar_settle orders_request order_limit_response st) in
  banRegex_match
    (emessage (request_failed_error 429 "Too Many Requests"
                 (json_error_text "-1015" order_limit_notice))) = None
  /\ banInfo st' = banInfo st
  /\ isBanned (banInfo st') = false
  /\ banUntil (banInfo st') <> clock st + twelveHoursMs.
Proof.
  cbn zeta. repeat split; try (vm_compute; reflexivity).
  vm_compute. discriminate.
Qed.

(** ** The rate limiter *)

Lemma ceil_div_10_bounds (n : Z) : 0 <= n -> 0 <= ceil_div n 10 <= n.
Proof.
  intros H. unfold ceil_div. split.
  - apply Z.div_pos; lia.
  - destruct (Z.eq_dec n 0) as [-> | Hn]; [reflexivity |].
    apply Z.div_le_upper_bound; lia.
Qed.

(** The eviction splits the recorded timestamps into a removed part, the
    tenth (rounded up) with the smallest values, and the part kept. *)
Lemma evict_oldest_tenth_spec (st : State) :
  exists removed,
    removed ++ requestTimestamps (evict_oldest_tenth st) ≡ₚ requestTimestamps st
    /\ Z.of_nat (length removed) = ceil_div (Z.of_nat (length (requestTimestamps st))) 10
    /\ (forall old kept,
          old ∈ removed -> kept ∈ requestTimestamps (evict_oldest_tenth st) -> old <= kept).
Proof.
  set (ts := requestTimestamps st).
  set (k := Z.to_nat (ceil_div (Z.of_nat (length ts)) 10)).
  assert (Hts : requestTimestamps (evict_oldest_tenth st) = drop k (sort_ascending ts))
    by reflexivity.
  rewrite Hts. exists (take k (sort_ascending ts)).
  pose proof (ceil_div_10_bounds (Z.of_nat (length ts)) ltac:(lia)) as Hk.
  assert (Hperm : sort_ascending ts ≡ₚ ts) by apply merge_sort_Permutation.
  split; [| split].
  - now rewrite take_drop.
  - rewrite length_take, (Permutation_length Hperm). subst k. lia.
  - intros old kept Hold Hkept.
    assert (Hsorted : StronglySorted Z.le (take k (sort_ascending ts) ++ drop k (sort_ascending ts))).
    { rewrite take_drop. apply (StronglySorted_merge_sort Z.le). }
    exact (StronglySorted_app_1_elem_of _ _ _ _ _ Hsorted Hold Hkept).
Qed.

(** C5, as amended.  When the wait callback runs more than [maxWaitTime]
    after the call began, the call is rejected with the rate-limit timeout
    error, whatever the state of the window.  Before that, if more than 390
    timestamps are recorded, the oldest tenth of them (rounded up) is
    dropped and the rest kept; with 390 or fewer nothing changes. *)
Theorem wait_timeout_evicts_then_rejects (toLocaleString : Z -> string)
    (startTime nextSlotTime : Z) (st : State) :
  maxWaitTime < clock st - startTime ->
  exists st',
    wait_callback toLocaleString startTime nextSlotTime st
    = (WaitRejected (timeout_error st'), st')
    /\ (Z.of_nat (length (requestTimestamps st)) <= 390 -> st' = st)
    /\ (390 < Z.of_nat (length (requestTimestamps st)) ->
        exists removed,
          removed ++ requestTimestamps st' ≡ₚ requestTimestamps st
          /\ Z.of_nat (length removed)
             = ceil_div (Z.of_nat (length (requestTimestamps st))) 10
          /\ (forall old kept,
                old ∈ removed -> kept ∈ requestTimestamps st' -> old <= kept)).
Proof.
  intros Hlate. unfold wait_callback.
  destruct (Z.ltb_spec maxWaitTime (clock st - startTime)) as [_ | Hno]; [| lia].
  change (MAX_REQUESTS_PER_MINUTE - RATE_LIMIT_BUFFER - 10) with 390.
  destruct (Z.ltb_spec 390 (Z.of_nat (length (requestTimestamps st)))) as [Hmany | Hfew].
  - exists (evict_oldest_tenth st). split; [reflexivity |]. split; [lia |].
    intros _. apply evict_oldest_tenth_spec.
  - exists st. split; [reflexivity |]. split; [reflexivity | lia].
Qed.

Lemma wait_timeout_evicts_then_rejects_witness :
  maxWaitTime < clock saturated_state - 1000400
  /\ exists st',
       wait_callback plain_date 1000400 1060000 saturated_state
       = (WaitRejected (timeout_error st'), st').
Proof.
  assert (Hlate : maxWaitTime < clock saturated_state - 1000400) by (vm_compute; reflexivity).
  split; [exact Hlate |].
  destruct (wait_timeout_evicts_then_rejects plain_date 1000400 1060000 saturated_state Hlate)
    as (st' & Hrun & _).
  exists st'. exact Hrun.
Defined.

(** C5, the claim as stated fails: with 400 requests in the window a call
    that has waited more than thirty seconds is not admitted; the eviction
    drops the 40 oldest and leaves 360, with which [canMakeRequest] would
    admit the call, and the call is rejected with the timeout error all the
    same. *)
Lemma timeout_rejects_admissible_call :
  let st := saturated_state in
  let r := wait_callback plain_date 1000400 1060000 st in
  fst (canMakeRequest st) = false
  /\ maxWaitTime < clock st - 1000400
  /\ fst r = WaitRejected
              (Error "Timeout waiting for rate limit window (360/600 requests in window)")
  /\ length (requestTimestamps (snd r)) = 360%nat
  /\ head (requestTimestamps (snd r)) = Some 1000040
  /\ fst (canMakeRequest (snd r)) = true.
Proof. cbn zeta. repeat split; vm_compute; reflexivity. Qed.

(** ** Ticker subscriptions *)

Lemma subscribe_first (K : string) (L : nat) (st : State) :
  is_open st = true ->
  subscribers st !! K = None ->
  subscribe K L st
  = set_subscribers (<[K := ∅ ∪ {[L]}]> (<[K := ∅]> (subscribers st)))
      (set_wire (wire st ++ [mkWire SUBSCRIBE [ticker_stream K] (Some (clock st))])
         (set_subscribers (<[K := ∅]> (subscribers st)) st)).
Proof.
  intros Hopen Hfresh. unfold subscribe. rewrite Hopen, Hfresh.
  unfold sendSubscription, send_frame. simpl.
  unfold is_open in Hopen |- *. simpl. rewrite Hopen. simpl.
  now rewrite lookup_insert_eq.
Qed.

Lemma subscribe_again (K : string) (L : nat) (ls : gset nat) (st : State) :
  is_open st = true ->
  subscribers st !! K = Some ls ->
  subscribe K L st = set_subscribers (<[K := ls ∪ {[L]}]> (subscribers st)) st.
Proof.
  intros Hopen Hls. unfold subscribe. rewrite Hopen, Hls. cbn zeta. now rewrite Hls.
Qed.

Lemma unsubscribe_not_last (K : string) (L : nat) (ls : gset nat) (st : State) :
  subscribers st !! K = Some ls ->
  ls ∖ {[L]} <> ∅ ->
  unsubscribe K L st = set_subscribers (<[K := ls ∖ {[L]}]> (subscribers st)) st.
Proof.
  intros Hls Hrest. unfold unsubscribe. rewrite Hls.
  now rewrite bool_decide_eq_false_2.
Qed.

Lemma unsubscribe_last (K : string) (L : nat) (ls : gset nat) (st : State) :
  is_open st = true ->
  subscribers st !! K = Some ls ->
  ls ∖ {[L]} = ∅ ->
  unsubscribe K L st
  = set_wire (wire st ++ [mkWire UNSUBSCRIBE [ticker_stream K] (Some (clock st))])
      (set_subscribers (delete K (subscribers st)) st).
Proof.
  intros Hopen Hls Hrest. unfold unsubscribe. rewrite Hls.
  rewrite bool_decide_eq_true_2 by assumption.
  unfold sendUnsubscription, send_frame.
  unfold is_open in Hopen |- *. simpl. now rewrite Hopen.
Qed.

(** C6, as amended.  While the stream socket is open, for a symbol [K] with
    no listeners and listeners [L1 <> L2]: [subscribe(K, L1)] sends one
    SUBSCRIBE frame for the ticker stream of [K]; [subscribe(K, L2)] sends
    nothing; [unsubscribe(K, L1)] sends nothing; [unsubscribe(K, L2)], which
    removes the last listener, sends one UNSUBSCRIBE frame and drops [K]
    from the table. *)
Theorem ticker_subscription_multiplexed (K : string) (L1 L2 : nat) (st : State) :
  is_open st = true ->
  subscribers st !! K = None ->
  L1 <> L2 ->
  let s1 := subscribe K L1 st in
  let s2 := subscribe K L2 s1 in
  let s3 := unsubscribe K L1 s2 in
  let s4 := unsubscribe K L2 s3 in
  wire s1 = wire st ++ [mkWire SUBSCRIBE [ticker_stream K] (Some (clock st))]
  /\ wire s2 = wire s1
  /\ wire s3 = wire s2
  /\ wire s4 = wire s3 ++ [mkWire UNSUBSCRIBE [ticker_stream K] (Some (clock st))]
  /\ subscribers s4 !! K = None.
Proof.
  intros Hopen Hfresh Hne. cbn zeta.
  rewrite (subscribe_first K L1 st Hopen Hfresh).
  set (s1 := set_subscribers _ (set_wire _ _)).
  assert (Hopen1 : is_open s1 = true) by exact Hopen.
  assert (Hsub1 : subscribers s1 !! K = Some (∅ ∪ {[L1]})) by apply lookup_insert_eq.
  rewrite (subscribe_again K L2 _ s1 Hopen1 Hsub1).
  set (s2 := set_subscribers _ s1).
  assert (Hopen2 : is_open s2 = true) by exact Hopen.
  assert (Hsub2 : subscribers s2 !! K = Some (∅ ∪ {[L1]} ∪ {[L2]})) by apply lookup_insert_eq.
  assert (Hrest : (∅ ∪ {[L1]} ∪ {[L2]} : gset nat) ∖ {[L1]} <> ∅).
  { intros Hempty. assert (HL2 : L2 ∈ (∅ ∪ {[L1]} ∪ {[L2]} : gset nat) ∖ {[L1]}) by set_solver.
    rewrite Hempty in HL2. set_solver. }
  rewrite (unsubscribe_not_last K L1 _ s2 Hsub2 Hrest).
  set (s3 := set_subscribers _ s2).
  assert (Hopen3 : is_open s3 = true) by exact Hopen.
  assert (Hsub3 : subscribers s3 !! K = Some ((∅ ∪ {[L1]} ∪ {[L2]}) ∖ {[L1]}))
    by apply lookup_insert_eq.
  assert (Hlast : ((∅ ∪ {[L1]} ∪ {[L2]} : gset nat) ∖ {[L1]}) ∖ {[L2]} = ∅)
    by (apply set_eq; intros x; set_unfold; tauto).
  rewrite (unsubscribe_last K L2 _ s3 Hopen3 Hsub3 Hlast).
  repeat split; try reflexivity.
  simpl. apply lookup_delete_eq.
Qed.

Lemma ticker_subscription_multiplexed_witness :
  let s1 := subscribe "BTCUSDT" 1 open_state in
  let s2 := subscribe "BTCUSDT" 2 s1 in
  let s3 := unsubscribe "BTCUSDT" 1 s2 in
  let s4 := unsubscribe "BTCUSDT" 2 s3 in
  wire s2 = [mkWire SUBSCRIBE ["btcusdt@ticker"] (Some 1000000)]
  /\ wire s4 = [mkWire SUBSCRIBE ["btcusdt@ticker"] (Some 1000000);
                mkWire UNSUBSCRIBE ["btcusdt@ticker"] (Some 1000000)].
Proof.
  assert (Hopen : is_open open_state = true) by reflexivity.
  assert (Hfresh : subscribers open_state !! "BTCUSDT" = None) by reflexivity.
  assert (Hne : 1%nat <> 2%nat) by discriminate.
  destruct (ticker_subscription_multiplexed "BTCUSDT" 1 2 open_state Hopen Hfresh Hne)
    as (H1 & H2 & H3 & H4 & _).
  cbn zeta. split.
  - rewrite H2, H1. reflexivity.
  - rewrite H4, H3, H2, H1. reflexivity.
Defined.

(** C6, the claim as stated fails: on a session whose socket is not open
    (here the initial one) the same four calls put the socket in state
    CONNECTING and send no frame at all, neither a SUBSCRIBE nor an
    UNSUBSCRIBE. *)
Lemma closed_socket_sends_no_frame :
  let s1 := subscribe "BTCUSDT" 1 initial_state in
  let s2 := subscribe "BTCUSDT" 2 s1 in
  let s3 := unsubscribe "BTCUSDT" 1 s2 in
  let s4 := unsubscribe "BTCUSDT" 2 s3 in
  ws s4 = Some CONNECTING
  /\ frames_for SUBSCRIBE "btcusdt@ticker" s2 = []
  /\ frames_for UNSUBSCRIBE "btcusdt@ticker" s4 = []
  /\ wire s4 = [].
Proof. cbn zeta. repeat split; vm_compute; reflexivity. Qed.

(** ** Frames of the guard and the limiter *)

Lemma quiet_refl (st : State) : quiet st st.
Proof. unfold quiet. repeat split; reflexivity || lia. Qed.

Lemma quiet_trans (a b c : State) : quiet a b -> quiet b c -> quiet a c.
Proof.
  unfold quiet. intros (H1 & H2 & H3 & H4 & H5) (G1 & G2 & G3 & G4 & G5).
  repeat split; try congruence. lia.
Qed.

Lemma checkIfBanned_quiet (st : State) : quiet st (snd (checkIfBanned st)).
Proof.
  unfold checkIfBanned, quiet.
  destruct (negb (isBanned (banInfo st)) || (banUntil (banInfo st) <? clock st));
    [destruct (isBanned (banInfo st)) | destruct (60000 <? clock st - lastBanCheckTime st)];
    simpl; repeat split; reflexivity || lia.
Qed.

Lemma checkIfBanned_clock (st : State) : clock (snd (checkIfBanned st)) = clock st.
Proof.
  unfold checkIfBanned.
  destruct (negb (isBanned (banInfo st)) || (banUntil (banInfo st) <? clock st));
    [destruct (isBanned (banInfo st)) | destruct (60000 <? clock st - lastBanCheckTime st)];
    reflexivity.
Qed.

Lemma canMakeRequest_quiet (st : State) : quiet st (snd (canMakeRequest st)).
Proof.
  unfold canMakeRequest.
  pose proof (checkIfBanned_quiet st) as H.
  destruct (checkIfBanned st) as [banned st1]. simpl in H.
  destruct banned; simpl; [exact H |].
  unfold quiet in *. simpl. exact H.
Qed.

Lemma canMakeRequest_clock (st : State) : clock (snd (canMakeRequest st)) = clock st.
Proof.
  unfold canMakeRequest.
  pose proof (checkIfBanned_clock st) as H.
  destruct (checkIfBanned st) as [banned st1]. simpl in H.
  destruct banned; simpl; exact H.
Qed.

Lemma setBanned_quiet (t : Z) (st : State) : quiet st (setBanned t st).
Proof. unfold quiet, setBanned. simpl. repeat split; reflexivity || lia. Qed.

Lemma detectBanFromError_quiet (e : JsError) (st : State) :
  quiet st (snd (detectBanFromError e st)).
Proof.
  unfold detectBanFromError. destruct (emessage e); [apply quiet_refl |].
  destruct (banRegex_match _); [apply setBanned_quiet |].
  destruct (mentions_ban _); [apply setBanned_quiet | apply quiet_refl].
Qed.

Lemma ban_from_response_quiet (status : Z) (parsed : ParsedBody) (st : State) :
  quiet st (ban_from_response status parsed st).
Proof.
  unfold ban_from_response.
  destruct ((status =? 418) || (status =? 429)); [| apply quiet_refl].
  destruct parsed as [|[code|] [m|]]; try apply quiet_refl;
    destruct (code =? -1003); try apply quiet_refl.
  destruct (banRegex_match m); apply setBanned_quiet.
Qed.

Lemma sleep_quiet (lateness : nat -> nat) (ms : Z) (st : State) :
  quiet st (sleep lateness ms st).
Proof. unfold quiet, sleep. simpl. repeat split; reflexivity || lia. Qed.

Lemma sleep_clock (lateness : nat -> nat) (ms : Z) (st : State) :
  clock st + ms <= clock (sleep lateness ms st).
Proof. unfold sleep. simpl. lia. Qed.

Lemma evict_oldest_tenth_quiet (st : State) : quiet st (evict_oldest_tenth st).
Proof. unfold quiet, evict_oldest_tenth. simpl. repeat split; reflexivity || lia. Qed.

Lemma push_timestamp_quiet (st : State) : quiet st (push_timestamp st).
Proof. unfold quiet, push_timestamp. simpl. repeat split; reflexivity || lia. Qed.

(** ** Messages of the limiter *)

Lemma starts_with_barrier (needle P D S : string) :
  needle <> EmptyString -> digit_free needle = true ->
  D <> EmptyString -> all_digits D = true ->
  starts_with needle P = false ->
  starts_with needle (P +:+ D +:+ S) = false.
Proof.
  intros Hne Hfree HD Hdigits. revert needle Hne Hfree.
  induction P as [|c P IH]; intros [|a needle] Hne Hfree Hmiss; try contradiction.
  - destruct D as [|d D]; [contradiction |]. simpl in *.
    apply andb_true_iff in Hfree as [Ha _]. apply andb_true_iff in Hdigits as [Hd _].
    destruct (Ascii.eqb_spec a d) as [-> |]; [| reflexivity].
    rewrite Hd in Ha. discriminate Ha.
  - simpl in *. destruct (Ascii.eqb a c); [| reflexivity]. simpl in *.
    apply andb_true_iff in Hfree as [_ Hfree].
    destruct needle as [|b needle]; [discriminate Hmiss |].
    apply IH; [discriminate | exact Hfree | exact Hmiss].
Qed.

Lemma str_includes_digits (needle D S : string) :
  needle <> EmptyString -> digit_free needle = true ->
  all_digits D = true ->
  str_includes S needle = false ->
  str_includes (D +:+ S) needle = false.
Proof.
  intros Hne Hfree Hdigits HS. induction D as [|d D IH]; [exact HS |].
  simpl in Hdigits. apply andb_true_iff in Hdigits as [Hd Hdigits].
  change (str_includes (String d D +:+ S) needle)
    with (starts_with needle (String d (D +:+ S)) || str_includes (D +:+ S) needle).
  rewrite (IH Hdigits), orb_false_r.
  destruct needle as [|a needle]; [contradiction |]. simpl in Hfree |- *.
  apply andb_true_iff in Hfree as [Ha _].
  destruct (Ascii.eqb_spec a d) as [-> |]; [| reflexivity].
  rewrite Hd in Ha. discriminate Ha.
Qed.

Lemma str_includes_across_digits (needle P D S : string) :
  needle <> EmptyString -> digit_free needle = true ->
  D <> EmptyString -> all_digits D = true ->
  str_includes P needle = false ->
  str_includes S needle = false ->
  str_includes (P +:+ D +:+ S) needle = false.
Proof.
  intros Hne Hfree HD Hdigits HP HS. induction P as [|c P IH].
  - simpl. apply str_includes_digits; assumption.
  - apply str_includes_false_inv in HP as [Hhere Hlater].
    change (str_includes (String c P +:+ D +:+ S) needle)
      with (starts_with needle (String c P +:+ D +:+ S) || str_includes (P +:+ D +:+ S) needle).
    rewrite (IH Hlater), orb_false_r.
    now apply starts_with_barrier.
Qed.

Lemma string_of_uint_digits (u : Decimal.uint) :
  all_digits (NilEmpty.string_of_uint u) = true.
Proof. induction u; simpl; auto. Qed.

Lemma Z_to_string_nat_digits (n : nat) :
  Z_to_string (Z.of_nat n) <> EmptyString
  /\ all_digits (Z_to_string (Z.of_nat n)) = true.
Proof.
  unfold Z_to_string. destruct (Z.of_nat n) as [|p|p] eqn:Hz; [| | lia].
  - split; [discriminate | reflexivity].
  - simpl. unfold NilZero.string_of_uint.
    pose proof (string_of_uint_digits (Pos.to_uint p)) as Hd.
    destruct (Pos.to_uint p) eqn:Hu; split; try discriminate; exact Hd.
Qed.

Lemma timeout_error_transient (st : State) :
  is_non_transient (emessage (timeout_error st)) = false.
Proof.
  destruct (Z_to_string_nat_digits (length (requestTimestamps st))) as [Hne Hd].
  assert (Hmsg : emessage (timeout_error st)
                 = "Timeout waiting for rate limit window ("
                   +:+ Z_to_string (Z.of_nat (length (requestTimestamps st)))
                   +:+ "/600 requests in window)") by reflexivity.
  rewrite Hmsg. unfold is_non_transient.
  rewrite !str_includes_across_digits; try reflexivity; try assumption; discriminate.
Qed.

Lemma limiter_error_transient (toLocaleString : Z -> string) (e : JsError) :
  plain_dates toLocaleString ->
  limiter_error toLocaleString e ->
  is_non_transient (emessage e) = false.
Proof.
  intros Hdates [[sx ->] | [sx ->]].
  - apply timeout_error_transient.
  - apply Hdates.
Qed.

(** ** Properties that depend on the platform *)

Section Properties.

Variable toLocaleString : Z -> string.
Variable encodeURIComponent : string -> string.
Variable hmacSha256Hex : string -> string -> string.
Variable numberToString : JsNumber -> string.
Variable parseFloat : Json -> JsNumber.
Variable fetchOracle : nat -> FetchOutcome.
Variable lateness : nat -> nat.
Variable isValidTime : Json -> bool.

Local Abbreviation request :=
  (makeAuthenticatedRequest toLocaleString encodeURIComponent hmacSha256Hex
     fetchOracle lateness).
Local Abbreviation place_order :=
  (placeOrder toLocaleString encodeURIComponent hmacSha256Hex numberToString
     fetchOracle lateness isValidTime).
Local Abbreviation place_order_try :=
  (placeOrder_try toLocaleString encodeURIComponent hmacSha256Hex numberToString
     fetchOracle lateness isValidTime).

(** *** The wait for a slot *)

Lemma wait_callback_cases (startTime nextSlotTime : Z) (st : State) :
  let r := wait_callback toLocaleString startTime nextSlotTime st in
  quiet st (snd r)
  /\ clock (snd r) = clock st
  /\ match fst r with
     | WaitRejected e => limiter_error toLocaleString e
     | WaitResolved => True
     | WaitAgain d => 100 <= d /\ clock st - startTime <= maxWaitTime
     end.
Proof.
  cbn zeta. unfold wait_callback.
  destruct (Z.ltb_spec maxWaitTime (clock st - startTime)) as [Hlate | Hin].
  - destruct (_ <? Z.of_nat (length (requestTimestamps st))); simpl.
    + split; [apply evict_oldest_tenth_quiet |]. split; [reflexivity |]. left. eauto.
    + split; [apply quiet_refl |]. split; [reflexivity |]. left. eauto.
  - pose proof (checkIfBanned_quiet st) as Hq1.
    pose proof (checkIfBanned_clock st) as Hc1.
    destruct (checkIfBanned st) as [banned st1]. simpl in Hq1, Hc1.
    destruct banned; simpl.
    + split; [exact Hq1 |]. split; [exact Hc1 |]. right. eauto.
    + pose proof (canMakeRequest_quiet st1) as Hq2.
      pose proof (canMakeRequest_clock st1) as Hc2.
      destruct (canMakeRequest st1) as [ok st2]. simpl in Hq2, Hc2.
      destruct ok; simpl.
      * split; [| split; [congruence | exact I]].
        eapply quiet_trans; [exact Hq1 |].
        eapply quiet_trans; [exact Hq2 | apply push_timestamp_quiet].
      * split; [eapply quiet_trans; eassumption |].
        split; [congruence |]. split; lia.
Qed.

Lemma wait_loop_sound (fuel : nat) (startTime nextSlotTime delay : Z) (st : State) :
  50 <= delay ->
  maxWaitTime - (clock st - startTime) < 50 * Z.of_nat fuel ->
  (0 < fuel)%nat ->
  let r := wait_loop toLocaleString lateness fuel startTime nextSlotTime delay st in
  quiet st (snd r)
  /\ match fst r with
     | WaitOk => True
     | WaitFailed e => limiter_error toLocaleString e
     | WaitOutOfFuel => False
     end.
Proof.
  revert delay st. induction fuel as [|fuel IH]; intros delay st Hdelay Hfuel Hpos; [lia |].
  cbn zeta. cbn [wait_loop].
  pose proof (sleep_quiet lateness delay st) as Hsq.
  pose proof (sleep_clock lateness delay st) as Hsc.
  set (st0 := sleep lateness delay st) in *.
  pose proof (wait_callback_cases startTime nextSlotTime st0) as (Hq & Hc & Hcase).
  destruct (wait_callback toLocaleString startTime nextSlotTime st0) as [[e | | d] st1];
    simpl in Hq, Hc, Hcase |- *.
  - split; [eapply quiet_trans; eassumption | exact Hcase].
  - split; [eapply quiet_trans; eassumption | exact I].
  - destruct Hcase as [Hd Hin].
    assert (Hfuel' : maxWaitTime - (clock st1 - startTime) < 50 * Z.of_nat fuel) by lia.
    assert (Hpos' : (0 < fuel)%nat) by lia.
    destruct (IH d st1 ltac:(lia) Hfuel' Hpos') as [Hq' Hcase'].
    split; [| exact Hcase'].
    eapply quiet_trans; [exact Hsq |]. eapply quiet_trans; eassumption.
Qed.

Lemma waitForRateLimit_begin_cases (st : State) :
  let r := waitForRateLimit_begin toLocaleString st in
  quiet st (snd r)
  /\ match fst r with
     | BeginRejected e => limiter_error toLocaleString e
     | BeginResolved => True
     | BeginWaiting s n d => s = clock (snd r) /\ 50 <= d
     end.
Proof.
  cbn zeta. unfold waitForRateLimit_begin.
  pose proof (checkIfBanned_quiet st) as Hq1.
  destruct (checkIfBanned st) as [banned st1]. simpl in Hq1.
  destruct banned; simpl.
  - split; [exact Hq1 |]. right. eauto.
  - pose proof (canMakeRequest_quiet st1) as Hq2.
    destruct (canMakeRequest st1) as [ok st2]. simpl in Hq2.
    destruct ok; simpl.
    + split; [| exact I].
      eapply quiet_trans; [exact Hq1 |].
      eapply quiet_trans; [exact Hq2 | apply push_timestamp_quiet].
    + split; [eapply quiet_trans; eassumption |].
      split; [reflexivity |].
      apply Z.min_glb; [lia |].
      apply Z.div_le_lower_bound; lia.
Qed.

(** *** The runs of the executor *)

Lemma quiet_no_waiters (st st' : State) : quiet st st' -> no_waiters st -> no_waiters st'.
Proof. intros (_ & Hp & _) H. unfold no_waiters. now rewrite Hp. Qed.

Lemma settle_pending_network (key : option string) (r : Settlement) (st : State) :
  network (settle_pending key r st) = network st.
Proof.
  unfold settle_pending. destruct (truthy_key key); [| reflexivity].
  destruct (pendingRequests st !! s); reflexivity.
Qed.

Lemma settle_pending_no_waiters (key : option string) (r : Settlement) (st : State) :
  no_waiters st -> no_waiters (settle_pending key r st).
Proof.
  intros H. unfold settle_pending. destruct (truthy_key key) as [k|]; [| exact H].
  destruct (pendingRequests st !! k); [| exact H].
  intros k' ws. simpl. intros Hk'.
  apply lookup_delete_Some in Hk' as [_ Hk']. exact (H k' ws Hk').
Qed.

Lemma insert_empty_no_waiters (k : string) (st : State) :
  no_waiters st ->
  no_waiters (set_pendingRequests (<[k := []]> (pendingRequests st)) st).
Proof.
  intros H k' ws. simpl. intros Hk'.
  apply lookup_insert_Some in Hk' as [[_ <-] | [_ Hk']]; [reflexivity |].
  exact (H k' ws Hk').
Qed.

Lemma register_request_cases (rq : Request) (st : State) :
  let r := register_request rq st in
  network (snd r) = network st
  /\ credentials (snd r) = credentials st
  /\ match fst r with
     | AsWaiter _ => ~ no_waiters st
     | AsOwner => no_waiters st -> no_waiters (snd r)
     end.
Proof.
  cbn zeta. unfold register_request.
  destruct (truthy_key (rq_cacheKey rq)) as [k|]; [| simpl; auto].
  destruct (pendingRequests st !! k) as [[|w ws]|] eqn:Hk; simpl.
  - split; [reflexivity |]. split; [reflexivity |]. apply insert_empty_no_waiters.
  - split; [reflexivity |]. split; [reflexivity |].
    intros H. specialize (H k (w :: ws) Hk). discriminate H.
  - split; [reflexivity |]. split; [reflexivity |]. apply insert_empty_no_waiters.
Qed.

Lemma mar_settle_cases (rq : Request) (o : FetchOutcome) (st : State) :
  let r := mar_settle rq o st in
  network (snd r) = network st
  /\ (no_waiters st -> no_waiters (snd r))
  /\ ((exists data, fst r = Returned data)
      \/ (exists e0, fst r = Thrown (enhanced_error rq e0))).
Proof.
  cbn zeta. destruct o as [body | status statusText errorText parsed | e]; simpl.
  - split; [apply settle_pending_network |].
    split; [apply settle_pending_no_waiters |]. left. eauto.
  - rewrite settle_pending_network.
    pose proof (ban_from_response_quiet status parsed st) as Hq1.
    pose proof (detectBanFromError_quiet
                  (request_failed_error status statusText errorText)
                  (ban_from_response status parsed st)) as Hq2.
    pose proof (quiet_trans _ _ _ Hq1 Hq2) as Hq.
    split; [apply Hq |]. split; [| right; eauto].
    intros H. apply settle_pending_no_waiters. exact (quiet_no_waiters _ _ Hq H).
  - rewrite settle_pending_network.
    set (e1 := if String.eqb (ename e) "AbortError" then _ else e).
    pose proof (detectBanFromError_quiet e1 st) as Hq.
    split; [apply Hq |]. split; [| right; eauto].
    intros H. apply settle_pending_no_waiters. exact (quiet_no_waiters _ _ Hq H).
Qed.

Lemma mar_perform_cases (rq : Request) (creds : option ApiKeys) (st : State) :
  let r := mar_perform encodeURIComponent hmacSha256Hex fetchOracle lateness rq creds st in
  (exists f, network (snd r) = network st ++ [f] /\ fr_endpoint f = rq_endpoint rq)
  /\ (no_waiters st -> no_waiters (snd r))
  /\ ((exists data, fst r = Returned data)
      \/ (exists e0, fst r = Thrown (enhanced_error rq e0))).
Proof.
  cbn zeta. unfold mar_perform.
  set (st1 := await_fetch lateness (mar_issue encodeURIComponent hmacSha256Hex rq creds st)).
  destruct (mar_settle_cases rq (fetchOracle (length (network st))) st1) as (Hn & Hw & Hcase).
  split; [| split; [| exact Hcase]].
  - rewrite Hn. subst st1. unfold await_fetch, mar_issue. simpl. eauto.
  - intros H. apply Hw. exact H.
Qed.

(** Every run of the executor is one of the four kinds, and none leaves a
    waiter behind where there was none. *)
Lemma request_run (rq : Request) (st : State) :
  RequestRun toLocaleString rq st (fst (request rq st)) (snd (request rq st))
  /\ (no_waiters st -> no_waiters (snd (request rq st))).
Proof.
  unfold makeAuthenticatedRequest, mar_enter.
  destruct (rq_requiresSignature rq && negb (bool_decide (is_Some (credentials st)))).
  { simpl. split; [| auto]. apply RunRefused; [reflexivity | left; reflexivity]. }
  assert (Hban : exists banned st1,
             (if rq_allowDuringBan rq then (false, st) else checkIfBanned st) = (banned, st1)
             /\ quiet st st1).
  { destruct (rq_allowDuringBan rq).
    - exists false, st. split; [reflexivity | apply quiet_refl].
    - pose proof (checkIfBanned_quiet st) as Hq.
      destruct (checkIfBanned st) as [b s1]. exists b, s1. split; [reflexivity | exact Hq]. }
  destruct Hban as (banned & st1 & -> & Hq1).
  destruct banned.
  { simpl. split; [| apply quiet_no_waiters; exact Hq1].
    apply RunRefused; [apply Hq1 | right; right; eauto]. }
  destruct (register_request_cases rq st1) as (Hn2 & Hc2 & Hreg).
  destruct (register_request rq st1) as [[p|] st2]; simpl in Hn2, Hc2, Hreg.
  { simpl. split.
    - apply RunParked; [rewrite Hn2; apply Hq1 |].
      intros H. apply Hreg. exact (quiet_no_waiters _ _ Hq1 H).
    - intros H. exfalso. apply Hreg. exact (quiet_no_waiters _ _ Hq1 H). }
  destruct (waitForRateLimit_begin_cases st2) as (Hq3 & Hbegin).
  destruct (waitForRateLimit_begin toLocaleString st2) as [[e | | s n d] st3];
    simpl in Hq3, Hbegin.
  - simpl. split.
    + apply RunRefused; [| right; exact Hbegin].
      rewrite settle_pending_network. destruct Hq3 as [-> _]. rewrite Hn2. apply Hq1.
    + intros H. apply settle_pending_no_waiters.
      apply (quiet_no_waiters _ _ Hq3), Hreg, (quiet_no_waiters _ _ Hq1), H.
  - destruct (mar_perform_cases rq (credentials st) st3) as ((f & Hn & Hf) & Hw & Hcase).
    assert (Hnet : network st3 = network st).
    { destruct Hq3 as [-> _]. rewrite Hn2. apply Hq1. }
    split.
    + destruct (mar_perform _ _ _ _ rq (credentials st) st3) as [o st4].
      simpl in Hn, Hcase |- *. rewrite Hnet in Hn.
      destruct Hcase as [[data ->] | [e0 ->]];
        [eapply RunAnswered | eapply RunFailed]; eassumption.
    + intros H. apply Hw, (quiet_no_waiters _ _ Hq3), Hreg, (quiet_no_waiters _ _ Hq1), H.
  - destruct Hbegin as [-> Hd].
    destruct (wait_loop_sound wait_fuel (clock st3) n d st3 Hd) as (Hq4 & Hend).
    { unfold maxWaitTime, wait_fuel. lia. }
    { unfold wait_fuel. lia. }
    assert (Hnet3 : network st3 = network st).
    { destruct Hq3 as [-> _]. rewrite Hn2. apply Hq1. }
    destruct (wait_loop toLocaleString lateness wait_fuel (clock st3) n d st3)
      as [[| e |] st4]; simpl in Hq4, Hend; [| | contradiction].
    + destruct (mar_perform_cases rq (credentials st) st4) as ((f & Hn & Hf) & Hw & Hcase).
      assert (Hnet : network st4 = network st).
      { destruct Hq4 as [-> _]. exact Hnet3. }
      split.
      * destruct (mar_perform _ _ _ _ rq (credentials st) st4) as [o st5].
        simpl in Hn, Hcase |- *. rewrite Hnet in Hn.
        destruct Hcase as [[data ->] | [e0 ->]];
          [eapply RunAnswered | eapply RunFailed]; eassumption.
      * intros H. apply Hw, (quiet_no_waiters _ _ Hq4), (quiet_no_waiters _ _ Hq3),
                  Hreg, (quiet_no_waiters _ _ Hq1), H.
    + simpl. split.
      * apply RunRefused; [| right; exact Hend].
        rewrite settle_pending_network. destruct Hq4 as [-> _]. exact Hnet3.
      * intros H. apply settle_pending_no_waiters.
        apply (quiet_no_waiters _ _ Hq4), (quiet_no_waiters _ _ Hq3),
              Hreg, (quiet_no_waiters _ _ Hq1), H.
Qed.

(** *** Validation in [placeOrder] *)

Lemma ensure_connected_network (st : State) :
  network (ensure_connected st) = network st.
Proof.
  unfold ensure_connected, connect.
  destruct (is_open st); [reflexivity |].
  destruct (isConnecting st || false); reflexivity.
Qed.

(** C7, as amended.  A [placeOrder] call of type LIMIT whose price is
    missing, zero, [NaN] or negative is rejected and no [fetch] is issued;
    at most the stream connection has been started on the way.  The error
    is the one for the missing price when the browser is on line and the
    symbol and the quantity are valid; otherwise it is the error of the
    earlier check that failed: the error for no connection when the
    browser is off line, whatever the arguments, and the error for invalid
    parameters when it is on line and the symbol is empty or the quantity
    is zero, [NaN] or negative. *)
Theorem limit_order_needs_price (symbol : string) (side : Side) (quantity : JsNumber)
    (price leverage : option JsNumber) (st : State) :
  price_unusable price = true ->
  exists e st',
    place_order symbol side LIMIT quantity price leverage st
    = (Thrown (Error (user_message e)), st')
    /\ (st' = st \/ st' = ensure_connected st)
    /\ network st' = network st
    /\ (e = offline_error \/ e = invalid_parameters_error \/ e = price_required_error)
    /\ (onLine st = true -> symbol <> EmptyString ->
        num_truthy quantity = true -> num_le0 quantity = false ->
        e = price_required_error
        /\ user_message e = "Error: Price is required for LIMIT orders")
    /\ (onLine st = false ->
        e = offline_error
        /\ user_message e = "Error: No internet connection available"
        /\ st' = st)
    /\ (onLine st = true ->
        symbol = EmptyString \/ num_truthy quantity = false \/ num_le0 quantity = true ->
        e = invalid_parameters_error
        /\ user_message e = "Error: Invalid order parameters").
Proof.
  intros Hprice. unfold placeOrder, placeOrder_try.
  destruct (onLine st) eqn:Hon; simpl.
  - destruct (bool_decide (symbol = EmptyString) || negb (num_truthy quantity)
              || num_le0 quantity) eqn:Hvalid.
    + exists invalid_parameters_error, (ensure_connected st).
      split; [reflexivity |]. split; [tauto |].
      split; [apply ensure_connected_network |].
      split; [tauto |].
      split; [| split; [intros Hfalse; discriminate Hfalse | intros _ _; split; reflexivity]].
      intros _ Hsym Hq1 Hq2.
      rewrite Hq1, Hq2, bool_decide_eq_false_2 in Hvalid by assumption.
      discriminate Hvalid.
    + rewrite Hprice. exists price_required_error, (ensure_connected st).
      split; [reflexivity |]. split; [tauto |].
      split; [apply ensure_connected_network |].
      split; [tauto |].
      split; [intros _ _ _ _; split; reflexivity |].
      split; [intros Hfalse; discriminate Hfalse |].
      intros _ Hbad. exfalso.
      apply orb_false_elim in Hvalid as [Hvalid Hq2].
      apply orb_false_elim in Hvalid as [Hsym Hq1].
      apply bool_decide_eq_false in Hsym. apply negb_false_iff in Hq1.
      destruct Hbad as [Hbad | [Hbad | Hbad]]; [contradiction | congruence | congruence].
  - exists offline_error, st. split; [reflexivity |]. split; [tauto |].
    split; [reflexivity |].
    split; [tauto |].
    split; [intros Hfalse; discriminate Hfalse |].
    split; [intros _; repeat split | intros Hfalse; discriminate Hfalse].
Qed.

(** *** Retries in [placeOrder] *)

Local Abbreviation order_rq := (order_request numberToString).
Local Abbreviation preset :=
  (preset_leverage toLocaleString encodeURIComponent hmacSha256Hex numberToString
     fetchOracle lateness).

Lemma requests_to_grow (endpoint : string) (r : FetchReq) (st st' : State) :
  network st' = network st ++ [r] ->
  requests_to endpoint st'
  = requests_to endpoint st ++ (if String.eqb (fr_endpoint r) endpoint then [r] else []).
Proof.
  intros H. unfold requests_to. rewrite H, List.filter_app. reflexivity.
Qed.

Lemma requests_to_same (endpoint : string) (st st' : State) :
  network st' = network st -> requests_to endpoint st' = requests_to endpoint st.
Proof. intros H. unfold requests_to. now rewrite H. Qed.

(** Setting the leverage never adds a request to the order endpoint, and
    where no call is parked it always hands control back. *)
Lemma preset_leverage_cases (symbol : string) (leverage : option JsNumber) (st : State) :
  let r := preset symbol leverage st in
  requests_to "/fapi/v1/order" (snd r) = requests_to "/fapi/v1/order" st
  /\ (no_waiters st -> fst r = Returned tt /\ no_waiters (snd r)).
Proof.
  cbn zeta. unfold preset_leverage.
  destruct leverage as [l|]; [| split; [reflexivity | auto]].
  destruct (num_truthy l); [| split; [reflexivity | auto]].
  unfold setLeverage.
  destruct (request_run (leverage_request numberToString symbol l) st) as [Hrun Hw].
  destruct (request (leverage_request numberToString symbol l) st) as [o st1].
  simpl in Hrun, Hw.
  inversion Hrun as [e s Hn He | p s Hn Hpark | data r s Hn Hr | e0 r s Hn Hr]; subst; simpl.
  - split; [apply requests_to_same, Hn | auto].
  - split; [apply requests_to_same, Hn |]. intros H. contradiction.
  - split; [| auto]. rewrite (requests_to_grow _ r st st1 Hn), Hr. simpl. apply app_nil_r.
  - split; [| auto]. rewrite (requests_to_grow _ r st st1 Hn), Hr. simpl. apply app_nil_r.
Qed.

Lemma ensure_connected_no_waiters (st : State) :
  no_waiters st -> no_waiters (ensure_connected st).
Proof.
  unfold ensure_connected, connect.
  destruct (is_open st); [auto |].
  destruct (isConnecting st || false); auto.
Qed.


(** An error of the limiter, the ban error among them, carries no marker:
    while attempts are left the loop sleeps and tries again. *)
Lemma order_loop_limiter_error (remaining : nat) (rq : Request)
    (finish : Json -> Z -> JsError + Trade) (st st' : State) (e : JsError) :
  plain_dates toLocaleString ->
  request rq st = (Thrown e, st') ->
  limiter_error toLocaleString e ->
  order_loop toLocaleString encodeURIComponent hmacSha256Hex fetchOracle lateness
    (S (S remaining)) rq finish st
  = order_loop toLocaleString encodeURIComponent hmacSha256Hex fetchOracle lateness
      (S remaining) rq finish
      (sleep lateness (2 ^ (Z.of_nat maxAttempts - Z.of_nat (S remaining)) * 1000) st').
Proof.
  intros Hdates Hreq Hlimiter.
  set (next := order_loop toLocaleString encodeURIComponent hmacSha256Hex fetchOracle
                 lateness (S remaining) rq finish).
  cbn [order_loop]. fold next.
  rewrite Hreq, (limiter_error_transient toLocaleString e Hdates Hlimiter).
  destruct (Z.leb_spec (Z.of_nat maxAttempts) (Z.of_nat maxAttempts - Z.of_nat (S remaining)));
    [lia | reflexivity].
Qed.




(** The executor always settles or parks: the fuel of the wait loop is
    never used up. *)
Lemma request_never_out_of_fuel (rq : Request) (st : State) :
  fst (request rq st) <> OutOfFuel.
Proof.
  destruct (request_run rq st) as [Hrun _]. intros Hout.
  rewrite Hout in Hrun. inversion Hrun.
Qed.

Lemma order_loop_no_waiters (remaining : nat) (rq : Request)
    (finish : Json -> Z -> JsError + Trade) (st : State) :
  no_waiters st ->
  no_waiters
    (snd (order_loop toLocaleString encodeURIComponent hmacSha256Hex fetchOracle lateness
            remaining rq finish st)).
Proof.
  revert st. induction remaining as [|remaining IH]; intros st Hnw; [exact Hnw |].
  cbn [order_loop].
  destruct (request_run rq st) as [_ Hkeep]. specialize (Hkeep Hnw).
  destruct (request rq st) as [[data | e | p |] st1]; simpl in Hkeep |- *; try exact Hkeep.
  - destruct (finish data (clock st1)) as [e | trade]; [| exact Hkeep].
    destruct (_ || is_non_transient (emessage e)); [exact Hkeep |].
    apply IH. exact (quiet_no_waiters _ _ (sleep_quiet lateness _ st1) Hkeep).
  - destruct (_ || is_non_transient (emessage e)); [exact Hkeep |].
    apply IH. exact (quiet_no_waiters _ _ (sleep_quiet lateness _ st1) Hkeep).
Qed.

(** [placeOrder] leaves every waiter list empty. *)
Lemma placeOrder_no_waiters (symbol : string) (side : Side) (type : OrderType)
    (quantity : JsNumber) (price leverage : option JsNumber) (st : State) :
  no_waiters st ->
  no_waiters (snd (place_order symbol side type quantity price leverage st)).
Proof.
  intros Hnw.
  assert (Htry : no_waiters
                   (snd (place_order_try symbol side type quantity price leverage st))).
  { unfold placeOrder_try.
    destruct (negb (onLine st)); [exact Hnw |].
    pose proof (ensure_connected_no_waiters st Hnw) as Hnw1.
    destruct (_ || num_le0 quantity); [exact Hnw1 |].
    destruct (is_limit type && price_unusable price); [exact Hnw1 |].
    destruct (preset_leverage_cases symbol leverage (ensure_connected st)) as [_ Hpre].
    destruct (Hpre Hnw1) as [Hret Hnw2].
    destruct (preset symbol leverage (ensure_connected st)) as [o st2].
    simpl in Hret, Hnw2. subst o.
    apply order_loop_no_waiters. exact Hnw2. }
  unfold placeOrder.
  destruct (place_order_try symbol side type quantity price leverage st) as [[t | e | p |] st1];
    exact Htry.
Qed.

(** *** Account information and positions *)

Local Abbreviation account_info :=
  (getAccountInfo toLocaleString encodeURIComponent hmacSha256Hex fetchOracle lateness).
Local Abbreviation account_info_retry :=
  (account_info_with_retry toLocaleString encodeURIComponent hmacSha256Hex
     fetchOracle lateness).
Local Abbreviation open_positions :=
  (getOpenPositions toLocaleString encodeURIComponent hmacSha256Hex parseFloat
     fetchOracle lateness).

Lemma no_waiters_has_waiters (key : string) (st : State) :
  no_waiters st -> has_waiters key st = false.
Proof.
  intros H. unfold has_waiters.
  destruct (pendingRequests st !! key) as [[|w ws]|] eqn:Hk; try reflexivity.
  specialize (H key (w :: ws) Hk). discriminate H.
Qed.

Lemma getAccountInfo_catch_cases (e : JsError) (st : State) :
  let r := getAccountInfo_catch e st in
  quiet st (snd r)
  /\ ((exists data, fst r = Returned data) \/ fst r = Thrown e).
Proof.
  cbn zeta. unfold getAccountInfo_catch.
  pose proof (detectBanFromError_quiet e st) as Hq1.
  set (st1 := snd (detectBanFromError e st)) in *.
  pose proof (checkIfBanned_quiet st1) as Hq2.
  destruct (checkIfBanned st1) as [banned st2]. simpl in Hq2.
  pose proof (quiet_trans _ _ _ Hq1 Hq2) as Hq.
  destruct (banned || str_includes (error_toString e) "rate limit");
    [destruct (cached_account st2) |]; simpl; split; eauto.
Qed.

(** Where no call is parked, [getAccountInfo] settles: it returns or
    throws, and parks nothing. *)
Lemma getAccountInfo_settles (st : State) :
  no_waiters st ->
  let r := account_info st in
  no_waiters (snd r)
  /\ ((exists data, fst r = Returned data) \/ (exists e, fst r = Thrown e)).
Proof.
  intros Hnw. cbn zeta. unfold getAccountInfo.
  destruct (cache_is_fresh (clock st) st); [simpl; eauto |].
  pose proof (checkIfBanned_quiet st) as Hq1.
  destruct (checkIfBanned st) as [banned st1]. simpl in Hq1.
  pose proof (quiet_no_waiters _ _ Hq1 Hnw) as Hnw1.
  destruct banned; [simpl; eauto |].
  unfold getAccountInfo_try. rewrite (no_waiters_has_waiters _ st1 Hnw1).
  set (st2 := set_pendingRequests _ st1).
  assert (Hnw2 : no_waiters st2) by (apply insert_empty_no_waiters; exact Hnw1).
  destruct (request_run account_request st2) as [Hrun Hkeep].
  specialize (Hkeep Hnw2).
  destruct (request account_request st2) as [o st3]. simpl in Hrun, Hkeep.
  inversion Hrun as [e s Hn He | p s Hn Hpark | data r s Hn Hr | e0 r s Hn Hr]; subst.
  - destruct (getAccountInfo_catch_cases e st3) as [Hq [[d Hd] | Hd]].
    + split; [exact (quiet_no_waiters _ _ Hq Hkeep) | left; eauto].
    + split; [exact (quiet_no_waiters _ _ Hq Hkeep) | right; eauto].
  - contradiction.
  - simpl. split; [| left; eauto].
    destruct (json_truthy data); [| exact Hkeep].
    intros k ws. simpl. apply Hkeep.
  - destruct (getAccountInfo_catch_cases (enhanced_error account_request e0) st3)
      as [Hq [[d Hd] | Hd]].
    + split; [exact (quiet_no_waiters _ _ Hq Hkeep) | left; eauto].
    + split; [exact (quiet_no_waiters _ _ Hq Hkeep) | right; eauto].
Qed.

Lemma account_info_retry_settles (st : State) :
  no_waiters st ->
  let r := account_info_retry st in
  no_waiters (snd r)
  /\ ((exists data, fst r = Returned data) \/ (exists e, fst r = Thrown e)).
Proof.
  intros Hnw. cbn zeta. unfold account_info_with_retry.
  destruct (getAccountInfo_settles st Hnw) as [Hnw1 Hcase].
  destruct (account_info st) as [o st1]. simpl in Hnw1, Hcase.
  destruct Hcase as [[data ->] | [e ->]]; [simpl; eauto |].
  destruct (str_includes (error_toString e) "rate limit"); [| simpl; eauto].
  apply getAccountInfo_settles.
  exact (quiet_no_waiters _ _ (sleep_quiet lateness _ st1) Hnw1).
Qed.

Lemma getOpenPositions_catch_returns (e : JsError) (st : State) :
  no_waiters st ->
  fst (getOpenPositions_catch e st) = Returned []
  /\ no_waiters (snd (getOpenPositions_catch e st)).
Proof.
  intros Hnw. unfold getOpenPositions_catch. simpl. split; [reflexivity |].
  pose proof (quiet_no_waiters _ _ (detectBanFromError_quiet e st) Hnw) as Hnw1.
  intros k ws. simpl. intros Hk.
  apply lookup_delete_Some in Hk as [_ Hk]. exact (Hnw1 k ws Hk).
Qed.

Lemma getOpenPositions_extract_returns (accountInfo : Json) (st : State) :
  no_waiters st ->
  exists positions,
    fst (getOpenPositions_extract parseFloat accountInfo st) = Returned positions
    /\ no_waiters (snd (getOpenPositions_extract parseFloat accountInfo st)).
Proof.
  intros Hnw. unfold getOpenPositions_extract.
  destruct (json_truthy accountInfo && opt_truthy (json_get "positions" accountInfo));
    [| simpl; eauto].
  destruct (json_get "positions" accountInfo) as [[| | | | items |]|];
    try (exists []; apply getOpenPositions_catch_returns; exact Hnw).
  destruct (positions_of parseFloat items) as [e | positions].
  - exists []. apply getOpenPositions_catch_returns. exact Hnw.
  - exists positions. simpl. split; [reflexivity |].
    intros k ws. simpl. intros Hk.
    apply lookup_delete_Some in Hk as [_ Hk]. exact (Hnw k ws Hk).
Qed.

(** C10.  Where no call is parked as a waiter, [getOpenPositions] never
    rejects and never stays pending: it returns a list of positions.  When
    obtaining the account information fails, after the one retry a
    rate-limit failure is given, whatever the error, the list returned is
    empty. *)
Theorem getOpenPositions_never_rejects (st : State) :
  no_waiters st ->
  (exists positions, fst (open_positions st) = Returned positions)
  /\ (forall e st2,
        account_info_retry
          (set_pendingRequests (<["open_positions" := []]> (pendingRequests st)) st)
        = (Thrown e, st2) ->
        fst (open_positions st) = Returned [])
  /\ no_waiters (snd (open_positions st)).
Proof.
  intros Hnw. unfold getOpenPositions.
  rewrite (no_waiters_has_waiters _ st Hnw).
  set (st1 := set_pendingRequests _ st).
  assert (Hnw1 : no_waiters st1) by (apply insert_empty_no_waiters; exact Hnw).
  destruct (account_info_retry_settles st1 Hnw1) as [Hnw2 Hcase].
  destruct (account_info_retry st1) as [o st2]. simpl in Hnw2, Hcase.
  destruct Hcase as [[data ->] | [e ->]].
  - destruct (getOpenPositions_extract_returns data st2 Hnw2) as (positions & Hret & Hkeep).
    split; [eauto |]. split; [| exact Hkeep].
    intros e st' Habs. discriminate Habs.
  - destruct (getOpenPositions_catch_returns e st2 Hnw2) as [Hret Hkeep].
    split; [eauto |]. split; [| exact Hkeep].
    intros _ _ _. exact Hret.
Qed.

End Properties.

Lemma limit_order_needs_price_witness :
  price_unusable None = true
  /\ exists st',
       placeOrder plain_date plain_encode plain_hmac plain_number (fun _ => ban_response)
         on_time any_time_valid "BTC/USDT" BUY LIMIT (Num 1) None None ready_state
       = (Thrown (Error "Error: Price is required for LIMIT orders"), st')
       /\ network st' = [].
Proof.
  assert (Hprice : price_unusable None = true) by reflexivity.
  split; [exact Hprice |].
  destruct (limit_order_needs_price plain_date plain_encode plain_hmac plain_number
              (fun _ => ban_response) on_time any_time_valid
              "BTC/USDT" BUY (Num 1) None None ready_state Hprice)
    as (e & st' & Hrun & _ & Hnet & _ & Hmsg & _).
  exists st'. split; [| exact Hnet].
  rewrite Hrun.
  destruct Hmsg as [_ ->]; try reflexivity. discriminate.
Defined.

(** C7, the claim as stated fails: with the browser off line the same call
    is rejected by the connectivity check, which comes first, and the error
    is not one about the parameters. *)
Lemma offline_limit_order_error :
  let r := placeOrder plain_date plain_encode plain_hmac plain_number
             (fun _ => ban_response) on_time any_time_valid
             "BTC/USDT" BUY LIMIT (Num 1) None None offline_state in
  fst r = Thrown (Error "Error: No internet connection available")
  /\ fst r <> Thrown (Error (user_message price_required_error))
  /\ fst r <> Thrown (Error (user_message invalid_parameters_error)).
Proof. cbn zeta. repeat split; vm_compute; congruence. Qed.



Lemma initial_state_no_waiters : no_waiters initial_state.
Proof. intros k ws H. simpl in H. rewrite lookup_empty in H. discriminate H. Qed.

Lemma ready_state_no_waiters : no_waiters ready_state.
Proof. intros k ws H. simpl in H. rewrite lookup_empty in H. discriminate H. Qed.

Lemma getOpenPositions_never_rejects_witness :
  fst (getOpenPositions plain_date plain_encode plain_hmac plain_parseFloat
         network_down on_time ready_state)
  = Returned [].
Proof.
  destruct (getOpenPositions_never_rejects plain_date plain_encode plain_hmac
              plain_parseFloat network_down on_time ready_state ready_state_no_waiters)
    as (_ & Hfail & _).
  set (run := account_info_with_retry plain_date plain_encode plain_hmac network_down on_time
                (set_pendingRequests
                   (<["open_positions" := []]> (pendingRequests ready_state)) ready_state)).
  apply (Hfail (enhanced_error account_request (mkError "TypeError" "Failed to fetch"))
               (snd run)).
  vm_compute. reflexivity.
Defined.

(** ** Coalescing and caching in the executor *)

(** Where every waiter list is empty, a call never parks itself as a
    waiter, and it leaves every list empty. *)
Lemma mar_enter_never_parks (toLocaleString : Z -> string) (rq : Request) (st : State) :
  no_waiters st ->
  (forall p, fst (mar_enter toLocaleString rq st) <> EnterWaiter p)
  /\ no_waiters (snd (mar_enter toLocaleString rq st)).
Proof.
  intros Hnw. unfold mar_enter.
  destruct (rq_requiresSignature rq && negb (bool_decide (is_Some (credentials st))));
    [simpl; split; [discriminate | exact Hnw] |].
  assert (Hban : exists banned st1,
             (if rq_allowDuringBan rq then (false, st) else checkIfBanned st) = (banned, st1)
             /\ no_waiters st1).
  { destruct (rq_allowDuringBan rq); [eauto |].
    pose proof (checkIfBanned_quiet st) as Hq.
    destruct (checkIfBanned st) as [b s1]. exists b, s1.
    split; [reflexivity | exact (quiet_no_waiters _ _ Hq Hnw)]. }
  destruct Hban as (banned & st1 & -> & Hnw1).
  destruct banned; [simpl; split; [discriminate | exact Hnw1] |].
  destruct (register_request_cases rq st1) as (_ & _ & Hreg).
  destruct (register_request rq st1) as [[p|] st2]; simpl in Hreg; [contradiction |].
  destruct (waitForRateLimit_begin_cases toLocaleString st2) as (Hq & _).
  pose proof (quiet_no_waiters _ _ Hq (Hreg Hnw1)) as Hnw3.
  destruct (waitForRateLimit_begin toLocaleString st2) as [[e | | s n d] st3];
    simpl in Hnw3 |- *; split; try discriminate; try exact Hnw3.
  now apply settle_pending_no_waiters.
Qed.

(** C1, where the code departs from the claim.  Two calls of the executor
    with the cache key ["orders_all"]: the first runs to its first
    suspension and leaves an empty waiter list under the key; the second,
    entered while the first is pending, finds that list, whose length is 0,
    and is admitted as an owner too instead of being parked; both then
    send their request, so two [fetch] calls for the key are in flight.
    Each call is answered by its own response, which may differ from the
    other, and no waiter promise is ever created or settled. *)
Theorem second_call_is_not_coalesced :
  let rq := orders_request in
  let a := mar_enter plain_date rq ready_state in
  let b := mar_enter plain_date rq (snd a) in
  let sent :=
    mar_issue plain_encode plain_hmac rq (credentials ready_state)
      (mar_issue plain_encode plain_hmac rq (credentials ready_state) (snd b)) in
  let done_a := mar_settle rq (RespOk (Some (JArr []))) sent in
  let done_b := mar_settle rq (RespOk (Some (JArr [JNull]))) (snd done_a) in
  fst a = EnterAdmitted
  /\ pendingRequests (snd a) !! "orders_all" = Some []
  /\ fst b = EnterAdmitted
  /\ length (requests_to "/fapi/v1/allOrders" sent) = 2%nat
  /\ fst done_a = Returned (JArr [])
  /\ fst done_b = Returned (JArr [JNull])
  /\ settled (snd done_b) = []
  /\ nextPromise (snd done_b) = 0%nat.
Proof. cbn zeta. repeat split; vm_compute; reflexivity. Qed.

(** The executor never reads [cacheTTL]. *)
Lemma cacheTTL_is_ignored (toLocaleString : Z -> string)
    (encodeURIComponent : string -> string) (hmacSha256Hex : string -> string -> string)
    (fetchOracle : nat -> FetchOutcome) (lateness : nat -> nat)
    (endpoint : string) (method : HttpMethod) (params : list (string * string))
    (requiresSignature : bool) (cacheKey : option string) (ttl ttl' : Z)
    (allowDuringBan : bool) (st : State) :
  makeAuthenticatedRequest toLocaleString encodeURIComponent hmacSha256Hex fetchOracle
    lateness
    (mkRequest endpoint method params requiresSignature cacheKey ttl allowDuringBan) st
  = makeAuthenticatedRequest toLocaleString encodeURIComponent hmacSha256Hex fetchOracle
      lateness
      (mkRequest endpoint method params requiresSignature cacheKey ttl' allowDuringBan) st.
Proof. reflexivity. Qed.

(** An answer always comes from a [fetch] of the same call: there is no
    path on which a stored result is handed back. *)
Lemma every_answer_is_fetched (toLocaleString : Z -> string)
    (encodeURIComponent : string -> string) (hmacSha256Hex : string -> string -> string)
    (fetchOracle : nat -> FetchOutcome) (lateness : nat -> nat)
    (rq : Request) (st st' : State) (data : Json) :
  makeAuthenticatedRequest toLocaleString encodeURIComponent hmacSha256Hex fetchOracle
    lateness rq st = (Returned data, st') ->
  exists r, network st' = network st ++ [r] /\ fr_endpoint r = rq_endpoint rq.
Proof.
  intros Hrun.
  destruct (request_run toLocaleString encodeURIComponent hmacSha256Hex fetchOracle
              lateness rq st) as [H _].
  rewrite Hrun in H. simpl in H. inversion H; subst. eauto.
Qed.

(** The executor itself stores no result.  The request of
    [getOrderHistory] (cache key ["orders_all"], TTL 60 000 ms) is run
    twice in a row; the first run is answered and no time passes before the
    second, which is well within the TTL, and the second run issues a
    [fetch] of its own: results are stored by the callers, in front of the
    executor. *)
Lemma fresh_result_is_fetched_again :
  let rq := orders_request in
  let first :=
    makeAuthenticatedRequest plain_date plain_encode plain_hmac no_orders on_time
      rq ready_state in
  let second :=
    makeAuthenticatedRequest plain_date plain_encode plain_hmac no_orders on_time
      rq (snd first) in
  fst first = Returned (JArr [])
  /\ clock (snd first) - clock ready_state < rq_cacheTTL rq
  /\ fst second = Returned (JArr [])
  /\ length (requests_to "/fapi/v1/allOrders" (snd first)) = 1%nat
  /\ length (requests_to "/fapi/v1/allOrders" (snd second)) = 2%nat.
Proof. cbn zeta. repeat split; vm_compute; reflexivity. Qed.

(** ** Timers and [disconnect] *)

Lemma elem_of_clear_timer (id : nat) (t : nat * TimerAction) (st : State) :
  t ∈ timers (clear_timer id st) <-> t ∈ timers st /\ fst t <> id.
Proof.
  unfold clear_timer. simpl. rewrite !list_elem_of_In, List.filter_In.
  rewrite negb_true_iff, Nat.eqb_neq. reflexivity.
Qed.

Lemma stopPingInterval_timers (t : nat * TimerAction) (st : State) :
  t ∈ timers (stopPingInterval st) ->
  t ∈ timers st /\ pingInterval st <> Some (fst t).
Proof.
  unfold stopPingInterval. destruct (pingInterval st) as [id|].
  - intros H. apply (elem_of_clear_timer id t st) in H as [H Hne].
    split; [exact H | congruence].
  - intros H. split; [exact H | discriminate].
Qed.

(** The refresh timer is armed only by [startListenKeyRefresh], which
    clears the one before it: the handle held is that of every refresh
    timer there is. *)
Lemma startListenKeyRefresh_tracked (apiKey : string) (st : State) :
  refresh_tracked st -> refresh_tracked (startListenKeyRefresh apiKey st).
Proof.
  intros Htracked id k. unfold startListenKeyRefresh, set_timer. simpl.
  rewrite elem_of_app, list_elem_of_singleton. intros [Hold | Hnew].
  - exfalso. destruct (listenKeyInterval st) as [id0|] eqn:Hfield.
    + apply (elem_of_clear_timer id0 (id, TListenKeyRefresh k) st) in Hold as [Hold Hne].
      specialize (Htracked id k Hold). simpl in Hne. congruence.
    + specialize (Htracked id k Hold). congruence.
  - injection Hnew as -> _.
    destruct (listenKeyInterval st); reflexivity.
Qed.

Lemma handleReconnect_tracked (st : State) :
  refresh_tracked st -> refresh_tracked (handleReconnect st).
Proof.
  intros Htracked id k. unfold handleReconnect, set_timer.
  destruct (reconnectAttempts st <? maxReconnectAttempts); simpl;
    rewrite elem_of_app, list_elem_of_singleton;
    (intros [Hold | Hnew]; [exact (Htracked id k Hold) | discriminate Hnew]).
Qed.

Lemma clear_timer_tracked (id : nat) (st : State) :
  refresh_tracked st -> refresh_tracked (clear_timer id st).
Proof.
  intros Htracked i k Hin.
  apply (elem_of_clear_timer id (i, TListenKeyRefresh k) st) in Hin as [Hin _].
  exact (Htracked i k Hin).
Qed.

Lemma stopPingInterval_tracked (st : State) :
  refresh_tracked st -> refresh_tracked (stopPingInterval st).
Proof.
  intros Htracked. unfold stopPingInterval.
  destruct (pingInterval st) as [id|]; [| exact Htracked].
  intros i k Hin. exact (clear_timer_tracked id st Htracked i k Hin).
Qed.

Lemma startPingInterval_tracked (st : State) :
  refresh_tracked st -> refresh_tracked (startPingInterval st).
Proof.
  intros Htracked id k. unfold startPingInterval, set_timer. simpl.
  rewrite elem_of_app, list_elem_of_singleton.
  intros [Hold | Hnew]; [exact (Htracked id k Hold) | discriminate Hnew].
Qed.

Lemma connect_tracked (st : State) : refresh_tracked st -> refresh_tracked (connect st).
Proof.
  intros Htracked. unfold connect.
  destruct (isConnecting st || is_open st); exact Htracked.
Qed.

Lemma ws_onclose_tracked (st : State) :
  refresh_tracked st -> refresh_tracked (ws_onclose st).
Proof.
  intros Htracked. unfold ws_onclose. apply handleReconnect_tracked.
  intros id k Hin. exact (stopPingInterval_tracked st Htracked id k Hin).
Qed.

Lemma fire_reconnect_tracked (id : nat) (st : State) :
  refresh_tracked st -> refresh_tracked (fire_reconnect id st).
Proof.
  intros Htracked. unfold fire_reconnect.
  destruct (List.find _ (timers st)) as [[i [| k | |]]|]; try exact Htracked.
  - apply connect_tracked, clear_timer_tracked, Htracked.
  - apply connect_tracked. intros i' k Hin.
    exact (clear_timer_tracked id st Htracked i' k Hin).
Qed.

Lemma initial_state_tracked : refresh_tracked initial_state.
Proof. intros id k H. simpl in H. apply elem_of_nil in H. contradiction. Qed.

(** C9, as amended.  After [disconnect()] the socket reference is gone and
    the handles of the keepalive timer and of the listen-key refresh timer
    are cleared; no listen-key refresh timer is pending any more, nor the
    keepalive timer that was held, so neither fires afterwards until one is
    armed again. *)
Theorem disconnect_clears_held_timers (st : State) :
  refresh_tracked st ->
  let st' := disconnect st in
  ws st' = None
  /\ pingInterval st' = None
  /\ listenKeyInterval st' = None
  /\ (forall id apiKey, (id, TListenKeyRefresh apiKey) ∉ timers st')
  /\ (forall id action, pingInterval st = Some id -> (id, action) ∉ timers st').
Proof.
  intros Htracked. cbn zeta. unfold disconnect.
  set (st1 := match ws st with Some _ => set_ws None st | None => st end).
  assert (Hws : ws st1 = None)
    by (subst st1; destruct (ws st) eqn:E; [reflexivity | exact E]).
  assert (Htimers : timers st1 = timers st) by (subst st1; destruct (ws st); reflexivity).
  assert (Hping : pingInterval st1 = pingInterval st)
    by (subst st1; destruct (ws st); reflexivity).
  assert (Hfield : listenKeyInterval st1 = listenKeyInterval st)
    by (subst st1; destruct (ws st); reflexivity).
  set (st2 := stopPingInterval st1).
  assert (Hws2 : ws st2 = None)
    by (subst st2; unfold stopPingInterval; destruct (pingInterval st1); exact Hws).
  assert (Hping2 : pingInterval st2 = None)
    by (subst st2; unfold stopPingInterval; destruct (pingInterval st1) eqn:E;
        [reflexivity | exact E]).
  assert (Hfield2 : listenKeyInterval st2 = listenKeyInterval st)
    by (subst st2; unfold stopPingInterval; destruct (pingInterval st1); exact Hfield).
  assert (Hsub : forall t, t ∈ timers st2 ->
                           t ∈ timers st /\ pingInterval st <> Some (fst t)).
  { intros t Ht. subst st2. apply stopPingInterval_timers in Ht.
    now rewrite Htimers, Hping in Ht. }
  destruct (listenKeyInterval st2) as [id0|] eqn:Hheld; simpl.
  - repeat split; try assumption.
    + intros id k Hin.
      apply (elem_of_clear_timer id0 (id, TListenKeyRefresh k) st2) in Hin as [Hin Hne].
      destruct (Hsub _ Hin) as [Hin' _].
      specialize (Htracked id k Hin'). simpl in Hne. congruence.
    + intros id action Hid Hin.
      apply (elem_of_clear_timer id0 (id, action) st2) in Hin as [Hin _].
      destruct (Hsub _ Hin) as [_ Hne]. simpl in Hne. congruence.
  - repeat split; try assumption.
    + intros id k Hin. destruct (Hsub _ Hin) as [Hin' _].
      specialize (Htracked id k Hin'). congruence.
    + intros id action Hid Hin. destruct (Hsub _ Hin) as [_ Hne]. simpl in Hne. congruence.
Qed.

Lemma disconnect_clears_held_timers_witness :
  let st := startListenKeyRefresh "key" (startPingInterval open_state) in
  timers st = [(1%nat, TPing); (2%nat, TListenKeyRefresh "key")]
  /\ timers (disconnect st) = []
  /\ forall id apiKey, (id, TListenKeyRefresh apiKey) ∉ timers (disconnect st).
Proof.
  cbn zeta.
  assert (Htracked : refresh_tracked (startListenKeyRefresh "key" (startPingInterval open_state))).
  { apply startListenKeyRefresh_tracked. intros id k H. vm_compute in H.
    apply list_elem_of_singleton in H. discriminate H. }
  split; [reflexivity |]. split; [reflexivity |].
  apply (disconnect_clears_held_timers _ Htracked).
Defined.

(** C9, the claim as stated fails: a reconnect timer armed by the close
    handler is still pending after [disconnect()], which holds no handle
    for it, and when it fires it calls [connect()]: the socket is being
    opened again although nobody asked for a connection. *)
Lemma reconnect_timer_survives_disconnect :
  let st := disconnect dropped_state in
  timers dropped_state = [(1%nat, TReconnect)]
  /\ ws st = None
  /\ timers st = [(1%nat, TReconnect)]
  /\ ws (fire_reconnect 1 st) = Some CONNECTING.
Proof. cbn zeta. repeat split; vm_compute; reflexivity. Qed.

(** ** A remark on the ban error of the executor *)

(** The error the executor raises while the session is banned says
    ["IP ban until"]: it carries none of the markers, so [placeOrder] takes
    it for a transient failure.  On a banned session the call is tried three
    times, two seconds and then four seconds apart, and sends nothing. *)
Lemma banned_session_order_is_retried :
  let r := placeOrder plain_date plain_encode plain_hmac plain_number no_orders on_time
             any_time_valid "BTC/USDT" BUY MARKET (Num 1) None None banned_state in
  fst r = Thrown (Error
            "Error: API requests are blocked due to Binance IP ban until 2000000")
  /\ network (snd r) = []
  /\ suspensions (snd r) = 2%nat
  /\ clock (snd r) = clock banned_state + 2000 + 4000.
Proof. cbn zeta. repeat split; vm_compute; reflexivity. Qed.

(** ** What the limiter guarantees *)

Lemma checkIfBanned_clear (st : State) :
  isBanned (banInfo st) = false -> checkIfBanned st = (false, st).
Proof. intros H. unfold checkIfBanned. rewrite H. reflexivity. Qed.

Lemma canMakeRequest_clear (st : State) :
  isBanned (banInfo st) = false ->
  canMakeRequest st
  = (Z.of_nat (length (in_window st)) <? MAX_REQUESTS_PER_MINUTE - RATE_LIMIT_BUFFER,
     set_requestTimestamps (in_window st) st).
Proof. intros H. unfold canMakeRequest. rewrite (checkIfBanned_clear st H). reflexivity. Qed.

(** X1.  Where no ban flag is set and fewer than four hundred requests are
    less than a minute old, [waitForRateLimit] resolves at once: nothing
    is slept on, the requests older than a minute are forgotten and the
    present instant is recorded as the newest request. *)
Theorem free_slot_is_granted_at_once (toLocaleString : Z -> string) (lateness : nat -> nat)
    (st : State) :
  isBanned (banInfo st) = false ->
  slot_free st ->
  waitForRateLimit toLocaleString lateness st
  = (WaitOk, set_requestTimestamps (in_window st ++ [clock st]) st).
Proof.
  intros Hflag Hfree. unfold waitForRateLimit, waitForRateLimit_begin.
  rewrite (checkIfBanned_clear st Hflag), (canMakeRequest_clear st Hflag).
  unfold slot_free in Hfree.
  destruct (Z.ltb_spec (Z.of_nat (length (in_window st)))
              (MAX_REQUESTS_PER_MINUTE - RATE_LIMIT_BUFFER)); [reflexivity | lia].
Qed.

Lemma free_slot_is_granted_at_once_witness :
  waitForRateLimit plain_date on_time ready_state
  = (WaitOk, set_requestTimestamps [1000000] ready_state).
Proof.
  apply (free_slot_is_granted_at_once plain_date on_time ready_state).
  - reflexivity.
  - unfold slot_free. vm_compute. reflexivity.
Defined.

Lemma canMakeRequest_admits (st st' : State) :
  canMakeRequest st = (true, st') ->
  window_respected (push_timestamp st')
  /\ last (requestTimestamps (push_timestamp st')) = Some (clock (push_timestamp st')).
Proof.
  unfold canMakeRequest.
  pose proof (checkIfBanned_clock st) as Hc.
  destruct (checkIfBanned st) as [banned st1]. simpl in Hc.
  destruct banned; [discriminate |].
  intros H. injection H as Hlen <-.
  apply Z.ltb_lt in Hlen.
  unfold window_respected, push_timestamp. simpl. split; [split |].
  - rewrite length_app. simpl.
    unfold MAX_REQUESTS_PER_MINUTE, RATE_LIMIT_BUFFER in *. lia.
  - apply Forall_app. split.
    + apply Forall_forall. intros t Ht.
      apply list_elem_of_In, List.filter_In in Ht as [_ Ht].
      apply Z.ltb_lt in Ht. exact Ht.
    + apply Forall_singleton. unfold REQUEST_WINDOW_MS. lia.
  - apply last_snoc.
Qed.

Section Limiter.

Variable toLocaleString : Z -> string.
Variable lateness : nat -> nat.

Lemma wait_callback_resolves (startTime nextSlotTime : Z) (st st' : State) :
  wait_callback toLocaleString startTime nextSlotTime st = (WaitResolved, st') ->
  window_respected st' /\ last (requestTimestamps st') = Some (clock st').
Proof.
  unfold wait_callback.
  destruct (maxWaitTime <? clock st - startTime); [discriminate |].
  destruct (checkIfBanned st) as [banned st1].
  destruct banned; [discriminate |].
  destruct (canMakeRequest st1) as [ok st2] eqn:Hcan.
  destruct ok; [| discriminate].
  intros H. injection H as <-. exact (canMakeRequest_admits st1 st2 Hcan).
Qed.

Lemma wait_loop_resolves (fuel : nat) (startTime nextSlotTime delay : Z) (st st' : State) :
  wait_loop toLocaleString lateness fuel startTime nextSlotTime delay st = (WaitOk, st') ->
  window_respected st' /\ last (requestTimestamps st') = Some (clock st').
Proof.
  revert delay st. induction fuel as [|fuel IH]; intros delay st; [discriminate |].
  cbn [wait_loop].
  destruct (wait_callback toLocaleString startTime nextSlotTime (sleep lateness delay st))
    as [[e | | d] st1] eqn:Hcb.
  - discriminate.
  - intros H. injection H as <-. exact (wait_callback_resolves _ _ _ _ Hcb).
  - apply IH.
Qed.

(** X2.  Whenever [waitForRateLimit] resolves, at once or after waiting,
    the request it lets through is recorded at the present instant, and
    with it at most four hundred requests are on record, every one of them
    less than a minute old. *)
Theorem granted_slot_respects_window (st st' : State) :
  waitForRateLimit toLocaleString lateness st = (WaitOk, st') ->
  window_respected st' /\ last (requestTimestamps st') = Some (clock st').
Proof.
  unfold waitForRateLimit, waitForRateLimit_begin.
  destruct (checkIfBanned st) as [banned st1].
  destruct banned; [discriminate |].
  destruct (canMakeRequest st1) as [ok st2] eqn:Hcan.
  destruct ok.
  - intros H. injection H as <-. exact (canMakeRequest_admits st1 st2 Hcan).
  - apply wait_loop_resolves.
Qed.

End Limiter.

Lemma granted_slot_respects_window_witness :
  exists st',
    waitForRateLimit plain_date on_time busy_state = (WaitOk, st')
    /\ suspensions st' = 4%nat
    /\ requestTimestamps st' = [1000575]
    /\ window_respected st'.
Proof.
  set (run := waitForRateLimit plain_date on_time busy_state).
  assert (Hrun : run = (WaitOk, snd run)) by (vm_compute; reflexivity).
  exists (snd run). split; [exact Hrun |].
  split; [vm_compute; reflexivity |]. split; [vm_compute; reflexivity |].
  exact (proj1 (granted_slot_respects_window plain_date on_time busy_state (snd run) Hrun)).
Defined.

(** ** How the wait for a slot ends *)

Section LimiterEnd.

Variable toLocaleString : Z -> string.
Variable lateness : nat -> nat.

Lemma wait_callback_rejects (startTime nextSlotTime : Z) (st st' : State) (e : JsError) :
  wait_callback toLocaleString startTime nextSlotTime st = (WaitRejected e, st') ->
  clock st' = clock st
  /\ (e = ban_error toLocaleString st'
      \/ (e = timeout_error st' /\ maxWaitTime < clock st - startTime)).
Proof.
  unfold wait_callback.
  destruct (Z.ltb_spec maxWaitTime (clock st - startTime)) as [Hlate | Hin].
  - intros H. injection H as <- <-.
    split; [| right; split; [reflexivity | exact Hlate]].
    destruct (_ <? Z.of_nat (length (requestTimestamps st))); reflexivity.
  - pose proof (checkIfBanned_clock st) as Hc.
    destruct (checkIfBanned st) as [banned st1]. simpl in Hc.
    destruct banned.
    + intros H. injection H as <- <-. split; [exact Hc | left; reflexivity].
    + destruct (canMakeRequest st1) as [ok st2]. destruct ok; discriminate.
Qed.

Lemma wait_loop_rejects (fuel : nat) (startTime nextSlotTime delay : Z) (st st' : State)
    (e : JsError) :
  0 <= delay ->
  wait_loop toLocaleString lateness fuel startTime nextSlotTime delay st = (WaitFailed e, st') ->
  e = ban_error toLocaleString st'
  \/ (e = timeout_error st' /\ maxWaitTime < clock st' - startTime).
Proof.
  revert delay st. induction fuel as [|fuel IH]; intros delay st Hdelay; [discriminate |].
  cbn [wait_loop].
  destruct (wait_callback toLocaleString startTime nextSlotTime (sleep lateness delay st))
    as [[e1 | | d] st1] eqn:Hcb.
  - intros H. injection H as <- <-.
    destruct (wait_callback_rejects _ _ _ _ _ Hcb) as [Hc [Hban | [Htime Hlate]]];
      [left; exact Hban | right]. split; [exact Htime | lia].
  - discriminate.
  - pose proof (wait_callback_cases toLocaleString startTime nextSlotTime
                  (sleep lateness delay st)) as (_ & _ & Hcase).
    rewrite Hcb in Hcase. simpl in Hcase. apply IH. lia.
Qed.

(** No step of the limiter writes to the socket. *)
Lemma checkIfBanned_wire (st : State) : wire (snd (checkIfBanned st)) = wire st.
Proof.
  unfold checkIfBanned.
  destruct (negb (isBanned (banInfo st)) || (banUntil (banInfo st) <? clock st));
    [destruct (isBanned (banInfo st)) | destruct (60000 <? clock st - lastBanCheckTime st)];
    reflexivity.
Qed.

Lemma canMakeRequest_wire (st : State) : wire (snd (canMakeRequest st)) = wire st.
Proof.
  unfold canMakeRequest.
  pose proof (checkIfBanned_wire st) as H.
  destruct (checkIfBanned st) as [banned st1]. simpl in H.
  destruct banned; simpl; exact H.
Qed.

Lemma wait_callback_wire (startTime nextSlotTime : Z) (st : State) :
  wire (snd (wait_callback toLocaleString startTime nextSlotTime st)) = wire st.
Proof.
  unfold wait_callback.
  destruct (maxWaitTime <? clock st - startTime).
  - destruct (_ <? Z.of_nat (length (requestTimestamps st))); reflexivity.
  - pose proof (checkIfBanned_wire st) as H1.
    destruct (checkIfBanned st) as [banned st1]. simpl in H1.
    destruct banned; [exact H1 |].
    pose proof (canMakeRequest_wire st1) as H2.
    destruct (canMakeRequest st1) as [ok st2]. simpl in H2.
    destruct ok; simpl; congruence.
Qed.

Lemma wait_loop_wire (fuel : nat) (startTime nextSlotTime delay : Z) (st : State) :
  wire (snd (wait_loop toLocaleString lateness fuel startTime nextSlotTime delay st))
  = wire st.
Proof.
  revert delay st. induction fuel as [|fuel IH]; intros delay st; [reflexivity |].
  cbn [wait_loop].
  pose proof (wait_callback_wire startTime nextSlotTime (sleep lateness delay st)) as H.
  destruct (wait_callback toLocaleString startTime nextSlotTime (sleep lateness delay st))
    as [[e | | d] st1]; cbn [fst snd] in H |- *; try exact H.
  rewrite IH. exact H.
Qed.

Lemma waitForRateLimit_wire (st : State) :
  wire (snd (waitForRateLimit toLocaleString lateness st)) = wire st.
Proof.
  unfold waitForRateLimit.
  assert (Hbegin : wire (snd (waitForRateLimit_begin toLocaleString st)) = wire st).
  { unfold waitForRateLimit_begin.
    pose proof (checkIfBanned_wire st) as H1.
    destruct (checkIfBanned st) as [banned st1]. simpl in H1.
    destruct banned; [exact H1 |].
    pose proof (canMakeRequest_wire st1) as H2.
    destruct (canMakeRequest st1) as [ok st2]. simpl in H2.
    destruct ok; simpl; congruence. }
  destruct (waitForRateLimit_begin toLocaleString st) as [[e | | s n d] st1];
    cbn [fst snd] in Hbegin |- *; try exact Hbegin.
  rewrite wait_loop_wire. exact Hbegin.
Qed.

(** X3.  [waitForRateLimit] always settles, and sends nothing while it
    waits, neither a request nor a frame on the socket: it resolves, or it
    is rejected with the ban error, or with the timeout error, and then
    more than thirty seconds have gone by since the call. *)
Theorem waitForRateLimit_settles (st : State) :
  let r := waitForRateLimit toLocaleString lateness st in
  quiet st (snd r)
  /\ wire (snd r) = wire st
  /\ match fst r with
     | WaitOk => True
     | WaitFailed e =>
         e = ban_error toLocaleString (snd r)
         \/ (e = timeout_error (snd r) /\ maxWaitTime < clock (snd r) - clock st)
     | WaitOutOfFuel => False
     end.
Proof.
  cbn zeta.
  refine (let H := _ in conj (proj1 H) (conj (waitForRateLimit_wire st) (proj2 H))).
  unfold waitForRateLimit.
  pose proof (waitForRateLimit_begin_cases toLocaleString st) as (Hq & Hbegin).
  assert (Hclock : forall s n d st1,
             waitForRateLimit_begin toLocaleString st = (BeginWaiting s n d, st1) ->
             s = clock st).
  { unfold waitForRateLimit_begin.
    pose proof (checkIfBanned_clock st) as Hc1.
    destruct (checkIfBanned st) as [banned st1]. simpl in Hc1.
    destruct banned; [discriminate |].
    pose proof (canMakeRequest_clock st1) as Hc2.
    destruct (canMakeRequest st1) as [ok st2]. simpl in Hc2.
    destruct ok; [discriminate |].
    intros s n d st3 H. injection H as <- _ _ _. congruence. }
  assert (Hrej : forall e st1,
             waitForRateLimit_begin toLocaleString st = (BeginRejected e, st1) ->
             e = ban_error toLocaleString st1).
  { unfold waitForRateLimit_begin.
    destruct (checkIfBanned st) as [banned st1].
    destruct banned; [intros e s H; injection H as <- <-; reflexivity |].
    destruct (canMakeRequest st1) as [ok st2]. destruct ok; discriminate. }
  destruct (waitForRateLimit_begin toLocaleString st) as [[e | | s n d] st1];
    cbn [fst snd] in Hq, Hbegin |- *.
  - split; [exact Hq | left; exact (Hrej e st1 eq_refl)].
  - split; [exact Hq | exact I].
  - destruct Hbegin as [Hs Hd].
    pose proof (Hclock s n d st1 eq_refl) as Hstart.
    destruct (wait_loop_sound toLocaleString lateness wait_fuel s n d st1 Hd) as (Hq' & Hend).
    { unfold maxWaitTime, wait_fuel. lia. }
    { unfold wait_fuel. lia. }
    split; [eapply quiet_trans; eassumption |].
    destruct (wait_loop toLocaleString lateness wait_fuel s n d st1) as [[| e |] st2] eqn:Hloop;
      cbn [fst snd] in Hq', Hend |- *; [exact I | | contradiction].
    rewrite <- Hstart. apply (wait_loop_rejects wait_fuel s n d st1 st2 e); [lia | exact Hloop].
Qed.

End LimiterEnd.

(** ** Requests during a ban *)

Lemma checkIfBanned_in_force (st : State) :
  ban_in_force st ->
  fst (checkIfBanned st) = true
  /\ banInfo (snd (checkIfBanned st)) = banInfo st
  /\ clock (snd (checkIfBanned st)) = clock st.
Proof.
  intros [Hflag Huntil]. unfold checkIfBanned. rewrite Hflag.
  destruct (Z.ltb_spec (banUntil (banInfo st)) (clock st)); [lia |].
  simpl. destruct (60000 <? clock st - lastBanCheckTime st); auto.
Qed.

Lemma register_request_ban (rq : Request) (st : State) :
  banInfo (snd (register_request rq st)) = banInfo st
  /\ clock (snd (register_request rq st)) = clock st.
Proof.
  unfold register_request. destruct (truthy_key (rq_cacheKey rq)) as [k|]; [| auto].
  destruct (pendingRequests st !! k) as [[|w ws]|]; auto.
Qed.

Section DuringBan.

Variable toLocaleString : Z -> string.
Variable encodeURIComponent : string -> string.
Variable hmacSha256Hex : string -> string -> string.
Variable fetchOracle : nat -> FetchOutcome.
Variable lateness : nat -> nat.

Local Abbreviation request :=
  (makeAuthenticatedRequest toLocaleString encodeURIComponent hmacSha256Hex
     fetchOracle lateness).

(** X4.  While a ban is in force the executor sends nothing, whatever the
    request and whether or not it is marked as allowed during a ban: the
    limiter checks the ban again.  The ban record is left as it is, and
    where no call is parked the call is rejected, with the error for
    missing credentials or with the ban error. *)
Theorem banned_session_sends_nothing (rq : Request) (st : State) :
  ban_in_force st ->
  let r := request rq st in
  network (snd r) = network st
  /\ banInfo (snd r) = banInfo st
  /\ (no_waiters st ->
      fst r = Thrown (Error "API credentials not found")
      \/ fst r = Thrown (ban_error toLocaleString st)).
Proof.
  intros Hban. cbn zeta. unfold makeAuthenticatedRequest, mar_enter.
  destruct (rq_requiresSignature rq && negb (bool_decide (is_Some (credentials st))));
    [simpl; auto |].
  destruct (rq_allowDuringBan rq).
  - destruct (register_request_cases rq st) as (Hn & _ & Hreg).
    destruct (register_request_ban rq st) as [Hb Hc].
    destruct (register_request rq st) as [[p|] st2]; simpl in Hn, Hreg, Hb, Hc.
    + simpl. split; [exact Hn |]. split; [exact Hb |]. intros Hnw. contradiction.
    + assert (Hban2 : ban_in_force st2) by (unfold ban_in_force; rewrite Hb, Hc; exact Hban).
      destruct (checkIfBanned_in_force st2 Hban2) as (Hyes & Hb3 & _).
      pose proof (checkIfBanned_quiet st2) as Hq.
      unfold waitForRateLimit_begin.
      destruct (checkIfBanned st2) as [banned st3]. simpl in Hyes, Hb3, Hq. subst banned.
      simpl. rewrite settle_pending_network, settle_pending_banInfo.
      split; [destruct Hq as [-> _]; exact Hn |]. split; [congruence |].
      intros _. right. unfold ban_error. now rewrite Hb3, Hb.
  - destruct (checkIfBanned_in_force st Hban) as (Hyes & Hb & _).
    pose proof (checkIfBanned_quiet st) as Hq.
    destruct (checkIfBanned st) as [banned st1]. simpl in Hyes, Hb, Hq. subst banned.
    simpl. split; [apply Hq |]. split; [exact Hb |].
    intros _. right. unfold ban_error. now rewrite Hb.
Qed.

End DuringBan.

Lemma banned_state_in_force : ban_in_force banned_state.
Proof. split; [reflexivity | vm_compute; discriminate]. Qed.

Lemma banned_session_sends_nothing_witness :
  let r := makeAuthenticatedRequest plain_date plain_encode plain_hmac no_orders on_time
             listenKey_request banned_state in
  rq_allowDuringBan listenKey_request = true
  /\ network (snd r) = []
  /\ fst r = Thrown (Error "API requests are blocked due to Binance IP ban until 2000000").
Proof.
  cbn zeta. split; [reflexivity |].
  destruct (banned_session_sends_nothing plain_date plain_encode plain_hmac no_orders on_time
              listenKey_request banned_state banned_state_in_force) as (Hnet & _ & Hout).
  split; [exact Hnet |].
  destruct (Hout ready_state_no_waiters) as [H | H]; [| exact H].
  vm_compute in H. discriminate H.
Defined.

(** ** A request that goes through *)

Lemma settle_pending_clock (key : option string) (r : Settlement) (st : State) :
  clock (settle_pending key r st) = clock st.
Proof. settle_pending_field. Qed.

Lemma settle_pending_requestTimestamps (key : option string) (r : Settlement) (st : State) :
  requestTimestamps (settle_pending key r st) = requestTimestamps st.
Proof. settle_pending_field. Qed.

Lemma settle_pending_suspensions (key : option string) (r : Settlement) (st : State) :
  suspensions (settle_pending key r st) = suspensions st.
Proof. settle_pending_field. Qed.

Lemma settle_pending_accountInfoCache (key : option string) (r : Settlement) (st : State) :
  accountInfoCache (settle_pending key r st) = accountInfoCache st.
Proof. settle_pending_field. Qed.

Lemma settle_pending_removes (key : option string) (r : Settlement) (st : State) (k : string) :
  truthy_key key = Some k -> pendingRequests (settle_pending key r st) !! k = None.
Proof.
  intros Hk. unfold settle_pending. rewrite Hk.
  destruct (pendingRequests st !! k) eqn:E; [simpl; apply lookup_delete_eq | exact E].
Qed.

Lemma register_request_owner (rq : Request) (st : State) :
  no_waiters st ->
  fst (register_request rq st) = AsOwner
  /\ requestTimestamps (snd (register_request rq st)) = requestTimestamps st
  /\ credentials (snd (register_request rq st)) = credentials st
  /\ suspensions (snd (register_request rq st)) = suspensions st
  /\ accountInfoCache (snd (register_request rq st)) = accountInfoCache st
  /\ localStorage (snd (register_request rq st)) = localStorage st.
Proof.
  intros Hnw. unfold register_request.
  destruct (truthy_key (rq_cacheKey rq)) as [k|]; [| simpl; auto 10].
  destruct (pendingRequests st !! k) as [[|w ws]|] eqn:Hk; simpl; auto 10.
  specialize (Hnw k (w :: ws) Hk). discriminate Hnw.
Qed.

Section GoesThrough.

Variable toLocaleString : Z -> string.
Variable encodeURIComponent : string -> string.
Variable hmacSha256Hex : string -> string -> string.
Variable fetchOracle : nat -> FetchOutcome.
Variable lateness : nat -> nat.

Local Abbreviation request :=
  (makeAuthenticatedRequest toLocaleString encodeURIComponent hmacSha256Hex
     fetchOracle lateness).

(** With credentials at hand where they are needed, no ban flag, a free
    slot and no call parked, the executor goes straight to its [fetch]. *)
Lemma request_admitted (rq : Request) (st : State) :
  (rq_requiresSignature rq = true -> is_Some (credentials st)) ->
  isBanned (banInfo st) = false ->
  slot_free st ->
  no_waiters st ->
  request rq st
  = mar_settle rq (fetchOracle (length (network st)))
      (await_fetch lateness
         (mar_issue encodeURIComponent hmacSha256Hex rq (credentials st)
            (set_requestTimestamps (in_window st ++ [clock st])
               (snd (register_request rq st))))).
Proof.
  intros Hcreds Hflag Hfree Hnw. unfold makeAuthenticatedRequest, mar_enter.
  assert (Hsig : rq_requiresSignature rq && negb (bool_decide (is_Some (credentials st)))
                 = false).
  { destruct (rq_requiresSignature rq); [| reflexivity].
    rewrite bool_decide_eq_true_2 by auto. reflexivity. }
  rewrite Hsig.
  assert (Hguard : (if rq_allowDuringBan rq then (false, st) else checkIfBanned st)
                   = (false, st)).
  { destruct (rq_allowDuringBan rq); [reflexivity | exact (checkIfBanned_clear st Hflag)]. }
  rewrite Hguard.
  destruct (register_request_owner rq st Hnw) as (Howner & Hts & _).
  destruct (register_request_ban rq st) as [Hb Hc].
  destruct (register_request_cases rq st) as (Hn & _ & _).
  destruct (register_request rq st) as [reg st2]. simpl in Howner, Hts, Hb, Hc, Hn |- *.
  subst reg.
  assert (Hflag2 : isBanned (banInfo st2) = false) by congruence.
  assert (Hwin : in_window st2 = in_window st) by (unfold in_window; now rewrite Hts, Hc).
  unfold waitForRateLimit_begin.
  rewrite (checkIfBanned_clear st2 Hflag2), (canMakeRequest_clear st2 Hflag2), Hwin.
  unfold slot_free in Hfree.
  destruct (Z.ltb_spec (Z.of_nat (length (in_window st)))
              (MAX_REQUESTS_PER_MINUTE - RATE_LIMIT_BUFFER)); [| lia].
  unfold mar_perform, push_timestamp. simpl. rewrite Hn, Hc. reflexivity.
Qed.

(** X5.  With credentials at hand where the request needs them, no ban
    flag, a free slot and no call parked, a request whose [fetch] is
    answered with an ok response is sent at once, exactly once, to its
    endpoint and with its method, and the call returns the JSON of the
    response, or the empty object when the body is no JSON.  The slot taken
    is recorded at the instant of the call, nothing but the [fetch] is
    waited for, the entry of the cache key is removed and the ban record is
    not touched. *)
Theorem admitted_request_is_answered (rq : Request) (st : State) (body : option Json) :
  (rq_requiresSignature rq = true -> is_Some (credentials st)) ->
  isBanned (banInfo st) = false ->
  slot_free st ->
  no_waiters st ->
  fetchOracle (length (network st)) = RespOk body ->
  exists f st',
    request rq st = (Returned (default (JObj []) body), st')
    /\ network st' = network st ++ [f]
    /\ fr_endpoint f = rq_endpoint rq
    /\ fr_method f = rq_method rq
    /\ requestTimestamps st' = in_window st ++ [clock st]
    /\ suspensions st' = S (suspensions st)
    /\ (forall k, truthy_key (rq_cacheKey rq) = Some k -> pendingRequests st' !! k = None)
    /\ banInfo st' = banInfo st.
Proof.
  intros Hcreds Hflag Hfree Hnw Hfetch.
  rewrite (request_admitted rq st Hcreds Hflag Hfree Hnw), Hfetch.
  destruct (register_request_owner rq st Hnw) as (_ & _ & _ & Hsus & _).
  destruct (register_request_ban rq st) as [Hb _].
  destruct (register_request_cases rq st) as (Hn & _ & _).
  eexists _, _. split; [reflexivity |].
  cbn [mar_settle snd].
  rewrite settle_pending_network, settle_pending_requestTimestamps,
    settle_pending_suspensions, settle_pending_banInfo.
  unfold await_fetch, mar_issue. simpl. rewrite Hn, Hsus, Hb.
  split; [reflexivity |]. split; [reflexivity |]. split; [reflexivity |].
  split; [reflexivity |]. split; [reflexivity |]. split; [| reflexivity].
  intros k Hk. apply settle_pending_removes. exact Hk.
Qed.

End GoesThrough.

Lemma ready_state_slot_free : slot_free ready_state.
Proof. unfold slot_free. vm_compute. reflexivity. Qed.

Lemma admitted_request_is_answered_witness :
  exists st',
    makeAuthenticatedRequest plain_date plain_encode plain_hmac no_orders on_time
      orders_request ready_state
    = (Returned (JArr []), st')
    /\ length (network st') = 1%nat
    /\ requestTimestamps st' = [1000000]
    /\ pendingRequests st' !! "orders_all" = None.
Proof.
  destruct (admitted_request_is_answered plain_date plain_encode plain_hmac no_orders on_time
              orders_request ready_state (Some (JArr [])))
    as (f & st' & Hrun & Hnet & _ & _ & Hts & _ & Hkey & _).
  - intros _. exists test_keys. reflexivity.
  - reflexivity.
  - exact ready_state_slot_free.
  - exact ready_state_no_waiters.
  - reflexivity.
  - exists st'. split; [exact Hrun |]. split; [rewrite Hnet; reflexivity |].
    split; [exact Hts |]. apply Hkey. reflexivity.
Defined.

(** ** How many requests an order costs *)

Section OrderTraffic.

Variable toLocaleString : Z -> string.
Variable encodeURIComponent : string -> string.
Variable hmacSha256Hex : string -> string -> string.
Variable numberToString : JsNumber -> string.
Variable fetchOracle : nat -> FetchOutcome.
Variable lateness : nat -> nat.
Variable isValidTime : Json -> bool.

Local Abbreviation request :=
  (makeAuthenticatedRequest toLocaleString encodeURIComponent hmacSha256Hex
     fetchOracle lateness).
Local Abbreviation place_order :=
  (placeOrder toLocaleString encodeURIComponent hmacSha256Hex numberToString
     fetchOracle lateness isValidTime).

Lemma request_sends_at_most_one (rq : Request) (st : State) :
  exists sent,
    network (snd (request rq st)) = network st ++ sent
    /\ (length sent <= 1)%nat
    /\ Forall (fun f => fr_endpoint f = rq_endpoint rq) sent.
Proof.
  destruct (request_run toLocaleString encodeURIComponent hmacSha256Hex fetchOracle lateness
              rq st) as [Hrun _].
  inversion Hrun as [e s Hn He | p s Hn Hpark | data r s Hn Hr | e0 r s Hn Hr].
  - exists []. rewrite app_nil_r. split; [exact Hn |]. split; [simpl; lia | constructor].
  - exists []. rewrite app_nil_r. split; [exact Hn |]. split; [simpl; lia | constructor].
  - exists [r]. split; [exact Hn |]. split; [simpl; lia |]. apply Forall_singleton. exact Hr.
  - exists [r]. split; [exact Hn |]. split; [simpl; lia |]. apply Forall_singleton. exact Hr.
Qed.

Lemma order_loop_sends (remaining : nat) (rq : Request)
    (finish : Json -> Z -> JsError + Trade) (st : State) :
  exists sent,
    network (snd (order_loop toLocaleString encodeURIComponent hmacSha256Hex fetchOracle
                    lateness remaining rq finish st))
    = network st ++ sent
    /\ (length sent <= remaining)%nat
    /\ Forall (fun f => fr_endpoint f = rq_endpoint rq) sent.
Proof.
  revert st. induction remaining as [|remaining IH]; intros st.
  { exists []. rewrite app_nil_r. simpl. split; [reflexivity |]. split; [lia | constructor]. }
  cbn [order_loop].
  destruct (request_sends_at_most_one rq st) as (sent1 & Hn1 & Hlen1 & Hto1).
  destruct (request rq st) as [o st1]. simpl in Hn1.
  assert (Hstop : exists sent,
             network st1 = network st ++ sent
             /\ (length sent <= S remaining)%nat
             /\ Forall (fun f => fr_endpoint f = rq_endpoint rq) sent).
  { exists sent1. split; [exact Hn1 |]. split; [lia | exact Hto1]. }
  assert (Hgo : forall ms,
             exists sent,
               network (snd (order_loop toLocaleString encodeURIComponent hmacSha256Hex
                               fetchOracle lateness remaining rq finish
                               (sleep lateness ms st1)))
               = network st ++ sent
               /\ (length sent <= S remaining)%nat
               /\ Forall (fun f => fr_endpoint f = rq_endpoint rq) sent).
  { intros ms. destruct (IH (sleep lateness ms st1)) as (sent2 & Hn2 & Hlen2 & Hto2).
    exists (sent1 ++ sent2). rewrite Hn2.
    change (network (sleep lateness ms st1)) with (network st1). rewrite Hn1, app_assoc.
    split; [reflexivity |]. split; [rewrite length_app; lia |].
    apply Forall_app. split; assumption. }
  destruct o as [data | e | p |]; simpl; try exact Hstop.
  - destruct (finish data (clock st1)) as [e | trade]; [| exact Hstop].
    destruct (_ || is_non_transient (emessage e)); [exact Hstop | apply Hgo].
  - destruct (_ || is_non_transient (emessage e)); [exact Hstop | apply Hgo].
Qed.

Lemma preset_leverage_sends (symbol : string) (leverage : option JsNumber) (st : State) :
  exists sent,
    network (snd (preset_leverage toLocaleString encodeURIComponent hmacSha256Hex
                    numberToString fetchOracle lateness symbol leverage st))
    = network st ++ sent
    /\ (length sent <= 1)%nat
    /\ Forall (fun f => fr_endpoint f = "/fapi/v1/leverage") sent.
Proof.
  assert (Hnone : exists sent : list FetchReq,
             network st = network st ++ sent
             /\ (length sent <= 1)%nat
             /\ Forall (fun f => fr_endpoint f = "/fapi/v1/leverage") sent).
  { exists []. rewrite app_nil_r. split; [reflexivity |]. split; [simpl; lia | constructor]. }
  unfold preset_leverage. destruct leverage as [l|]; [| exact Hnone].
  destruct (num_truthy l); [| exact Hnone].
  unfold setLeverage.
  destruct (request_sends_at_most_one (leverage_request numberToString symbol l) st)
    as (sent & Hn & Hlen & Hto).
  destruct (request (leverage_request numberToString symbol l) st) as [[data | e | p |] st1];
    simpl in Hn |- *; exists sent; auto.
Qed.

(** X6.  A call of [placeOrder] costs at most four requests and they come
    in this order: at most one to the leverage endpoint, then at most three
    to the order endpoint.  Nothing else is sent, whatever the arguments
    and whatever the venue answers. *)
Theorem placeOrder_sends_at_most_three_orders (symbol : string) (side : Side)
    (type : OrderType) (quantity : JsNumber) (price leverage : option JsNumber)
    (st : State) :
  exists lev ord,
    network (snd (place_order symbol side type quantity price leverage st))
    = network st ++ lev ++ ord
    /\ (length lev <= 1)%nat
    /\ Forall (fun f => fr_endpoint f = "/fapi/v1/leverage") lev
    /\ (length ord <= 3)%nat
    /\ Forall (fun f => fr_endpoint f = "/fapi/v1/order") ord.
Proof.
  assert (Hnone : forall st', network st' = network st ->
             exists lev ord : list FetchReq,
               network st' = network st ++ lev ++ ord
               /\ (length lev <= 1)%nat
               /\ Forall (fun f => fr_endpoint f = "/fapi/v1/leverage") lev
               /\ (length ord <= 3)%nat
               /\ Forall (fun f => fr_endpoint f = "/fapi/v1/order") ord).
  { intros st' H. exists [], []. rewrite H, !app_nil_r.
    split; [reflexivity |]. repeat split; simpl; try lia; constructor. }
  assert (Htry : exists lev ord,
             network (snd (placeOrder_try toLocaleString encodeURIComponent hmacSha256Hex
                             numberToString fetchOracle lateness isValidTime
                             symbol side type quantity price leverage st))
             = network st ++ lev ++ ord
             /\ (length lev <= 1)%nat
             /\ Forall (fun f => fr_endpoint f = "/fapi/v1/leverage") lev
             /\ (length ord <= 3)%nat
             /\ Forall (fun f => fr_endpoint f = "/fapi/v1/order") ord).
  { unfold placeOrder_try.
    destruct (negb (onLine st)); [apply Hnone; reflexivity |].
    pose proof (ensure_connected_network st) as Hn0.
    destruct (_ || num_le0 quantity); [apply Hnone; exact Hn0 |].
    destruct (is_limit type && price_unusable price); [apply Hnone; exact Hn0 |].
    destruct (preset_leverage_sends symbol leverage (ensure_connected st))
      as (lev & Hn1 & Hlen1 & Hto1).
    rewrite Hn0 in Hn1.
    destruct (preset_leverage _ _ _ _ _ _ symbol leverage (ensure_connected st))
      as [[[] | e | p |] st2]; cbn [fst snd] in Hn1 |- *.
    - destruct (order_loop_sends maxAttempts
                  (order_request numberToString symbol side type quantity price)
                  (fun data now =>
                     build_trade isValidTime data symbol side type quantity price leverage now)
                  st2) as (ord & Hn2 & Hlen2 & Hto2).
      exists lev, ord. rewrite Hn2, Hn1, app_assoc.
      split; [reflexivity |]. repeat split; assumption.
    - exists lev, []. rewrite app_nil_r. repeat split; try assumption; simpl; try lia.
      constructor.
    - exists lev, []. rewrite app_nil_r. repeat split; try assumption; simpl; try lia.
      constructor.
    - exists lev, []. rewrite app_nil_r. repeat split; try assumption; simpl; try lia.
      constructor. }
  unfold placeOrder.
  destruct (placeOrder_try _ _ _ _ _ _ _ symbol side type quantity price leverage st)
    as [[t | e | p |] st1]; exact Htry.
Qed.

End OrderTraffic.

(** ** The ban status shown and the guard *)

(** X7.  With times a double holds exactly, [getBanStatus] reports a ban
    exactly when the flag is set and the end of the ban lies ahead; the
    minutes it then reports are the time left, rounded up.  The guard
    refuses requests in the state it leaves exactly when a ban is reported,
    or when the flag is set and the ban ends at this very millisecond,
    which the guard still counts as banned and the status does not. *)
Theorem ban_status_matches_guard (st : State) :
  safe_times st ->
  let status := fst (getBanStatus st) in
  let st' := snd (getBanStatus st) in
  bs_isBanned status = isBanned (banInfo st) && (clock st <? banUntil (banInfo st))
  /\ fst (checkIfBanned st')
     = bs_isBanned status
       || (isBanned (banInfo st) && (banUntil (banInfo st) =? clock st))
  /\ (bs_isBanned status = true ->
      bs_banUntil status = banUntil (banInfo st)
      /\ 60000 * (bs_remainingMinutes status - 1) < banUntil (banInfo st) - clock st
         <= 60000 * bs_remainingMinutes status).
Proof.
  intros _. cbn zeta. unfold getBanStatus.
  destruct (isBanned (banInfo st)) eqn:Hflag.
  - destruct (Z.ltb_spec (banUntil (banInfo st)) (clock st)) as [Hpast | Hahead].
    + rewrite (checkIfBanned_expired st Hflag Hpast). cbn [fst snd].
      rewrite (checkIfBanned_clear (resetBanInfo st) eq_refl).
      destruct (Z.ltb_spec (clock st) (banUntil (banInfo st))); [lia |].
      destruct (Z.eqb_spec (banUntil (banInfo st)) (clock st)); [lia |].
      split; [reflexivity |]. split; [reflexivity |]. simpl. discriminate.
    + assert (Hforce : ban_in_force st) by (split; [exact Hflag | lia]).
      destruct (checkIfBanned_in_force st Hforce) as (_ & Hb & Hc).
      destruct (checkIfBanned st) as [banned st1]. cbn [fst snd] in Hb, Hc |- *.
      assert (Hforce1 : ban_in_force st1) by (unfold ban_in_force; rewrite Hb, Hc; exact Hforce).
      destruct (checkIfBanned_in_force st1 Hforce1) as (-> & _ & _).
      rewrite Hb, Hc, Hflag. cbn [andb].
      split; [| split].
      * destruct (Z.ltb_spec (clock st) (banUntil (banInfo st)));
          destruct (Z.ltb_spec 0 (Z.max 0 (banUntil (banInfo st) - clock st)));
          reflexivity || lia.
      * destruct (Z.ltb_spec 0 (Z.max 0 (banUntil (banInfo st) - clock st)));
          [reflexivity |].
        destruct (Z.eqb_spec (banUntil (banInfo st)) (clock st)); [reflexivity | lia].
      * intros Hyes. split; [reflexivity |].
        apply Z.ltb_lt in Hyes. unfold ceil_div.
        set (x := Z.max 0 (banUntil (banInfo st) - clock st)) in *.
        assert (Hx : x = banUntil (banInfo st) - clock st) by lia.
        rewrite <- Hx.
        pose proof (Z.mul_div_le (x + 60 * 1000 - 1) (60 * 1000) ltac:(lia)).
        pose proof (Z.mul_succ_div_gt (x + 60 * 1000 - 1) (60 * 1000) ltac:(lia)).
        cbn [bs_remainingMinutes].
        set (m := (x + 60 * 1000 - 1) `div` (60 * 1000)) in *. lia.
  - rewrite (checkIfBanned_clear st Hflag). cbn [fst snd].
    rewrite (checkIfBanned_clear st Hflag), Hflag.
    split; [reflexivity |]. split; [reflexivity |]. simpl. discriminate.
Qed.

Lemma ban_status_matches_guard_witness :
  let status := fst (getBanStatus banned_state) in
  bs_isBanned status = true
  /\ bs_banUntil status = 2000000
  /\ 60000 * (bs_remainingMinutes status - 1) < 2000000 - 1000000
     <= 60000 * bs_remainingMinutes status.
Proof.
  cbn zeta.
  assert (Hsafe : safe_times banned_state) by (split; vm_compute; congruence).
  destruct (ban_status_matches_guard banned_state Hsafe) as (Hflag & _ & Hleft).
  split; [rewrite Hflag; reflexivity |].
  apply Hleft. rewrite Hflag. reflexivity.
Defined.

(** ** The ban record and its copy in the storage *)

Lemma ban_record_kept_refl (st : State) : ban_record_kept st st.
Proof. left. auto. Qed.

Lemma ban_record_kept_trans (a b c : State) :
  ban_record_kept a b -> ban_record_kept b c -> ban_record_kept a c.
Proof.
  unfold ban_record_kept, ban_persisted.
  intros [[H1 H2] | H] [[G1 G2] | G]; auto.
  - left. split; congruence.
  - right. congruence.
Qed.

Lemma resetBanInfo_kept (st : State) : ban_record_kept st (resetBanInfo st).
Proof. right. unfold ban_persisted, resetBanInfo. simpl. apply lookup_insert_eq. Qed.

Lemma setBanned_kept (t : Z) (st : State) : ban_record_kept st (setBanned t st).
Proof. right. unfold ban_persisted, setBanned. simpl. apply lookup_insert_eq. Qed.

Lemma checkIfBanned_kept (st : State) : ban_record_kept st (snd (checkIfBanned st)).
Proof.
  unfold checkIfBanned.
  destruct (negb (isBanned (banInfo st)) || (banUntil (banInfo st) <? clock st)); simpl.
  - destruct (isBanned (banInfo st)); [apply resetBanInfo_kept | apply ban_record_kept_refl].
  - destruct (60000 <? clock st - lastBanCheckTime st); left; auto.
Qed.

Lemma canMakeRequest_kept (st : State) : ban_record_kept st (snd (canMakeRequest st)).
Proof.
  unfold canMakeRequest. pose proof (checkIfBanned_kept st) as H.
  destruct (checkIfBanned st) as [banned st1]. simpl in H.
  destruct banned; simpl; [exact H |].
  destruct H as [[H1 H2] | H]; [left; auto | right; exact H].
Qed.

Lemma detectBanFromError_kept (e : JsError) (st : State) :
  ban_record_kept st (snd (detectBanFromError e st)).
Proof.
  unfold detectBanFromError. destruct (emessage e); [apply ban_record_kept_refl |].
  destruct (banRegex_match _); [apply setBanned_kept |].
  destruct (mentions_ban _); [apply setBanned_kept | apply ban_record_kept_refl].
Qed.

Lemma ban_from_response_kept (status : Z) (parsed : ParsedBody) (st : State) :
  ban_record_kept st (ban_from_response status parsed st).
Proof.
  unfold ban_from_response.
  destruct ((status =? 418) || (status =? 429)); [| apply ban_record_kept_refl].
  destruct parsed as [|[code|] [m|]]; try apply ban_record_kept_refl;
    destruct (code =? -1003); try apply ban_record_kept_refl.
  destruct (banRegex_match m); apply setBanned_kept.
Qed.

(** A step that touches neither the ban record nor the storage. *)
Lemma ban_record_untouched (st st' : State) :
  banInfo st' = banInfo st -> localStorage st' = localStorage st -> ban_record_kept st st'.
Proof. left. auto. Qed.

Lemma settle_pending_kept (key : option string) (r : Settlement) (st : State) :
  ban_record_kept st (settle_pending key r st).
Proof.
  apply ban_record_untouched; [apply settle_pending_banInfo | apply settle_pending_localStorage].
Qed.

Lemma register_request_kept (rq : Request) (st : State) :
  ban_record_kept st (snd (register_request rq st)).
Proof.
  unfold register_request. destruct (truthy_key (rq_cacheKey rq)) as [k|];
    [| apply ban_record_kept_refl].
  destruct (pendingRequests st !! k) as [[|w ws]|]; left; auto.
Qed.

Section BanRecord.

Variable toLocaleString : Z -> string.
Variable encodeURIComponent : string -> string.
Variable hmacSha256Hex : string -> string -> string.
Variable fetchOracle : nat -> FetchOutcome.
Variable lateness : nat -> nat.

Local Abbreviation request :=
  (makeAuthenticatedRequest toLocaleString encodeURIComponent hmacSha256Hex
     fetchOracle lateness).

Lemma wait_callback_kept (startTime nextSlotTime : Z) (st : State) :
  ban_record_kept st (snd (wait_callback toLocaleString startTime nextSlotTime st)).
Proof.
  unfold wait_callback.
  destruct (maxWaitTime <? clock st - startTime).
  - destruct (_ <? Z.of_nat (length (requestTimestamps st))); left; auto.
  - pose proof (checkIfBanned_kept st) as H1.
    destruct (checkIfBanned st) as [banned st1]. simpl in H1.
    destruct banned; [exact H1 |].
    pose proof (canMakeRequest_kept st1) as H2.
    destruct (canMakeRequest st1) as [ok st2]. simpl in H2.
    pose proof (ban_record_kept_trans _ _ _ H1 H2) as H.
    destruct ok; simpl; [| exact H].
    eapply ban_record_kept_trans; [exact H | left; auto].
Qed.

Lemma wait_loop_kept (fuel : nat) (startTime nextSlotTime delay : Z) (st : State) :
  ban_record_kept st
    (snd (wait_loop toLocaleString lateness fuel startTime nextSlotTime delay st)).
Proof.
  revert delay st. induction fuel as [|fuel IH]; intros delay st;
    [apply ban_record_kept_refl |].
  cbn [wait_loop].
  assert (Hs : ban_record_kept st (sleep lateness delay st)) by (left; auto).
  pose proof (wait_callback_kept startTime nextSlotTime (sleep lateness delay st)) as Hcb.
  destruct (wait_callback toLocaleString startTime nextSlotTime (sleep lateness delay st))
    as [[e | | d] st1]; cbn [fst snd] in Hcb |- *.
  - eapply ban_record_kept_trans; [exact Hs | exact Hcb].
  - eapply ban_record_kept_trans; [exact Hs | exact Hcb].
  - eapply ban_record_kept_trans; [exact Hs |].
    eapply ban_record_kept_trans; [exact Hcb | apply IH].
Qed.

Lemma waitForRateLimit_begin_kept (st : State) :
  ban_record_kept st (snd (waitForRateLimit_begin toLocaleString st)).
Proof.
  unfold waitForRateLimit_begin.
  pose proof (checkIfBanned_kept st) as H1.
  destruct (checkIfBanned st) as [banned st1]. simpl in H1.
  destruct banned; [exact H1 |].
  pose proof (canMakeRequest_kept st1) as H2.
  destruct (canMakeRequest st1) as [ok st2]. simpl in H2.
  pose proof (ban_record_kept_trans _ _ _ H1 H2) as H.
  destruct ok; simpl; [| exact H].
  eapply ban_record_kept_trans; [exact H | left; auto].
Qed.

Lemma mar_settle_kept (rq : Request) (o : FetchOutcome) (st : State) :
  ban_record_kept st (snd (mar_settle rq o st)).
Proof.
  destruct o as [body | status statusText errorText parsed | e]; simpl.
  - apply settle_pending_kept.
  - eapply ban_record_kept_trans; [apply ban_from_response_kept |].
    eapply ban_record_kept_trans; [apply detectBanFromError_kept | apply settle_pending_kept].
  - eapply ban_record_kept_trans; [apply detectBanFromError_kept | apply settle_pending_kept].
Qed.

Lemma mar_perform_kept (rq : Request) (creds : option ApiKeys) (st : State) :
  ban_record_kept st
    (snd (mar_perform encodeURIComponent hmacSha256Hex fetchOracle lateness rq creds st)).
Proof.
  unfold mar_perform.
  eapply ban_record_kept_trans; [| apply mar_settle_kept].
  left. auto.
Qed.

Lemma request_kept (rq : Request) (st : State) :
  ban_record_kept st (snd (request rq st)).
Proof.
  unfold makeAuthenticatedRequest, mar_enter.
  destruct (rq_requiresSignature rq && negb (bool_decide (is_Some (credentials st))));
    [apply ban_record_kept_refl |].
  assert (Hban : exists banned st1,
             (if rq_allowDuringBan rq then (false, st) else checkIfBanned st) = (banned, st1)
             /\ ban_record_kept st st1).
  { destruct (rq_allowDuringBan rq).
    - exists false, st. split; [reflexivity | apply ban_record_kept_refl].
    - pose proof (checkIfBanned_kept st) as H.
      destruct (checkIfBanned st) as [b s1]. exists b, s1. split; [reflexivity | exact H]. }
  destruct Hban as (banned & st1 & -> & H1).
  destruct banned; [exact H1 |].
  pose proof (register_request_kept rq st1) as H2.
  destruct (register_request rq st1) as [[p|] st2]; simpl in H2;
    [simpl; eapply ban_record_kept_trans; eassumption |].
  pose proof (ban_record_kept_trans _ _ _ H1 H2) as H12.
  pose proof (waitForRateLimit_begin_kept st2) as H3.
  destruct (waitForRateLimit_begin toLocaleString st2) as [[e | | s n d] st3]; simpl in H3.
  - simpl. eapply ban_record_kept_trans; [exact H12 |].
    eapply ban_record_kept_trans; [exact H3 | apply settle_pending_kept].
  - eapply ban_record_kept_trans; [exact H12 |].
    eapply ban_record_kept_trans; [exact H3 | apply mar_perform_kept].
  - pose proof (wait_loop_kept wait_fuel s n d st3) as H4.
    destruct (wait_loop toLocaleString lateness wait_fuel s n d st3) as [[| e |] st4];
      cbn [fst snd] in H4 |- *.
    + eapply ban_record_kept_trans; [exact H12 |].
      eapply ban_record_kept_trans; [exact H3 |].
      eapply ban_record_kept_trans; [exact H4 | apply mar_perform_kept].
    + eapply ban_record_kept_trans; [exact H12 |].
      eapply ban_record_kept_trans; [exact H3 |].
      eapply ban_record_kept_trans; [exact H4 | apply settle_pending_kept].
    + eapply ban_record_kept_trans; [exact H12 |].
      eapply ban_record_kept_trans; [exact H3 | exact H4].
Qed.

(** X8.  The executor keeps the copy of the ban record in [localStorage]
    in step with the record in memory: a run that changes the record
    leaves the new record stored under the key, and where the stored copy
    agreed with the record before a run it agrees after it. *)
Theorem ban_record_is_persisted (rq : Request) (st : State) :
  let st' := snd (request rq st) in
  (banInfo st' <> banInfo st -> ban_persisted st')
  /\ (ban_persisted st -> ban_persisted st').
Proof.
  cbn zeta. destruct (request_kept rq st) as [[Hb Hs] | H].
  - split; [intros Hne; contradiction |].
    unfold ban_persisted. now rewrite Hb, Hs.
  - split; intros _; exact H.
Qed.

End BanRecord.

Lemma ban_record_is_persisted_witness :
  let st' := snd (makeAuthenticatedRequest plain_date plain_encode plain_hmac
                    (fun _ => ban_response) on_time orders_request ready_state) in
  banInfo st' = mkBanInfo true 1700000000000
  /\ localStorage st' !! BAN_CHECK_STORAGE_KEY
     = Some (stringify_banInfo (mkBanInfo true 1700000000000)).
Proof.
  cbn zeta.
  set (st' := snd (makeAuthenticatedRequest plain_date plain_encode plain_hmac
                     (fun _ => ban_response) on_time orders_request ready_state)).
  assert (Hb : banInfo st' = mkBanInfo true 1700000000000) by (vm_compute; reflexivity).
  split; [exact Hb |].
  destruct (ban_record_is_persisted plain_date plain_encode plain_hmac
              (fun _ => ban_response) on_time orders_request ready_state) as [Hchanged _].
  fold st' in Hchanged. unfold ban_persisted in Hchanged. rewrite Hb in Hchanged.
  apply Hchanged. discriminate.
Defined.

(** ** The account information kept for a minute *)

Section AccountCache.

Variable toLocaleString : Z -> string.
Variable encodeURIComponent : string -> string.
Variable hmacSha256Hex : string -> string -> string.
Variable fetchOracle : nat -> FetchOutcome.
Variable lateness : nat -> nat.

Local Abbreviation account_info :=
  (getAccountInfo toLocaleString encodeURIComponent hmacSha256Hex fetchOracle lateness).

(** X9.  A call of [getAccountInfo] that finds no fresh entry, on a
    session that can send (credentials, no ban flag, a free slot, no call
    parked), and whose request is answered with a truthy JSON value,
    returns that value after one [fetch] and keeps it with the time at
    which the call was entered, not the time of the answer.  Every call
    made less than a minute after that time, with the entry still in
    place, returns the same value and changes nothing: no request is sent. *)
Theorem account_info_is_kept_for_a_minute (st : State) (data : Json) :
  cache_is_fresh (clock st) st = false ->
  is_Some (credentials st) ->
  isBanned (banInfo st) = false ->
  slot_free st ->
  no_waiters st ->
  fetchOracle (length (network st)) = RespOk (Some data) ->
  json_truthy data = true ->
  exists st1,
    account_info st = (Returned data, st1)
    /\ length (network st1) = S (length (network st))
    /\ accountInfoCache st1 = Some (mkCache data (clock st))
    /\ forall later,
         accountInfoCache later = accountInfoCache st1 ->
         clock later - clock st < 60000 ->
         account_info later = (Returned data, later).
Proof.
  intros Hstale Hcreds Hflag Hfree Hnw Hfetch Htruthy.
  set (st0 := set_pendingRequests (<["account_info" := []]> (pendingRequests st)) st).
  assert (Hnw0 : no_waiters st0) by (apply insert_empty_no_waiters; exact Hnw).
  pose proof (request_admitted toLocaleString encodeURIComponent hmacSha256Hex fetchOracle
                lateness account_request st0 (fun _ => Hcreds) Hflag Hfree Hnw0) as Hrq.
  change (network st0) with (network st) in Hrq. rewrite Hfetch in Hrq.
  destruct (register_request_cases account_request st0) as (Hn & _ & _).
  set (sent := await_fetch lateness _) in Hrq.
  assert (Hsent : length (network sent) = S (length (network st))).
  { subst sent. unfold await_fetch, mar_issue. cbn [network set_network set_clock
      set_suspensions set_requestTimestamps].
    rewrite Hn, length_app. change (network st0) with (network st). simpl. lia. }
  cbn [mar_settle default from_option id] in Hrq.
  set (st2 := settle_pending (rq_cacheKey account_request) (Resolved (VJson data)) sent)
    in Hrq.
  exists (set_accountInfoCache (Some (mkCache data (clock st))) st2).
  split; [| split; [| split]].
  - unfold getAccountInfo. rewrite Hstale, (checkIfBanned_clear st Hflag).
    unfold getAccountInfo_try. rewrite (no_waiters_has_waiters _ st Hnw).
    fold st0. rewrite Hrq, Htruthy. reflexivity.
  - cbn [network set_accountInfoCache]. subst st2. rewrite settle_pending_network.
    exact Hsent.
  - reflexivity.
  - intros later Hcache Hclock. cbn [accountInfoCache set_accountInfoCache] in Hcache.
    unfold getAccountInfo, cache_is_fresh, cached_account. rewrite Hcache.
    cbn [ce_timestamp ce_data default from_option id].
    destruct (Z.ltb_spec (clock later - clock st) 60000); [reflexivity | lia].
Qed.

End AccountCache.

Lemma account_info_is_kept_for_a_minute_witness :
  let account := JObj [("positions", JArr [])] in
  exists st1,
    getAccountInfo plain_date plain_encode plain_hmac (fun _ => RespOk (Some account)) on_time
      ready_state
    = (Returned account, st1)
    /\ length (network st1) = 1%nat
    /\ getAccountInfo plain_date plain_encode plain_hmac network_down on_time
         (set_clock (clock ready_state + 59999) st1)
       = (Returned account, set_clock (clock ready_state + 59999) st1).
Proof.
  cbn zeta.
  destruct (account_info_is_kept_for_a_minute plain_date plain_encode plain_hmac
              (fun _ => RespOk (Some (JObj [("positions", JArr [])]))) on_time
              ready_state (JObj [("positions", JArr [])]))
    as (st1 & Hrun & Hnet & Hcache & _).
  - reflexivity.
  - exists test_keys. reflexivity.
  - reflexivity.
  - exact ready_state_slot_free.
  - exact ready_state_no_waiters.
  - reflexivity.
  - reflexivity.
  - exists st1. split; [exact Hrun |]. split; [exact Hnet |].
    unfold getAccountInfo, cache_is_fresh, cached_account.
    cbn [accountInfoCache clock set_clock]. rewrite Hcache. reflexivity.
Defined.

(** ** The positions listed *)

Lemma Qabs_positive (q : Q) : Qeq_bool q 0 = false -> (0 < Qabs q)%Q.
Proof.
  intros Hne. apply Qeq_bool_neq in Hne.
  destruct (Qlt_le_dec 0 q) as [Hpos | Hneg].
  - rewrite Qabs_pos; [exact Hpos | lra].
  - rewrite Qabs_neg; [| exact Hneg]. lra.
Qed.

Section Positions.

Variable toLocaleString : Z -> string.
Variable encodeURIComponent : string -> string.
Variable hmacSha256Hex : string -> string -> string.
Variable parseFloat : Json -> JsNumber.
Variable fetchOracle : nat -> FetchOutcome.
Variable lateness : nat -> nat.

Lemma position_of_listed (p : Json) (x : Position) :
  position_of parseFloat p = inr (Some x) -> listed_position x.
Proof.
  unfold position_of. destruct p; try discriminate;
    match goal with
    | |- context [parseFloat' parseFloat ?v] => destruct (parseFloat' parseFloat v) as [|q] eqn:Hamt
    end;
    try (intros H; injection H as <-; reflexivity);
    (destruct (Qeq_bool q 0) eqn:Hzero; simpl; [discriminate |];
     intros H; injection H as <-; unfold listed_position; simpl;
     apply Qabs_positive; exact Hzero).
Qed.

Lemma positions_of_listed (items : list Json) (ps : list Position) :
  positions_of parseFloat items = inr ps -> Forall listed_position ps.
Proof.
  revert ps. induction items as [|p items IH]; intros ps; simpl.
  - intros H. injection H as <-. constructor.
  - destruct (position_of parseFloat p) as [e | o] eqn:Hp; [discriminate |].
    destruct (positions_of parseFloat items) as [e | rest]; [discriminate |].
    intros H. injection H as <-.
    destruct o as [x|]; [| apply IH; reflexivity].
    constructor; [exact (position_of_listed p x Hp) | apply IH; reflexivity].
Qed.

Lemma position_of_reflects (p : Json) (o : option Position) :
  position_of parseFloat p = inr o ->
  match o with
  | Some x => position_reflects parseFloat p x
  | None => flat_entry parseFloat p
  end.
Proof.
  unfold position_of, position_reflects, flat_entry.
  destruct p; try discriminate;
    match goal with
    | |- context [parseFloat' parseFloat (json_get "positionAmt" ?v)] =>
        destruct (parseFloat' parseFloat (json_get "positionAmt" v)) as [|q] eqn:Hamt
    end;
    try (intros H; injection H as <-; cbn; rewrite ?Hamt; repeat split; reflexivity);
    (destruct (Qeq_bool q 0) eqn:Hzero; cbn [negb];
     [intros H; injection H as <-; exists q; split;
      [reflexivity | apply Qeq_bool_eq; exact Hzero]
     |intros H; injection H as <-; cbn; rewrite ?Hamt;
      repeat (split; [reflexivity |]);
      split; [apply Qeq_bool_neq; exact Hzero |];
      split; [reflexivity |];
      split; intros Hsign; destruct (Qlt_le_dec 0 q); try reflexivity; lra]).
Qed.

Lemma positions_of_entries (items : list Json) (ps : list Position) :
  positions_of parseFloat items = inr ps -> open_entries parseFloat items ps.
Proof.
  revert ps. induction items as [|p items IH]; intros ps; simpl.
  - intros H. injection H as <-. constructor.
  - destruct (position_of parseFloat p) as [e | o] eqn:Hp; [discriminate |].
    destruct (positions_of parseFloat items) as [e | rest]; [discriminate |].
    intros H. injection H as <-.
    pose proof (position_of_reflects p o Hp) as Ho.
    destruct o as [x|].
    + apply open_entries_listed; [exact Ho | apply IH; reflexivity].
    + apply open_entries_flat; [exact Ho | apply IH; reflexivity].
Qed.

(** X10.  [getOpenPositions] never lists a flat position.  The list it
    returns is empty, or it is made of the [positions] of the account
    information it obtained: one position for each entry whose amount is
    not zero, in the order of the entries, with the absolute value of the
    amount as its size, which is positive, LONG for a positive amount and
    SHORT for a negative one; an entry whose amount cannot be read as a
    number is listed as a short position of size [NaN]. *)
Theorem open_positions_are_never_flat (st st' : State) (ps : list Position) :
  getOpenPositions toLocaleString encodeURIComponent hmacSha256Hex parseFloat
    fetchOracle lateness st
  = (Returned ps, st') ->
  Forall listed_position ps
  /\ (ps = []
      \/ exists accountInfo st2 items,
           account_info_with_retry toLocaleString encodeURIComponent hmacSha256Hex
             fetchOracle lateness
             (set_pendingRequests (<["open_positions" := []]> (pendingRequests st)) st)
           = (Returned accountInfo, st2)
           /\ json_get "positions" accountInfo = Some (JArr items)
           /\ open_entries parseFloat items ps).
Proof.
  intros Hrun. apply (f_equal fst) in Hrun. cbn [fst] in Hrun. revert Hrun.
  unfold getOpenPositions.
  destruct (has_waiters "open_positions" st).
  { destruct (push_waiter "open_positions" st). discriminate. }
  set (st1 := set_pendingRequests _ st).
  destruct (account_info_with_retry toLocaleString encodeURIComponent hmacSha256Hex
              fetchOracle lateness st1) as [[accountInfo | e | p |] st2] eqn:Hinfo;
    try discriminate.
  2: { cbn [fst getOpenPositions_catch]. intros H. injection H as <-.
       split; [constructor | left; reflexivity]. }
  assert (Hcatch : forall e s,
             fst (getOpenPositions_catch e s) = Returned ps ->
             Forall listed_position ps
             /\ (ps = []
                 \/ exists accountInfo0 st3 items,
                      (Returned accountInfo, st2) = (Returned accountInfo0, st3)
                      /\ json_get "positions" accountInfo0 = Some (JArr items)
                      /\ open_entries parseFloat items ps)).
  { intros e s H. cbn [fst getOpenPositions_catch] in H. injection H as <-.
    split; [constructor | left; reflexivity]. }
  unfold getOpenPositions_extract.
  destruct (json_truthy accountInfo && opt_truthy (json_get "positions" accountInfo));
    [| intros H; injection H as <-; split; [constructor | left; reflexivity]].
  destruct (json_get "positions" accountInfo) as [[| | | | items |]|] eqn:Hget;
    try apply Hcatch.
  destruct (positions_of parseFloat items) as [e | positions] eqn:Hps; [apply Hcatch |].
  intros H. injection H as <-.
  split; [exact (positions_of_listed items positions Hps) |].
  right. exists accountInfo, st2, items.
  split; [reflexivity |]. split; [exact Hget |].
  exact (positions_of_entries items positions Hps).
Qed.

End Positions.

Lemma open_positions_are_never_flat_witness :
  exists st' long short,
    getOpenPositions plain_date plain_encode plain_hmac plain_parseFloat
      (fun _ => RespOk (Some account_with_positions)) on_time ready_state
    = (Returned [long; short], st')
    /\ pos_symbol long = JStr "ETHUSDT" /\ pos_side long = LONG
    /\ pos_symbol short = JStr "BNBUSDT" /\ pos_side short = SHORT
    /\ Forall listed_position [long; short].
Proof.
  set (run := getOpenPositions plain_date plain_encode plain_hmac plain_parseFloat
                (fun _ => RespOk (Some account_with_positions)) on_time ready_state).
  set (long := mkPosition (JStr "ETHUSDT") LONG (Num (Qabs 2)) NaN NaN NaN NaN).
  set (short := mkPosition (JStr "BNBUSDT") SHORT (Num (Qabs (-3))) NaN NaN NaN NaN).
  assert (Hrun : run = (Returned [long; short], snd run)) by (vm_compute; reflexivity).
  exists (snd run), long, short. split; [exact Hrun |].
  repeat (split; [reflexivity |]).
  exact (proj1 (open_positions_are_never_flat plain_date plain_encode plain_hmac
                  plain_parseFloat (fun _ => RespOk (Some account_with_positions)) on_time
                  ready_state (snd run) [long; short] Hrun)).
Defined.

(** ** The registries of listeners *)

Lemma listener_kept (ls : gset nat) (L : nat) : L ∈ ls -> ls ∪ {[L]} = ls.
Proof.
  intros H. apply set_eq. intros x. set_unfold.
  split; [intros [Hx | Hx]; [exact Hx | now subst x] | auto].
Qed.

Lemma listener_added (ls : gset nat) (L : nat) : L ∈ ls ∪ {[L]}.
Proof. set_unfold. auto. Qed.

Lemma connect_settled (st : State) :
  isConnecting st || is_open st = true -> connect st = st.
Proof. intros H. unfold connect. now rewrite H. Qed.

Lemma attempted_settled (st : State) :
  isConnecting (attempted st) || is_open (attempted st) = true.
Proof.
  unfold attempted. destruct (is_open st) eqn:H; [rewrite H; apply orb_true_r |].
  unfold connect. destruct (isConnecting st || is_open st) eqn:G; [exact G | reflexivity].
Qed.

Lemma attempted_again (st : State) :
  isConnecting st || is_open st = true -> attempted st = st.
Proof.
  intros H. unfold attempted.
  destruct (is_open st) eqn:Ho; [reflexivity | apply connect_settled; rewrite Ho; exact H].
Qed.

Lemma attempted_registries (st : State) :
  subscribers (attempted st) = subscribers st
  /\ klineSubscribers (attempted st) = klineSubscribers st
  /\ depthSubscribers (attempted st) = depthSubscribers st.
Proof.
  unfold attempted, connect. destruct (is_open st); [auto |].
  destruct (isConnecting st || false); auto.
Qed.

(** What a call of [subscribe] leaves in the registries, and in what state
    of the connection. *)
Lemma subscribe_registry (K : string) (L : nat) (st : State) :
  let st' := subscribe K L st in
  subscribers st' = <[K := default ∅ (subscribers st !! K) ∪ {[L]}]> (subscribers st)
  /\ klineSubscribers st' = klineSubscribers st
  /\ depthSubscribers st' = depthSubscribers st
  /\ isConnecting st' || is_open st' = true.
Proof.
  cbn zeta. unfold subscribe. fold (attempted st).
  destruct (attempted_registries st) as (Hs & Hk & Hd).
  pose proof (attempted_settled st) as Hc.
  generalize dependent (attempted st). intros st1 Hs Hk Hd Hc.
  rewrite <- Hs, <- Hk, <- Hd.
  destruct (subscribers st1 !! K) as [ls|] eqn:HK.
  - rewrite HK. simpl. auto.
  - unfold sendSubscription, send_frame.
    destruct (is_open (set_subscribers _ st1)); simpl; rewrite lookup_insert_eq; simpl;
      rewrite insert_insert_eq; auto.
Qed.

Lemma subscribeKlines_registry (symbol interval : string) (L : nat) (st : State) :
  let K := kline_key symbol interval in
  let st' := subscribeKlines symbol interval L st in
  klineSubscribers st'
  = <[K := default ∅ (klineSubscribers st !! K) ∪ {[L]}]> (klineSubscribers st)
  /\ subscribers st' = subscribers st
  /\ depthSubscribers st' = depthSubscribers st
  /\ isConnecting st' || is_open st' = true.
Proof.
  cbn zeta. unfold subscribeKlines. fold (attempted st).
  generalize (kline_key symbol interval) (kline_stream symbol interval). intros K stream.
  destruct (attempted_registries st) as (Hs & Hk & Hd).
  pose proof (attempted_settled st) as Hc.
  generalize dependent (attempted st). intros st1 Hs Hk Hd Hc.
  rewrite <- Hs, <- Hk, <- Hd.
  destruct (klineSubscribers st1 !! K) as [ls|] eqn:HK.
  - rewrite HK. simpl. auto.
  - unfold sendSubscription, send_frame.
    destruct (is_open (set_klineSubscribers _ st1)); simpl; rewrite lookup_insert_eq; simpl;
      rewrite insert_insert_eq; auto.
Qed.

Lemma subscribeDepth_registry (K : string) (L : nat) (st : State) :
  let st' := subscribeDepth K L st in
  depthSubscribers st' = <[K := default ∅ (depthSubscribers st !! K) ∪ {[L]}]> (depthSubscribers st)
  /\ subscribers st' = subscribers st
  /\ klineSubscribers st' = klineSubscribers st
  /\ isConnecting st' || is_open st' = true.
Proof.
  cbn zeta. unfold subscribeDepth. fold (attempted st).
  generalize (depth_stream K). intros stream.
  destruct (attempted_registries st) as (Hs & Hk & Hd).
  pose proof (attempted_settled st) as Hc.
  generalize dependent (attempted st). intros st1 Hs Hk Hd Hc.
  rewrite <- Hs, <- Hk, <- Hd.
  destruct (depthSubscribers st1 !! K) as [ls|] eqn:HK.
  - rewrite HK. simpl. auto.
  - unfold sendSubscription, send_frame.
    destruct (is_open (set_depthSubscribers _ st1)); simpl; rewrite lookup_insert_eq; simpl;
      rewrite insert_insert_eq; auto.
Qed.

(** A listener that is registered already, on a session whose connection
    is open or being opened: the call changes nothing. *)
Lemma subscribe_known (K : string) (L : nat) (st : State) (ls : gset nat) :
  subscribers st !! K = Some ls -> L ∈ ls ->
  isConnecting st || is_open st = true ->
  subscribe K L st = st.
Proof.
  intros HK HL Hs. unfold subscribe. fold (attempted st).
  rewrite (attempted_again st Hs), HK, HK, (listener_kept ls L HL), (insert_id _ _ _ HK).
  destruct st. reflexivity.
Qed.

Lemma subscribeKlines_known (symbol interval : string) (L : nat) (st : State)
    (ls : gset nat) :
  klineSubscribers st !! kline_key symbol interval = Some ls -> L ∈ ls ->
  isConnecting st || is_open st = true ->
  subscribeKlines symbol interval L st = st.
Proof.
  intros HK HL Hs. unfold subscribeKlines. fold (attempted st).
  cbn zeta.
  rewrite (attempted_again st Hs), HK, HK, (listener_kept ls L HL), (insert_id _ _ _ HK).
  destruct st. reflexivity.
Qed.

Lemma subscribeDepth_known (K : string) (L : nat) (st : State) (ls : gset nat) :
  depthSubscribers st !! K = Some ls -> L ∈ ls ->
  isConnecting st || is_open st = true ->
  subscribeDepth K L st = st.
Proof.
  intros HK HL Hs. unfold subscribeDepth. fold (attempted st).
  rewrite (attempted_again st Hs), HK, HK, (listener_kept ls L HL), (insert_id _ _ _ HK).
  destruct st. reflexivity.
Qed.

(** X11.  Registering the same listener again changes nothing: a second
    call of [subscribe], [subscribeKlines] or [subscribeDepth] with the
    arguments of the first leaves the session exactly as the first left
    it, with one entry for the listener, no second frame and no second
    connection attempt. *)
Theorem registering_twice_is_registering_once (symbol interval : string) (L : nat)
    (st : State) :
  subscribe symbol L (subscribe symbol L st) = subscribe symbol L st
  /\ subscribeKlines symbol interval L (subscribeKlines symbol interval L st)
     = subscribeKlines symbol interval L st
  /\ subscribeDepth symbol L (subscribeDepth symbol L st) = subscribeDepth symbol L st.
Proof.
  split; [| split].
  - destruct (subscribe_registry symbol L st) as (Hs & _ & _ & Hc).
    eapply subscribe_known; [rewrite Hs; apply lookup_insert_eq | apply listener_added | exact Hc].
  - destruct (subscribeKlines_registry symbol interval L st) as (Hs & _ & _ & Hc).
    eapply subscribeKlines_known;
      [rewrite Hs; apply lookup_insert_eq | apply listener_added | exact Hc].
  - destruct (subscribeDepth_registry symbol L st) as (Hs & _ & _ & Hc).
    eapply subscribeDepth_known;
      [rewrite Hs; apply lookup_insert_eq | apply listener_added | exact Hc].
Qed.

Lemma unsubscribe_registry (K : string) (L : nat) (st : State) :
  let st' := unsubscribe K L st in
  subscribers st'
  = match subscribers st !! K with
    | Some ls =>
        if bool_decide (ls ∖ {[L]} = ∅) then delete K (subscribers st)
        else <[K := ls ∖ {[L]}]> (subscribers st)
    | None => subscribers st
    end
  /\ klineSubscribers st' = klineSubscribers st
  /\ depthSubscribers st' = depthSubscribers st.
Proof.
  cbn zeta. unfold unsubscribe, sendUnsubscription, send_frame.
  destruct (subscribers st !! K) as [ls|]; [| auto].
  destruct (bool_decide (ls ∖ {[L]} = ∅)); [| simpl; auto].
  destruct (is_open (set_subscribers _ st)); simpl; auto.
Qed.

Lemma unsubscribeKlines_registry (symbol interval : string) (L : nat) (st : State) :
  let K := kline_key symbol interval in
  let st' := unsubscribeKlines symbol interval L st in
  klineSubscribers st'
  = match klineSubscribers st !! K with
    | Some ls =>
        if bool_decide (ls ∖ {[L]} = ∅) then delete K (klineSubscribers st)
        else <[K := ls ∖ {[L]}]> (klineSubscribers st)
    | None => klineSubscribers st
    end
  /\ subscribers st' = subscribers st
  /\ depthSubscribers st' = depthSubscribers st.
Proof.
  cbn zeta. unfold unsubscribeKlines, sendUnsubscription, send_frame.
  generalize (kline_key symbol interval) (kline_stream symbol interval). intros K stream.
  destruct (klineSubscribers st !! K) as [ls|]; [| auto].
  destruct (bool_decide (ls ∖ {[L]} = ∅)); [| simpl; auto].
  destruct (is_open (set_klineSubscribers _ st)); simpl; auto.
Qed.

Lemma unsubscribeDepth_registry (K : string) (L : nat) (st : State) :
  let st' := unsubscribeDepth K L st in
  depthSubscribers st'
  = match depthSubscribers st !! K with
    | Some ls =>
        if bool_decide (ls ∖ {[L]} = ∅) then delete K (depthSubscribers st)
        else <[K := ls ∖ {[L]}]> (depthSubscribers st)
    | None => depthSubscribers st
    end
  /\ subscribers st' = subscribers st
  /\ klineSubscribers st' = klineSubscribers st.
Proof.
  cbn zeta. unfold unsubscribeDepth, sendUnsubscription, send_frame.
  generalize (depth_stream K). intros stream.
  destruct (depthSubscribers st !! K) as [ls|]; [| auto].
  destruct (bool_decide (ls ∖ {[L]} = ∅)); [| simpl; auto].
  destruct (is_open (set_depthSubscribers _ st)); simpl; auto.
Qed.

Lemma no_empty_entry_added (registry : gmap string (gset nat)) (K : string) (L : nat)
    (ls : gset nat) :
  no_empty_entry registry -> no_empty_entry (<[K := ls ∪ {[L]}]> registry).
Proof.
  intros H k ls' Hk. apply lookup_insert_Some in Hk as [[_ <-] | [_ Hk]].
  - intros Hempty. pose proof (listener_added ls L) as Hin.
    rewrite Hempty in Hin. set_solver.
  - exact (H k ls' Hk).
Qed.

Lemma no_empty_entry_removed (registry : gmap string (gset nat)) (K : string) (L : nat) :
  no_empty_entry registry ->
  no_empty_entry
    match registry !! K with
    | Some ls =>
        if bool_decide (ls ∖ {[L]} = ∅) then delete K registry
        else <[K := ls ∖ {[L]}]> registry
    | None => registry
    end.
Proof.
  intros H. destruct (registry !! K) as [ls|]; [| exact H].
  destruct (bool_decide_reflect (ls ∖ {[L]} = ∅)) as [Hempty | Hleft].
  - intros k ls' Hk. apply lookup_delete_Some in Hk as [_ Hk]. exact (H k ls' Hk).
  - intros k ls' Hk. apply lookup_insert_Some in Hk as [[_ <-] | [_ Hk]];
      [exact Hleft | exact (H k ls' Hk)].
Qed.

Lemma account_calls_registries (L : nat) (st : State) :
  (subscribers (subscribeAccount L st) = subscribers st
   /\ klineSubscribers (subscribeAccount L st) = klineSubscribers st
   /\ depthSubscribers (subscribeAccount L st) = depthSubscribers st)
  /\ (subscribers (unsubscribeAccount L st) = subscribers st
      /\ klineSubscribers (unsubscribeAccount L st) = klineSubscribers st
      /\ depthSubscribers (unsubscribeAccount L st) = depthSubscribers st).
Proof.
  split.
  - unfold subscribeAccount, sendSubscription, send_frame, connect, held_listenKey.
    destruct (is_open (set_accountSubscribers _ st)).
    + destruct (truthy_key _); simpl; auto.
    + destruct (isConnecting _ || false); simpl; auto.
  - unfold unsubscribeAccount, sendUnsubscription, send_frame, held_listenKey.
    destruct (bool_decide _ && is_open _); [| simpl; auto].
    destruct (truthy_key _); [| simpl; auto].
    destruct (is_open (set_accountSubscribers _ st)); simpl; auto.
Qed.

Lemma connection_calls_registries (st : State) :
  (subscribers (connect st) = subscribers st
   /\ klineSubscribers (connect st) = klineSubscribers st
   /\ depthSubscribers (connect st) = depthSubscribers st)
  /\ (subscribers (disconnect st) = subscribers st
      /\ klineSubscribers (disconnect st) = klineSubscribers st
      /\ depthSubscribers (disconnect st) = depthSubscribers st).
Proof.
  split.
  - unfold connect. destruct (isConnecting st || is_open st); auto.
  - unfold disconnect.
    set (st1 := match ws st with Some _ => set_ws None st | None => st end).
    assert (H1 : subscribers st1 = subscribers st
                 /\ klineSubscribers st1 = klineSubscribers st
                 /\ depthSubscribers st1 = depthSubscribers st)
      by (subst st1; destruct (ws st); auto).
    assert (H2 : subscribers (stopPingInterval st1) = subscribers st1
                 /\ klineSubscribers (stopPingInterval st1) = klineSubscribers st1
                 /\ depthSubscribers (stopPingInterval st1) = depthSubscribers st1)
      by (unfold stopPingInterval; destruct (pingInterval st1); auto).
    destruct H1 as (<- & <- & <-). destruct H2 as (<- & <- & <-).
    destruct (listenKeyInterval (stopPingInterval st1)); auto.
Qed.

Lemma run_call_listeners_nonempty (c : StreamCall) (st : State) :
  listeners_nonempty st -> listeners_nonempty (run_call c st).
Proof.
  intros (Hs & Hk & Hd). unfold listeners_nonempty.
  destruct c as [K L | K I L | K L | L | K L | K I L | K L | L | |]; cbn [run_call].
  - destruct (subscribe_registry K L st) as (-> & -> & -> & _).
    split; [apply no_empty_entry_added; exact Hs | auto].
  - destruct (subscribeKlines_registry K I L st) as (-> & -> & -> & _).
    split; [exact Hs |]. split; [apply no_empty_entry_added; exact Hk | exact Hd].
  - destruct (subscribeDepth_registry K L st) as (-> & -> & -> & _).
    split; [exact Hs |]. split; [exact Hk | apply no_empty_entry_added; exact Hd].
  - destruct (account_calls_registries L st) as [(-> & -> & ->) _]. auto.
  - destruct (unsubscribe_registry K L st) as (-> & -> & ->).
    split; [apply no_empty_entry_removed; exact Hs | auto].
  - destruct (unsubscribeKlines_registry K I L st) as (-> & -> & ->).
    split; [exact Hs |]. split; [apply no_empty_entry_removed; exact Hk | exact Hd].
  - destruct (unsubscribeDepth_registry K L st) as (-> & -> & ->).
    split; [exact Hs |]. split; [exact Hk | apply no_empty_entry_removed; exact Hd].
  - destruct (account_calls_registries L st) as [_ (-> & -> & ->)]. auto.
  - destruct (connection_calls_registries st) as [(-> & -> & ->) _]. auto.
  - destruct (connection_calls_registries st) as [_ (-> & -> & ->)]. auto.
Qed.

(** X12.  However the calls of the stream session follow one another
    (the four [subscribe]s, the four [unsubscribe]s, [connect],
    [disconnect]), no key of the ticker, kline and depth registries is ever
    left with an empty set of listeners: a key is there exactly while
    somebody listens, which is what [handleMessage] and [resubscribeAll]
    take a key to mean. *)
Theorem registries_hold_no_empty_entry (calls : list StreamCall) (st : State) :
  listeners_nonempty st -> listeners_nonempty (run_calls calls st).
Proof.
  revert st. induction calls as [|c calls IH]; intros st H; [exact H |].
  apply IH, run_call_listeners_nonempty, H.
Qed.

Lemma initial_state_listeners_nonempty : listeners_nonempty initial_state.
Proof.
  repeat split; intros k ls H; simpl in H; rewrite lookup_empty in H; discriminate H.
Qed.

Lemma registries_hold_no_empty_entry_witness :
  let st := run_calls [CallSubscribe "BTCUSDT" 1; CallSubscribeKlines "BTCUSDT" "1m" 2;
                       CallSubscribe "BTCUSDT" 3; CallUnsubscribe "BTCUSDT" 1;
                       CallUnsubscribeKlines "BTCUSDT" "1m" 2]
              initial_state in
  subscribers st !! "BTCUSDT" = Some {[3%nat]}
  /\ klineSubscribers st !! "BTCUSDT_1m" = None
  /\ listeners_nonempty st.
Proof.
  cbn zeta. split; [vm_compute; reflexivity |]. split; [vm_compute; reflexivity |].
  apply registries_hold_no_empty_entry. exact initial_state_listeners_nonempty.
Defined.

(** ** Incoming ticker events *)

Section Incoming.

Variable numberToString : JsNumber -> string.
Variable parseFloat : Json -> JsNumber.

Local Abbreviation handle := (handleMessage numberToString parseFloat).

Lemma ticker_event_dispatch (K : string) (data : Json) (st : State) :
  K <> EmptyString ->
  ticker_event K data ->
  handle data st
  = match subscribers st !! K with
    | Some ls =>
        inr (Delivered
               (PTicker (mkMarketData K
                           (parseFloat' parseFloat (json_get "c" data))
                           (parseFloat' parseFloat (json_get "p" data))
                           (parseFloat' parseFloat (json_get "P" data))
                           (parseFloat' parseFloat (json_get "v" data))
                           (parseFloat' parseFloat (json_get "h" data))
                           (parseFloat' parseFloat (json_get "l" data))
                           (clock st)))
               ls)
    | None => inr Dropped
    end.
Proof.
  intros HK (Hpong & He & Hs).
  assert (Hdata : exists fields, data = JObj fields)
    by (destruct data; try discriminate He; eauto).
  destruct Hdata as [fields ->].
  unfold handleMessage. rewrite Hpong, He, Hs.
  change (is_literal "24hrTicker" (Some (JStr "24hrTicker"))) with true. cbv iota.
  unfold listeners_of. destruct K as [|c K']; [contradiction |].
  destruct (subscribers st !! String c K'); reflexivity.
Qed.

(** X13.  A listener receives the ticker events of a symbol from its
    [subscribe] to its [unsubscribe].  After [subscribe(K, L)] a ticker
    event whose symbol is exactly [K] is delivered to [L], together with
    the listeners [K] had before and to no one else; after
    [unsubscribe(K, L)] no ticker event for [K] is delivered to [L]. *)
Theorem ticker_reaches_listener_until_unsubscribed (K : string) (L : nat) (st : State)
    (data : Json) :
  K <> EmptyString ->
  ticker_event K data ->
  (exists m,
     handle data (subscribe K L st)
     = inr (Delivered (PTicker m) (default ∅ (subscribers st !! K) ∪ {[L]}))
     /\ md_symbol m = K)
  /\ match handle data (unsubscribe K L st) with
     | inr (Delivered _ ls) => L ∉ ls
     | _ => True
     end.
Proof.
  intros HK Hevent. split.
  - rewrite (ticker_event_dispatch K data _ HK Hevent).
    destruct (subscribe_registry K L st) as (-> & _).
    rewrite lookup_insert_eq. eexists. split; reflexivity.
  - rewrite (ticker_event_dispatch K data _ HK Hevent).
    destruct (unsubscribe_registry K L st) as (-> & _).
    destruct (subscribers st !! K) as [ls|] eqn:Hls; [| rewrite Hls; exact I].
    destruct (bool_decide (ls ∖ {[L]} = ∅)).
    + rewrite lookup_delete_eq. exact I.
    + rewrite lookup_insert_eq, elem_of_difference, elem_of_singleton. tauto.
Qed.

End Incoming.

Lemma ticker_reaches_listener_until_unsubscribed_witness :
  let st := subscribe "BTCUSDT" 1 open_state in
  (exists m,
     handleMessage plain_number plain_parseFloat ticker_message (subscribe "BTCUSDT" 2 st)
     = inr (Delivered (PTicker m) ({[1%nat]} ∪ {[2%nat]}))
     /\ md_symbol m = "BTCUSDT")
  /\ handleMessage plain_number plain_parseFloat ticker_message
       (unsubscribe "BTCUSDT" 1 st)
     = inr Dropped.
Proof.
  cbn zeta.
  assert (Hevent : ticker_event "BTCUSDT" ticker_message) by (repeat split; reflexivity).
  destruct (ticker_reaches_listener_until_unsubscribed plain_number plain_parseFloat
              "BTCUSDT" 2 (subscribe "BTCUSDT" 1 open_state) ticker_message
              ltac:(discriminate) Hevent) as [(m & Hrun & Hm) _].
  split; [| vm_compute; reflexivity].
  exists m. split; [| exact Hm]. rewrite Hrun. vm_compute. reflexivity.
Defined.

(** ** Kline streams after a reconnection *)

Lemma split_on_underscore_free (s : string) :
  underscore_free s = true -> split_on "_" s = [s].
Proof.
  induction s as [|c s IH]; [reflexivity |]. simpl.
  intros H. apply andb_true_iff in H as [Hc Hs].
  apply negb_true_iff in Hc. rewrite Hc, (IH Hs). reflexivity.
Qed.

Lemma split_on_kline_key (symbol interval : string) :
  underscore_free symbol = true ->
  split_on "_" (kline_key symbol interval) = symbol :: split_on "_" interval.
Proof.
  unfold kline_key. change ("_" +:+ interval) with (String "_" interval).
  induction symbol as [|c s IH].
  - intros _. cbn [String.append split_on]. rewrite Ascii.eqb_refl. reflexivity.
  - cbn [underscore_free]. intros H. apply andb_true_iff in H as [Hc Hs].
    apply negb_true_iff in Hc.
    cbn [String.append split_on]. rewrite Hc, (IH Hs). reflexivity.
Qed.

(** X14.  When the socket is opened again, [resubscribeAll] takes the
    symbol and the interval of a kline subscription back out of its key by
    splitting the key at its underscores.  Where neither the symbol nor
    the interval contains an underscore this gives the very stream
    [subscribeKlines] subscribed to. *)
Theorem kline_stream_is_restored (numberToString : JsNumber -> string)
    (symbol interval : string) (st : State) :
  underscore_free symbol = true ->
  underscore_free interval = true ->
  resubscribe_kline numberToString (kline_key symbol interval) st
  = sendSubscription [kline_stream symbol interval] st.
Proof.
  intros Hs Hi. unfold resubscribe_kline.
  rewrite (split_on_kline_key symbol interval Hs), (split_on_underscore_free interval Hi).
  reflexivity.
Qed.

Lemma kline_stream_is_restored_witness :
  wire (resubscribe_kline plain_number (kline_key "BTCUSDT" "1m") open_state)
  = [mkWire SUBSCRIBE ["btcusdt@kline_1m"] (Some 1000000)].
Proof.
  rewrite (kline_stream_is_restored plain_number "BTCUSDT" "1m" open_state);
    reflexivity.
Defined.

(** ** The order history and its cache *)

Section OrderHistory.

Variable toLocaleString : Z -> string.
Variable encodeURIComponent : string -> string.
Variable hmacSha256Hex : string -> string -> string.
Variable numberToString : JsNumber -> string.
Variable parseFloat : Json -> JsNumber.
Variable fetchOracle : nat -> FetchOutcome.
Variable lateness : nat -> nat.
Variable isValidTime : Json -> bool.

Local Abbreviation request :=
  (makeAuthenticatedRequest toLocaleString encodeURIComponent hmacSha256Hex
     fetchOracle lateness).
Local Abbreviation order_history :=
  (getOrderHistory toLocaleString encodeURIComponent hmacSha256Hex numberToString
     parseFloat fetchOracle lateness isValidTime).
Local Abbreviation to_trades := (trades_of_orders numberToString parseFloat isValidTime).

(** X15.  A call of [getOrderHistory] that finds no fresh entry for the
    symbol, on a session that can send, and whose request is answered with
    a list of well-formed orders, returns their trades after one [fetch]
    and keeps them under the key of the symbol with the time at which the
    call was entered.  Every call for the symbol made less than a minute
    after that time, with the entry still in place, returns the same
    trades and changes nothing: no request is sent. *)
Theorem order_history_is_kept_for_a_minute (symbol : option string) (s : Session)
    (orders : Json) (trades : list HistoryTrade) :
  let key := history_key symbol in
  let st := ss_state s in
  history_is_fresh (clock st) (orderHistoryCache s !! key) = false ->
  is_Some (credentials st) ->
  isBanned (banInfo st) = false ->
  slot_free st ->
  no_waiters st ->
  fetchOracle (length (network st)) = RespOk (Some orders) ->
  to_trades orders = inr trades ->
  exists s1,
    order_history symbol s = (Returned trades, s1)
    /\ length (network (ss_state s1)) = S (length (network st))
    /\ orderHistoryCache s1 !! key = Some (mkCache trades (clock st))
    /\ forall later,
         orderHistoryCache later !! key = orderHistoryCache s1 !! key ->
         clock (ss_state later) - clock st < 60000 ->
         order_history symbol later = (Returned trades, later).
Proof.
  cbn zeta. intros Hstale Hcreds Hflag Hfree Hnw Hfetch Htrades.
  pose proof (request_admitted toLocaleString encodeURIComponent hmacSha256Hex fetchOracle
                lateness (history_request symbol) (ss_state s) (fun _ => Hcreds)
                Hflag Hfree Hnw) as Hrq.
  rewrite Hfetch in Hrq.
  destruct (register_request_cases (history_request symbol) (ss_state s)) as (Hn & _ & _).
  set (sent := await_fetch lateness _) in Hrq.
  assert (Hsent : length (network sent) = S (length (network (ss_state s)))).
  { subst sent. unfold await_fetch, mar_issue. cbn [network set_network set_clock
      set_suspensions set_requestTimestamps].
    rewrite Hn, length_app. simpl. lia. }
  cbn [mar_settle default from_option id] in Hrq.
  set (st2 := settle_pending (rq_cacheKey (history_request symbol))
                (Resolved (VJson orders)) sent) in Hrq.
  exists (mkSession st2
            (<[history_key symbol := mkCache trades (clock (ss_state s))]>
               (orderHistoryCache s))).
  split; [| split; [| split]].
  - unfold getOrderHistory. rewrite Hstale, (checkIfBanned_clear _ Hflag), Hrq, Htrades.
    reflexivity.
  - cbn [ss_state]. subst st2. rewrite settle_pending_network. exact Hsent.
  - cbn [orderHistoryCache]. apply lookup_insert_eq.
  - intros later Hcache Hclock. cbn [orderHistoryCache] in Hcache.
    rewrite lookup_insert_eq in Hcache.
    unfold getOrderHistory, history_is_fresh. rewrite Hcache.
    cbn [ce_timestamp ce_data default from_option id fmap option_fmap option_map].
    destruct (Z.ltb_spec (clock (ss_state later) - clock (ss_state s)) 60000);
      [reflexivity | lia].
Qed.


(** X17.  While a ban is in force [getOrderHistory] sends nothing and does
    not fail: it returns the trades cached for the symbol, however old, and
    the empty list when there are none. *)
Theorem order_history_during_a_ban (symbol : option string) (s : Session) :
  ban_in_force (ss_state s) ->
  exists s',
    order_history symbol s
    = (Returned (default [] (ce_data <$> orderHistoryCache s !! history_key symbol)), s')
    /\ network (ss_state s') = network (ss_state s)
    /\ orderHistoryCache s' = orderHistoryCache s.
Proof.
  intros Hban. unfold getOrderHistory.
  destruct (history_is_fresh _ _); [eauto |].
  destruct (checkIfBanned_in_force _ Hban) as (Hyes & _ & _).
  pose proof (checkIfBanned_quiet (ss_state s)) as Hq.
  destruct (checkIfBanned (ss_state s)) as [banned st1]. simpl in Hyes, Hq. subst banned.
  eexists. split; [reflexivity |]. split; [apply Hq | reflexivity].
Qed.

End OrderHistory.

Lemma order_history_is_kept_for_a_minute_witness :
  exists s1 trade,
    getOrderHistory plain_date plain_encode plain_hmac plain_number plain_parseFloat
      (fun _ => RespOk (Some order_list)) on_time any_time_valid (Some "BTC/USDT") new_session
    = (Returned [trade], s1)
    /\ ht_id trade = "42"
    /\ length (network (ss_state s1)) = 1%nat
    /\ orderHistoryCache s1 !! "orderHistory_BTC/USDT" = Some (mkCache [trade] 1000000).
Proof.
  set (trade := mkHistoryTrade "42" (Some (JStr "BTCUSDT")) (Some (JStr "BUY"))
                  (Some (JStr "MARKET")) (Num 1) (Num 0) (Num 50000)
                  (JNum (Num 1700000000000)) (Some (JStr "FILLED"))).
  destruct (order_history_is_kept_for_a_minute plain_date plain_encode plain_hmac
              plain_number plain_parseFloat (fun _ => RespOk (Some order_list)) on_time
              any_time_valid (Some "BTC/USDT") new_session order_list [trade])
    as (s1 & Hrun & Hnet & Hcache & _).
  - reflexivity.
  - exists test_keys. reflexivity.
  - reflexivity.
  - exact ready_state_slot_free.
  - exact ready_state_no_waiters.
  - reflexivity.
  - vm_compute. reflexivity.
  - exists s1, trade. split; [exact Hrun |]. split; [reflexivity |].
    split; [exact Hnet | exact Hcache].
Defined.


Lemma order_history_during_a_ban_witness :
  exists s',
    getOrderHistory plain_date plain_encode plain_hmac plain_number plain_parseFloat
      no_orders on_time any_time_valid (Some "BTC/USDT") (mkSession banned_state ∅)
    = (Returned [], s')
    /\ network (ss_state s') = [].
Proof.
  destruct (order_history_during_a_ban plain_date plain_encode plain_hmac plain_number
              plain_parseFloat no_orders on_time any_time_valid (Some "BTC/USDT")
              (mkSession banned_state ∅) banned_state_in_force)
    as (s' & Hrun & Hnet & _).
  exists s'. split; [exact Hrun | exact Hnet].
Defined.

(** ** The retry around [getOpenPositions] *)

Section Retry.

Variable toLocaleString : Z -> string.
Variable encodeURIComponent : string -> string.
Variable hmacSha256Hex : string -> string -> string.
Variable parseFloat : Json -> JsNumber.
Variable fetchOracle : nat -> FetchOutcome.
Variable lateness : nat -> nat.

Local Abbreviation open_positions :=
  (getOpenPositions toLocaleString encodeURIComponent hmacSha256Hex parseFloat
     fetchOracle lateness).

Lemma getOpenPositions_returns (st : State) :
  no_waiters st -> exists ps, fst (open_positions st) = Returned ps.
Proof.
  intros Hnw. unfold getOpenPositions.
  rewrite (no_waiters_has_waiters _ st Hnw).
  set (st1 := set_pendingRequests _ st).
  assert (Hnw1 : no_waiters st1) by (apply insert_empty_no_waiters; exact Hnw).
  destruct (account_info_retry_settles toLocaleString encodeURIComponent hmacSha256Hex
              fetchOracle lateness st1 Hnw1) as [Hnw2 Hcase].
  destruct (account_info_with_retry _ _ _ _ _ st1) as [o st2]. simpl in Hnw2, Hcase.
  destruct Hcase as [[data ->] | [e ->]].
  - destruct (getOpenPositions_extract_returns parseFloat data st2 Hnw2) as (ps & Hret & _).
    eauto.
  - destruct (getOpenPositions_catch_returns e st2 Hnw2) as [Hret _]. eauto.
Qed.

(** X18.  [fetchPositions] of the trades hook wraps [getOpenPositions] in
    [retryWithBackoff].  Where no call is parked the wrapper makes one call
    and hands back its list: [getOpenPositions] turns every failure into
    the empty list, so there is never an error to retry on and nothing is
    slept on, whatever the number of retries and the delay. *)
Theorem retry_of_open_positions_is_one_call (retries : nat) (delay : Z) (st : State) :
  no_waiters st ->
  (0 < retries)%nat ->
  exists ps,
    fst (open_positions st) = Returned ps
    /\ retryWithBackoff lateness open_positions retries delay st
       = (Returned (Some ps), snd (open_positions st)).
Proof.
  intros Hnw Hpos. destruct (getOpenPositions_returns st Hnw) as [ps Hps].
  exists ps. split; [exact Hps |].
  unfold retryWithBackoff. destruct retries as [|n]; [lia |]. cbn [retry_loop].
  destruct (open_positions st) as [o st1]. cbn [fst snd] in Hps |- *. subst o. reflexivity.
Qed.

End Retry.

Lemma retry_of_open_positions_is_one_call_witness :
  exists ps,
    fst (getOpenPositions plain_date plain_encode plain_hmac plain_parseFloat
           network_down on_time ready_state)
    = Returned ps
    /\ retryWithBackoff on_time
         (getOpenPositions plain_date plain_encode plain_hmac plain_parseFloat
            network_down on_time)
         5 1000 ready_state
       = (Returned (Some ps),
          snd (getOpenPositions plain_date plain_encode plain_hmac plain_parseFloat
                 network_down on_time ready_state)).
Proof.
  exact (retry_of_open_positions_is_one_call plain_date plain_encode plain_hmac
           plain_parseFloat network_down on_time 5 1000 ready_state
           ready_state_no_waiters ltac:(lia)).
Defined.

(** ** The lists kept by the hooks *)

Lemma findIndex_Some {A : Type} (p : A -> bool) (xs : list A) (i : nat) :
  findIndex p xs = Some i -> exists x, xs !! i = Some x /\ p x = true.
Proof.
  revert i. induction xs as [|x xs IH]; intros i; simpl; [discriminate |].
  destruct (p x) eqn:Hp.
  - intros H. injection H as <-. exists x. auto.
  - destruct (findIndex p xs) as [j|]; [| discriminate].
    simpl. intros H. injection H as <-. exact (IH j eq_refl).
Qed.

Lemma findIndex_None {A : Type} (p : A -> bool) (xs : list A) :
  findIndex p xs = None -> forall x, x ∈ xs -> p x = false.
Proof.
  induction xs as [|y xs IH]; simpl; intros H x Hx.
  - apply elem_of_nil in Hx. contradiction.
  - destruct (p y) eqn:Hp; [discriminate |].
    destruct (findIndex p xs); [discriminate |].
    apply elem_of_cons in Hx as [-> | Hx]; [exact Hp | exact (IH eq_refl x Hx)].
Qed.

Section TradeListFacts.

Context {A : Type} (id : A -> string).

(** X19.  The update of the trade list in the trades hook keeps the ids
    of the list distinct when they were: afterwards the list holds the new
    trade, and of the trades it held exactly those with another id.  A
    trade with the id of the new one is replaced where it stood: the new
    trade takes its index, every other index keeps its trade and the list
    keeps its length.  With no such trade the new one is added at the
    end. *)
Theorem upsert_trade_keeps_ids_distinct (trade : A) (prev : list A) :
  NoDup (id <$> prev) ->
  NoDup (id <$> upsert_trade id trade prev)
  /\ (forall t, t ∈ upsert_trade id trade prev
                <-> t = trade \/ (t ∈ prev /\ id t <> id trade))
  /\ (forall i old,
        prev !! i = Some old -> id old = id trade ->
        upsert_trade id trade prev !! i = Some trade
        /\ (forall j, j <> i -> upsert_trade id trade prev !! j = prev !! j)
        /\ length (upsert_trade id trade prev) = length prev)
  /\ ((forall t, t ∈ prev -> id t <> id trade) ->
      upsert_trade id trade prev = prev ++ [trade]).
Proof.
  intros Hnodup. unfold upsert_trade.
  destruct (findIndex _ prev) as [i|] eqn:Hfind.
  - destruct (findIndex_Some _ prev i Hfind) as (x & Hx & Hid).
    apply String.eqb_eq in Hid.
    assert (Hi : (id <$> prev) !! i = Some (id trade))
      by (rewrite list_lookup_fmap, Hx; simpl; congruence).
    split; [| split; [| split]].
    + rewrite list_fmap_insert, (list_insert_id _ _ _ Hi). exact Hnodup.
    + intros t. rewrite !list_elem_of_lookup. split.
      * intros [j Hj]. destruct (decide (i = j)) as [<- | Hij].
        -- rewrite list_lookup_insert_eq in Hj by (eapply lookup_lt_Some; exact Hx).
           left. congruence.
        -- rewrite list_lookup_insert_ne in Hj by exact Hij.
           right. split; [eauto |]. intros Heq.
           assert (Hjid : (id <$> prev) !! j = Some (id trade))
             by (rewrite list_lookup_fmap, Hj; simpl; congruence).
           exact (Hij (NoDup_lookup _ _ _ _ Hnodup Hi Hjid)).
      * intros [-> | [[j Hj] Hne]].
        -- exists i. apply list_lookup_insert_eq. eapply lookup_lt_Some. exact Hx.
        -- exists j. rewrite list_lookup_insert_ne; [exact Hj |].
           intros <-. rewrite Hx in Hj. injection Hj as <-. contradiction.
    + intros k old Hold Hsame.
      assert (Hk : (id <$> prev) !! k = Some (id trade))
        by (rewrite list_lookup_fmap, Hold; simpl; congruence).
      assert (Hik : i = k) by exact (NoDup_lookup _ _ _ _ Hnodup Hi Hk).
      subst k. split; [| split].
      * apply list_lookup_insert_eq. eapply lookup_lt_Some. exact Hx.
      * intros j Hj. apply list_lookup_insert_ne. congruence.
      * apply length_insert.
    + intros Hnone. exfalso. apply (Hnone x); [| exact Hid].
      apply list_elem_of_lookup. eauto.
  - pose proof (findIndex_None _ prev Hfind) as Hnone.
    split; [| split; [| split]].
    + rewrite fmap_app. simpl. apply NoDup_app. split; [exact Hnodup |].
      split; [| apply NoDup_singleton].
      intros s Hs Hs'. apply list_elem_of_singleton in Hs'. subst s.
      apply list_elem_of_fmap in Hs as (t & Ht & Hin).
      specialize (Hnone t Hin). simpl in Hnone.
      apply String.eqb_neq in Hnone. congruence.
    + intros t. rewrite elem_of_app, list_elem_of_singleton. split.
      * intros [Hin | ->]; [right | left; reflexivity].
        split; [exact Hin |]. specialize (Hnone t Hin). simpl in Hnone.
        apply String.eqb_neq in Hnone. exact Hnone.
      * intros [-> | [Hin _]]; auto.
    + intros k old Hold Hsame. exfalso.
      assert (Hin : old ∈ prev) by (apply list_elem_of_lookup; eauto).
      specialize (Hnone old Hin). simpl in Hnone.
      apply String.eqb_neq in Hnone. contradiction.
    + intros _. reflexivity.
Qed.

End TradeListFacts.

Lemma upsert_trade_keeps_ids_distinct_witness :
  let prev := [("1", 10); ("2", 20)] in
  let next := upsert_trade fst ("2", 25) prev in
  next = [("1", 10); ("2", 25)]
  /\ NoDup (fst <$> next)
  /\ ("2", 20) ∉ next.
Proof.
  cbn zeta.
  assert (Hprev : NoDup (fst <$> [("1", 10); ("2", 20)])).
  { apply NoDup_cons. split; [| apply NoDup_singleton].
    intros H. apply list_elem_of_singleton in H. discriminate H. }
  destruct (upsert_trade_keeps_ids_distinct fst ("2", 25) [("1", 10); ("2", 20)] Hprev)
    as (Hnext & Hin & _).
  split; [reflexivity |]. split; [exact Hnext |].
  intros H. apply Hin in H as [H | [_ H]]; [discriminate H | apply H; reflexivity].
Defined.

Section KlineListFacts.

Context {A : Type} (time : A -> JsNumber) (isClosed : A -> bool).


End KlineListFacts.


(** ** An order that goes through *)

Lemma params_set_new (k v : string) (ps : list (string * string)) :
  Forall (fun kv => String.eqb k (fst kv) = false) ps ->
  params_set k v ps = ps ++ [(k, v)].
Proof.
  induction ps as [|[k' v'] ps IH]; [reflexivity |].
  intros H. apply Forall_cons in H as [Hk Hps]. simpl in Hk |- *.
  rewrite Hk, (IH Hps). reflexivity.
Qed.

Lemma order_params_no_timestamp (numberToString : JsNumber -> string) (symbol : string)
    (side : Side) (type : OrderType) (quantity : JsNumber) (price : option JsNumber) :
  Forall (fun kv => String.eqb "timestamp" (fst kv) = false)
    (order_params numberToString symbol side type quantity price).
Proof.
  unfold order_params.
  repeat (apply Forall_cons; split; [reflexivity |]).
  apply Forall_app. split.
  - destruct price as [p|]; [| constructor].
    destruct (num_truthy p && is_limit type); [| constructor].
    apply Forall_singleton. reflexivity.
  - destruct (is_limit type); [apply Forall_singleton; reflexivity | constructor].
Qed.

Lemma ensure_connected_frame (st : State) :
  credentials (ensure_connected st) = credentials st
  /\ banInfo (ensure_connected st) = banInfo st
  /\ clock (ensure_connected st) = clock st
  /\ requestTimestamps (ensure_connected st) = requestTimestamps st
  /\ pendingRequests (ensure_connected st) = pendingRequests st
  /\ suspensions (ensure_connected st) = suspensions st.
Proof.
  unfold ensure_connected, connect. destruct (is_open st); [auto 10 |].
  destruct (isConnecting st || false); auto 10.
Qed.

Section OrderGoesThrough.

Variable toLocaleString : Z -> string.
Variable encodeURIComponent : string -> string.
Variable hmacSha256Hex : string -> string -> string.
Variable numberToString : JsNumber -> string.
Variable fetchOracle : nat -> FetchOutcome.
Variable lateness : nat -> nat.
Variable isValidTime : Json -> bool.

Local Abbreviation place_order :=
  (placeOrder toLocaleString encodeURIComponent hmacSha256Hex numberToString
     fetchOracle lateness isValidTime).

(** X21.  A valid order with no leverage to set, placed on a session that
    can send (on line, credentials, no ban flag, a free slot, no call
    parked) and answered with an ok response that is an object with no
    [time] or a valid one, costs one request: a POST to the order endpoint
    whose body lists the parameters of the order as asked (the symbol
    without its slash, side, type and quantity, then for a LIMIT order the
    price and [timeInForce=GTC]), the instant of the call as [timestamp],
    and the HMAC of all that under the secret key as [signature], with the
    API key in the header.  The call returns the trade made of the
    response and the arguments. *)
Theorem valid_order_is_sent_as_asked (symbol : string) (side : Side) (type : OrderType)
    (quantity : JsNumber) (price leverage : option JsNumber) (st : State) (c : ApiKeys)
    (data : Json) :
  onLine st = true ->
  valid_order symbol type quantity price ->
  price_truthy leverage = false ->
  credentials st = Some c ->
  isBanned (banInfo st) = false ->
  slot_free st ->
  no_waiters st ->
  fetchOracle (length (network st)) = RespOk (Some data) ->
  data <> JNull ->
  (opt_truthy (json_get "time" data) = true ->
   isValidTime (default JNull (json_get "time" data)) = true) ->
  let query :=
    buildQueryString encodeURIComponent
      (order_params numberToString symbol side type quantity price
       ++ [("timestamp", Z_to_string (clock st))]) in
  exists st',
    place_order symbol side type quantity price leverage st
    = (Returned (mkTrade data symbol side type quantity price leverage (clock st')), st')
    /\ network st'
       = network st
         ++ [mkFetch "/fapi/v1/order" POST (BASE_API_URL +:+ "/fapi/v1/order")
               (Some (query +:+ "&signature=" +:+ hmacSha256Hex query (binanceSecretKey c)))
               (truthy_key (Some (binanceApiKey c)))].
Proof.
  intros Hon (Hsym & Hq1 & Hq2 & Hprice) Hlev Hcreds Hflag Hfree Hnw Hfetch Hdata Htime.
  cbn zeta.
  destruct (ensure_connected_frame st) as (Hc1 & Hb1 & Hk1 & Ht1 & Hp1 & Hs1).
  pose proof (ensure_connected_network st) as Hn1.
  set (st1 := ensure_connected st) in *.
  set (rq := order_request numberToString symbol side type quantity price).
  assert (Hcreds1 : is_Some (credentials st1)) by (rewrite Hc1, Hcreds; eauto).
  assert (Hflag1 : isBanned (banInfo st1) = false) by congruence.
  assert (Hfree1 : slot_free st1) by (unfold slot_free, in_window in *; now rewrite Ht1, Hk1).
  assert (Hnw1 : no_waiters st1) by (unfold no_waiters; now rewrite Hp1).
  pose proof (request_admitted toLocaleString encodeURIComponent hmacSha256Hex fetchOracle
                lateness rq st1 (fun _ => Hcreds1) Hflag1 Hfree1 Hnw1) as Hrq.
  rewrite Hn1, Hfetch, Hc1, Hcreds in Hrq.
  destruct (register_request_cases rq st1) as (Hn2 & _ & _).
  destruct (register_request_ban rq st1) as [_ Hk2].
  set (st2 := snd (register_request rq st1)) in *.
  set (issued := mar_issue encodeURIComponent hmacSha256Hex rq (Some c)
                   (set_requestTimestamps (in_window st1 ++ [clock st1]) st2)) in Hrq.
  assert (Hissued : network issued
            = network st
              ++ [mkFetch "/fapi/v1/order" POST (BASE_API_URL +:+ "/fapi/v1/order")
                    (Some (buildQueryString encodeURIComponent
                             (order_params numberToString symbol side type quantity price
                              ++ [("timestamp", Z_to_string (clock st))])
                           +:+ "&signature="
                           +:+ hmacSha256Hex
                                 (buildQueryString encodeURIComponent
                                    (order_params numberToString symbol side type quantity
                                       price
                                     ++ [("timestamp", Z_to_string (clock st))]))
                                 (binanceSecretKey c)))
                    (truthy_key (Some (binanceApiKey c)))]).
  { subst issued. unfold mar_issue.
    cbn [network set_network set_requestTimestamps clock rq_requiresSignature rq_params
           rq_method rq_endpoint rq order_request is_query_method].
    rewrite Hn2, Hn1, Hk2, Hk1.
    rewrite (params_set_new "timestamp" _ _
               (order_params_no_timestamp numberToString symbol side type quantity price)).
    destruct (binanceApiKey c); reflexivity. }
  set (sent := await_fetch lateness issued) in Hrq.
  cbn [mar_settle default from_option id] in Hrq.
  set (st3 := settle_pending (rq_cacheKey rq) (Resolved (VJson data)) sent) in Hrq.
  exists st3. split.
  - unfold placeOrder, placeOrder_try.
    rewrite Hon, Hq1, Hq2, Hprice, bool_decide_eq_false_2 by assumption.
    cbn [negb orb andb]. fold st1.
    assert (Hpre : preset_leverage toLocaleString encodeURIComponent hmacSha256Hex
                     numberToString fetchOracle lateness symbol leverage st1
                   = (Returned tt, st1)).
    { unfold preset_leverage. destruct leverage as [l|]; [| reflexivity].
      simpl in Hlev. rewrite Hlev. reflexivity. }
    rewrite Hpre. change maxAttempts with 3%nat. cbn [order_loop]. fold rq.
    rewrite Hrq. unfold build_trade.
    destruct data; try contradiction;
      (destruct (opt_truthy (json_get "time" _)) eqn:Ht;
       [rewrite (Htime eq_refl) | ]; reflexivity).
  - subst st3. rewrite settle_pending_network. subst sent. exact Hissued.
Qed.

End OrderGoesThrough.

Lemma valid_order_is_sent_as_asked_witness :
  let answer := JObj [("orderId", JNum (Num 42)); ("status", JStr "NEW")] in
  exists st',
    placeOrder plain_date plain_encode plain_hmac plain_number
      (fun _ => RespOk (Some answer)) on_time any_time_valid
      "BTC/USDT" BUY LIMIT (Num 1) (Some (Num 50000)) None ready_state
    = (Returned (mkTrade answer "BTC/USDT" BUY LIMIT (Num 1) (Some (Num 50000)) None
                   (clock st')), st')
    /\ network st'
       = [mkFetch "/fapi/v1/order" POST "https://testnet.binancefuture.com/fapi/v1/order"
            (Some "symbol=BTCUSDT&side=BUY&type=LIMIT&quantity=1&price=50000&timeInForce=GTC&timestamp=1000000&signature=0")
            (Some "key")].
Proof.
  cbn zeta.
  destruct (valid_order_is_sent_as_asked plain_date plain_encode plain_hmac plain_number
              (fun _ => RespOk (Some (JObj [("orderId", JNum (Num 42));
                                            ("status", JStr "NEW")])))
              on_time any_time_valid
              "BTC/USDT" BUY LIMIT (Num 1) (Some (Num 50000)) None ready_state test_keys
              (JObj [("orderId", JNum (Num 42)); ("status", JStr "NEW")]))
    as (st' & Hrun & Hnet).
  - reflexivity.
  - repeat split; try reflexivity. discriminate.
  - reflexivity.
  - reflexivity.
  - reflexivity.
  - exact ready_state_slot_free.
  - exact ready_state_no_waiters.
  - reflexivity.
  - discriminate.
  - discriminate.
  - exists st'. split; [exact Hrun |]. rewrite Hnet. vm_compute. reflexivity.
Defined.

(** ** A request that fails *)

Section RequestFails.

Variable toLocaleString : Z -> string.
Variable encodeURIComponent : string -> string.
Variable hmacSha256Hex : string -> string -> string.
Variable fetchOracle : nat -> FetchOutcome.
Variable lateness : nat -> nat.

Local Abbreviation request :=
  (makeAuthenticatedRequest toLocaleString encodeURIComponent hmacSha256Hex
     fetchOracle lateness).

(** X22.  On a session that can send, a request whose [fetch] does not
    succeed is sent once and rejected with one error that names the method
    and the endpoint: for an HTTP error it carries the status, the status
    text and the body of the response as they came; for a [fetch] that
    was aborted it says that the request timed out after 30 seconds; for
    any other failure of [fetch] it carries the message of that failure.
    The entry of the cache key is removed. *)
Theorem failed_request_is_reported (rq : Request) (st : State) :
  (rq_requiresSignature rq = true -> is_Some (credentials st)) ->
  isBanned (banInfo st) = false ->
  slot_free st ->
  no_waiters st ->
  forall reason : string,
    match fetchOracle (length (network st)) with
    | RespOk _ => False
    | RespError status statusText errorText _ =>
        reason = "Request failed: " +:+ Z_to_string status +:+ " " +:+ statusText
                 +:+ " - " +:+ errorText
    | FetchFailed e =>
        reason = if String.eqb (ename e) "AbortError"
                 then "Request timed out after 30 seconds" else emessage e
    end ->
    exists st',
      request rq st
      = (Thrown (Error ("Network error while " +:+ method_name (rq_method rq) +:+ " "
                        +:+ rq_endpoint rq +:+ ": " +:+ reason)), st')
      /\ length (network st') = S (length (network st))
      /\ (forall k, truthy_key (rq_cacheKey rq) = Some k -> pendingRequests st' !! k = None).
Proof.
  intros Hcreds Hflag Hfree Hnw reason Hreason.
  rewrite (request_admitted toLocaleString encodeURIComponent hmacSha256Hex fetchOracle
             lateness rq st Hcreds Hflag Hfree Hnw).
  destruct (register_request_cases rq st) as (Hn & _ & _).
  set (sent := await_fetch lateness _).
  assert (Hsent : length (network sent) = S (length (network st))).
  { subst sent. unfold await_fetch, mar_issue. cbn [network set_network set_clock
      set_suspensions set_requestTimestamps].
    rewrite Hn, length_app. simpl. lia. }
  destruct (fetchOracle (length (network st)))
    as [body | status statusText errorText parsed | e]; [contradiction | |].
  - subst reason. cbn [mar_settle]. unfold mar_catch.
    eexists. split; [reflexivity |]. cbn [snd]. split.
    + rewrite settle_pending_network.
      destruct (detectBanFromError_quiet (request_failed_error status statusText errorText)
                  (ban_from_response status parsed sent)) as [-> _].
      destruct (ban_from_response_quiet status parsed sent) as [-> _]. exact Hsent.
    + intros k Hk. apply settle_pending_removes. exact Hk.
  - cbn [mar_settle]. unfold mar_catch.
    set (e1 := if String.eqb (ename e) "AbortError" then _ else e).
    assert (He1 : emessage e1 = reason)
      by (subst e1 reason; destruct (String.eqb (ename e) "AbortError"); reflexivity).
    eexists. split; [unfold enhanced_error; rewrite He1; reflexivity |]. cbn [snd]. split.
    + rewrite settle_pending_network.
      destruct (detectBanFromError_quiet e1 sent) as [-> _]. exact Hsent.
    + intros k Hk. apply settle_pending_removes. exact Hk.
Qed.

End RequestFails.

Lemma failed_request_is_reported_witness :
  exists st',
    makeAuthenticatedRequest plain_date plain_encode plain_hmac
      (fun _ => invalid_key_response) on_time orders_request ready_state
    = (Thrown (Error ("Network error while GET /fapi/v1/allOrders: "
                      +:+ "Request failed: 401 Unauthorized - "
                      +:+ json_error_text "-2015" invalid_key_notice)), st')
    /\ length (network st') = 1%nat.
Proof.
  destruct (failed_request_is_reported plain_date plain_encode plain_hmac
              (fun _ => invalid_key_response) on_time orders_request ready_state
              (fun _ => ex_intro _ test_keys eq_refl) eq_refl
              ready_state_slot_free ready_state_no_waiters
              ("Request failed: 401 Unauthorized - "
               +:+ json_error_text "-2015" invalid_key_notice) eq_refl)
    as (st' & Hrun & Hnet & _).
  exists st'. split; [exact Hrun | exact Hnet].
Defined.

(** ** Positions during a ban *)

Lemma getOpenPositions_catch_network (e : JsError) (st : State) :
  network (snd (getOpenPositions_catch e st)) = network st.
Proof.
  unfold getOpenPositions_catch. cbn [snd network set_pendingRequests set_settled].
  apply (detectBanFromError_quiet e st).
Qed.

Lemma getOpenPositions_extract_network (parseFloat : Json -> JsNumber) (accountInfo : Json)
    (st : State) :
  (exists ps, fst (getOpenPositions_extract parseFloat accountInfo st) = Returned ps)
  /\ network (snd (getOpenPositions_extract parseFloat accountInfo st)) = network st.
Proof.
  assert (Hcatch : forall e,
             (exists ps, fst (getOpenPositions_catch e st) = Returned ps)
             /\ network (snd (getOpenPositions_catch e st)) = network st).
  { intros e. split; [exists []; reflexivity | apply getOpenPositions_catch_network]. }
  unfold getOpenPositions_extract.
  destruct (json_truthy accountInfo && opt_truthy (json_get "positions" accountInfo));
    [| simpl; eauto].
  destruct (json_get "positions" accountInfo) as [[| | | | items |]|]; try apply Hcatch.
  destruct (positions_of parseFloat items) as [e | positions]; [apply Hcatch |].
  simpl. eauto.
Qed.

Section PositionsDuringBan.

Variable toLocaleString : Z -> string.
Variable encodeURIComponent : string -> string.
Variable hmacSha256Hex : string -> string -> string.
Variable parseFloat : Json -> JsNumber.
Variable fetchOracle : nat -> FetchOutcome.
Variable lateness : nat -> nat.

Local Abbreviation open_positions :=
  (getOpenPositions toLocaleString encodeURIComponent hmacSha256Hex parseFloat
     fetchOracle lateness).

Lemma positions_of_total (items : list Json) :
  Forall (fun entry => entry <> JNull) items ->
  exists ps, positions_of parseFloat items = inr ps.
Proof.
  induction 1 as [|entry rest Hentry _ [ps IH]]; [exists []; reflexivity |].
  cbn [positions_of]. rewrite IH.
  assert (Hsome : exists o, position_of parseFloat entry = inr o).
  { unfold position_of. destruct entry; [contradiction | | | | |];
      match goal with
      | |- context [if ?b then _ else _] => destruct b; eauto
      end. }
  destruct Hsome as [o ->]. eauto.
Qed.

(** X23.  While a ban is in force and no call is parked,
    [getOpenPositions] sends nothing and returns a list.  With no account
    information in the cache the list is empty.  With account information
    in the cache, however old, whose [positions] are an array without
    [null], the list is made of those positions: one for each entry whose
    amount is not zero, in their order, with the size and the side of the
    entry. *)
Theorem positions_during_a_ban (st : State) :
  ban_in_force st ->
  no_waiters st ->
  exists ps,
    fst (open_positions st) = Returned ps
    /\ network (snd (open_positions st)) = network st
    /\ (accountInfoCache st = None -> ps = [])
    /\ (forall c items,
          accountInfoCache st = Some c ->
          json_get "positions" (ce_data c) = Some (JArr items) ->
          Forall (fun entry => entry <> JNull) items ->
          open_entries parseFloat items ps).
Proof.
  intros Hban Hnw. unfold getOpenPositions.
  rewrite (no_waiters_has_waiters _ st Hnw).
  set (st1 := set_pendingRequests _ st).
  assert (Hban1 : ban_in_force st1) by exact Hban.
  assert (Hinfo : exists info st2,
             account_info_with_retry toLocaleString encodeURIComponent hmacSha256Hex
               fetchOracle lateness st1 = (Returned info, st2)
             /\ network st2 = network st
             /\ (accountInfoCache st = None -> exists now, info = mock_account_info now)
             /\ (forall c, accountInfoCache st = Some c -> info = ce_data c)).
  { unfold account_info_with_retry, getAccountInfo.
    destruct (cache_is_fresh (clock st1) st1) eqn:Hfresh.
    - eexists _, _. split; [reflexivity |]. split; [reflexivity |].
      split.
      + intros Hnone. unfold cache_is_fresh in Hfresh.
        change (accountInfoCache st1) with (accountInfoCache st) in Hfresh.
        rewrite Hnone in Hfresh. discriminate Hfresh.
      + intros c Hc. unfold cached_account.
        change (accountInfoCache st1) with (accountInfoCache st).
        rewrite Hc. reflexivity.
    - destruct (checkIfBanned_in_force st1 Hban1) as (Hyes & _ & _).
      pose proof (checkIfBanned_quiet st1) as Hq.
      assert (Hcache : accountInfoCache (snd (checkIfBanned st1)) = accountInfoCache st).
      { unfold checkIfBanned.
        destruct (negb (isBanned (banInfo st1)) || (banUntil (banInfo st1) <? clock st1));
          [destruct (isBanned (banInfo st1)) |
           destruct (60000 <? clock st1 - lastBanCheckTime st1)]; reflexivity. }
      destruct (checkIfBanned st1) as [banned st2]. simpl in Hyes, Hq, Hcache.
      subst banned. eexists _, _. split; [reflexivity |].
      split; [apply Hq |].
      split.
      + intros Hnone. unfold cached_account. rewrite Hcache, Hnone. simpl. eauto.
      + intros c Hc. unfold cached_account. rewrite Hcache, Hc. reflexivity. }
  destruct Hinfo as (info & st2 & -> & Hnet & Hmock & Hcached).
  destruct (getOpenPositions_extract_network parseFloat info st2) as [[ps Hps] Hn].
  exists ps. split; [exact Hps |]. split; [congruence |].
  split.
  - intros Hnone. destruct (Hmock Hnone) as [now ->].
    simpl in Hps. injection Hps as <-. reflexivity.
  - intros c items Hc Hitems Hentries.
    rewrite (Hcached c Hc) in Hps.
    destruct (positions_of_total items Hentries) as [listed Hlisted].
    unfold getOpenPositions_extract in Hps.
    assert (Htruthy : json_truthy (ce_data c) = true).
    { destruct (ce_data c); try discriminate Hitems. reflexivity. }
    rewrite Htruthy, Hitems, Hlisted in Hps. cbn in Hps. injection Hps as <-.
    exact (positions_of_entries parseFloat items listed Hlisted).
Qed.

End PositionsDuringBan.

Lemma positions_during_a_ban_witness :
  exists ps,
    fst (getOpenPositions plain_date plain_encode plain_hmac plain_parseFloat no_orders
           on_time banned_cached_state)
    = Returned ps
    /\ network (snd (getOpenPositions plain_date plain_encode plain_hmac plain_parseFloat
                       no_orders on_time banned_cached_state))
       = []
    /\ open_entries plain_parseFloat
         [JObj [("symbol", JStr "BTCUSDT"); ("positionAmt", JNum (Num 0))];
          JObj [("symbol", JStr "ETHUSDT"); ("positionAmt", JNum (Num 2))];
          JObj [("symbol", JStr "BNBUSDT"); ("positionAmt", JNum (Num (-3)))]]
         ps.
Proof.
  assert (Hban : ban_in_force banned_cached_state)
    by (split; [reflexivity | vm_compute; discriminate]).
  assert (Hnw : no_waiters banned_cached_state).
  { intros k ws H. simpl in H. rewrite lookup_empty in H. discriminate H. }
  destruct (positions_during_a_ban plain_date plain_encode plain_hmac plain_parseFloat
              no_orders on_time banned_cached_state Hban Hnw)
    as (ps & Hps & Hnet & _ & Hcached).
  exists ps. split; [exact Hps |]. split; [exact Hnet |].
  apply (Hcached (mkCache account_with_positions 0)); [reflexivity | reflexivity |].
  repeat constructor; discriminate.
Defined.

(** ** The account stream *)

(** X24.  The account stream is not shared the way the tickers are.  On
    an open socket that holds a listen key, with no account listener yet,
    every [subscribeAccount] sends a SUBSCRIBE for the key, the second
    listener's as well as the first's; [unsubscribeAccount] sends nothing
    while a listener remains, and one UNSUBSCRIBE for the key when the last
    one leaves. *)
Theorem account_stream_is_subscribed_per_call (k : string) (L1 L2 : nat) (st : State) :
  is_open st = true ->
  held_listenKey st = Some k ->
  accountSubscribers st = ∅ ->
  L1 <> L2 ->
  let s1 := subscribeAccount L1 st in
  let s2 := subscribeAccount L2 s1 in
  let s3 := unsubscribeAccount L1 s2 in
  let s4 := unsubscribeAccount L2 s3 in
  wire s2 = wire st ++ [mkWire SUBSCRIBE [k] (Some (clock st));
                        mkWire SUBSCRIBE [k] (Some (clock st))]
  /\ wire s3 = wire s2
  /\ wire s4 = wire s3 ++ [mkWire UNSUBSCRIBE [k] (Some (clock st))]
  /\ accountSubscribers s4 = ∅.
Proof.
  intros Hopen Hkey Hnone Hne. cbn zeta.
  assert (Hsub : forall L s,
             is_open s = true -> held_listenKey s = Some k ->
             subscribeAccount L s
             = set_wire (wire s ++ [mkWire SUBSCRIBE [k] (Some (clock s))])
                 (set_accountSubscribers (accountSubscribers s ∪ {[L]}) s)).
  { intros L s Ho Hk. unfold subscribeAccount, sendSubscription, send_frame.
    change (is_open (set_accountSubscribers (accountSubscribers s ∪ {[L]}) s))
      with (is_open s).
    change (held_listenKey (set_accountSubscribers (accountSubscribers s ∪ {[L]}) s))
      with (held_listenKey s).
    rewrite Ho, Hk. reflexivity. }
  rewrite (Hsub L1 st Hopen Hkey).
  set (s1 := set_wire _ _).
  rewrite (Hsub L2 s1 Hopen Hkey).
  set (s2 := set_wire _ _).
  assert (Hls2 : accountSubscribers s2 = {[L1]} ∪ {[L2]}).
  { subst s2 s1. simpl. rewrite Hnone. apply set_eq. intros x. set_unfold. tauto. }
  assert (Hmore : forall L s,
             accountSubscribers s ∖ {[L]} <> ∅ ->
             unsubscribeAccount L s
             = set_accountSubscribers (accountSubscribers s ∖ {[L]}) s).
  { intros L s Hrest. unfold unsubscribeAccount.
    change (accountSubscribers (set_accountSubscribers (accountSubscribers s ∖ {[L]}) s))
      with (accountSubscribers s ∖ {[L]}).
    rewrite bool_decide_eq_false_2 by exact Hrest. reflexivity. }
  assert (Hlast : forall L s,
             is_open s = true -> held_listenKey s = Some k ->
             accountSubscribers s ∖ {[L]} = ∅ ->
             unsubscribeAccount L s
             = set_wire (wire s ++ [mkWire UNSUBSCRIBE [k] (Some (clock s))])
                 (set_accountSubscribers (accountSubscribers s ∖ {[L]}) s)).
  { intros L s Ho Hk Hrest. unfold unsubscribeAccount, sendUnsubscription, send_frame.
    change (accountSubscribers (set_accountSubscribers (accountSubscribers s ∖ {[L]}) s))
      with (accountSubscribers s ∖ {[L]}).
    change (is_open (set_accountSubscribers (accountSubscribers s ∖ {[L]}) s))
      with (is_open s).
    change (held_listenKey (set_accountSubscribers (accountSubscribers s ∖ {[L]}) s))
      with (held_listenKey s).
    rewrite bool_decide_eq_true_2 by exact Hrest.
    rewrite Ho, Hk. reflexivity. }
  assert (Hrest2 : accountSubscribers s2 ∖ {[L1]} <> ∅).
  { rewrite Hls2. intros Hempty.
    assert (Hin : L2 ∈ ({[L1]} ∪ {[L2]}) ∖ ({[L1]} : gset nat))
      by (set_unfold; split; [right; reflexivity | intros ->; contradiction]).
    rewrite Hempty in Hin. apply elem_of_empty in Hin. exact Hin. }
  rewrite (Hmore L1 s2 Hrest2).
  set (s3 := set_accountSubscribers _ s2).
  assert (Hls3 : accountSubscribers s3 ∖ {[L2]} = ∅).
  { subst s3. cbn [accountSubscribers set_accountSubscribers]. rewrite Hls2.
    apply set_eq. intros x. set_unfold. tauto. }
  rewrite (Hlast L2 s3 Hopen Hkey Hls3).
  split; [subst s2 s1; simpl; rewrite <- app_assoc; reflexivity |].
  split; [reflexivity |].
  split; [reflexivity | exact Hls3].
Qed.

Lemma account_stream_is_subscribed_per_call_witness :
  let st := set_listenKey (Some "listen") open_state in
  let s2 := subscribeAccount 2 (subscribeAccount 1 st) in
  let s4 := unsubscribeAccount 2 (unsubscribeAccount 1 s2) in
  wire s2 = [mkWire SUBSCRIBE ["listen"] (Some 1000000);
             mkWire SUBSCRIBE ["listen"] (Some 1000000)]
  /\ wire s4 = wire s2 ++ [mkWire UNSUBSCRIBE ["listen"] (Some 1000000)].
Proof.
  cbn zeta.
  destruct (account_stream_is_subscribed_per_call "listen" 1 2
              (set_listenKey (Some "listen") open_state))
    as (H2 & H3 & H4 & _); try reflexivity; [discriminate |].
  split; [exact H2 |]. rewrite H4, H3. reflexivity.
Defined.

(** ** A socket that closes *)

Lemma find_fresh_timer (id : nat) (a : TimerAction) (ts : list (nat * TimerAction)) :
  Forall (fun t => (fst t < id)%nat) ts ->
  List.find (fun t => Nat.eqb (fst t) id) (ts ++ [(id, a)]) = Some (id, a).
Proof.
  induction ts as [|t ts IH]; intros H.
  - simpl. rewrite Nat.eqb_refl. reflexivity.
  - apply Forall_cons in H as [Ht Hts]. simpl.
    destruct (Nat.eqb_spec (fst t) id); [lia | exact (IH Hts)].
Qed.

Lemma stopPingInterval_timers_fresh (st : State) :
  timers_fresh st ->
  timers_fresh (stopPingInterval st)
  /\ nextTimerId (stopPingInterval st) = nextTimerId st.
Proof.
  intros H. unfold stopPingInterval. destruct (pingInterval st) as [id|]; [| auto].
  split; [| reflexivity]. unfold timers_fresh, clear_timer. simpl.
  apply Forall_forall. intros t Ht.
  apply list_elem_of_In, List.filter_In in Ht as [Ht _].
  unfold timers_fresh in H. rewrite Forall_forall in H.
  apply H. apply list_elem_of_In. exact Ht.
Qed.

Lemma reconnect_timer_fires (s0 : State) :
  timers_fresh s0 ->
  0 <= reconnectAttempts s0 <= maxReconnectAttempts ->
  isConnecting s0 = false ->
  let id := nextTimerId s0 in
  let st1 := handleReconnect s0 in
  let st2 := fire_reconnect id st1 in
  timers st1
  = timers s0
    ++ [(id, if reconnectAttempts s0 <? maxReconnectAttempts
             then TReconnect else TReconnectCooldown)]
  /\ reconnectAttempts st1
     = (if reconnectAttempts s0 <? maxReconnectAttempts
        then reconnectAttempts s0 + 1 else reconnectAttempts s0)
  /\ reconnectAttempts st2
     = (if reconnectAttempts s0 <? maxReconnectAttempts
        then reconnectAttempts s0 + 1 else 0)
  /\ timers st2 = timers s0
  /\ (is_open s0 = false -> ws st2 = Some CONNECTING /\ isConnecting st2 = true)
  /\ (is_open s0 = true -> ws st2 = ws s0).
Proof.
  intros Hfresh Hcount Hflag. cbn zeta.
  assert (Hclear : forall a : TimerAction,
             List.filter (fun t => negb (Nat.eqb (fst t) (nextTimerId s0)))
               (timers s0 ++ [(nextTimerId s0, a)])
             = timers s0).
  { intros a. rewrite List.filter_app. simpl. rewrite Nat.eqb_refl. simpl.
    rewrite app_nil_r. apply forallb_filter_id. apply forallb_forall.
    intros t Ht. unfold timers_fresh in Hfresh. rewrite Forall_forall in Hfresh.
    apply list_elem_of_In in Ht. specialize (Hfresh t Ht).
    apply negb_true_iff, Nat.eqb_neq. lia. }
  pose proof (find_fresh_timer (nextTimerId s0) TReconnect (timers s0) Hfresh) as Hfind.
  pose proof (find_fresh_timer (nextTimerId s0) TReconnectCooldown (timers s0) Hfresh)
    as Hfind'.
  pose proof (Hclear TReconnect) as Hc. pose proof (Hclear TReconnectCooldown) as Hc'.
  clear Hclear Hfresh.
  destruct s0 as [w pi sb asb ks ds lk lki ra ic rt pr aic bi lb cr ol ls ck tm nt wr nw sd np su].
  cbn [timers nextTimerId reconnectAttempts isConnecting ws] in *. subst ic.
  unfold handleReconnect, set_timer, fire_reconnect.
  unfold maxReconnectAttempts in *.
  cbn [reconnectAttempts].
  destruct (Z.ltb_spec ra 5) as [Hless | Hmax].
  - cbn -[List.find List.filter Z.add]. rewrite Hfind.
    unfold connect, clear_timer, is_open.
    cbn -[List.find List.filter Z.add]. rewrite Hc.
    split; [reflexivity |]. split; [reflexivity |].
    destruct w as [[| | |]|]; cbn -[Z.add];
      (split; [reflexivity |]); (split; [reflexivity |]);
      (split; [intros Hclosed; try discriminate Hclosed; auto
              |intros Hopen; try discriminate Hopen; reflexivity]).
  - cbn -[List.find List.filter Z.add]. rewrite Hfind'.
    unfold connect, clear_timer, is_open.
    cbn -[List.find List.filter Z.add]. rewrite Hc'.
    split; [reflexivity |]. split; [reflexivity |].
    destruct w as [[| | |]|]; cbn -[Z.add];
      (split; [reflexivity |]); (split; [reflexivity |]);
      (split; [intros Hclosed; try discriminate Hclosed; auto
              |intros Hopen; try discriminate Hopen; reflexivity]).
Qed.

(** X25.  The session never gives up a socket that closed.  With the
    handles of the pending timers below the next handle and the count of
    attempts between zero and five, the close handler stops the ping timer,
    clears the flag of a connection in progress and arms one timer under
    the next handle.  Below five attempts it counts one more attempt and
    the timer is the one that calls [connect]; at five the count is left
    and the timer is the one that sets the count back to zero and then
    calls [connect].  When that timer fires it is gone, the count is as
    said, and a new socket is connecting, unless the socket of the session
    is open, which is then left alone.  The count never leaves the range
    from zero to five. *)
Theorem closed_socket_is_reopened (st : State) :
  timers_fresh st ->
  0 <= reconnectAttempts st <= maxReconnectAttempts ->
  let id := nextTimerId (stopPingInterval st) in
  let st1 := ws_onclose st in
  let st2 := fire_reconnect id st1 in
  let again := reconnectAttempts st <? maxReconnectAttempts in
  timers st1
  = timers (stopPingInterval st)
    ++ [(id, if again then TReconnect else TReconnectCooldown)]
  /\ pingInterval st1 = None
  /\ reconnectAttempts st1
     = (if again then reconnectAttempts st + 1 else reconnectAttempts st)
  /\ reconnectAttempts st2 = (if again then reconnectAttempts st + 1 else 0)
  /\ 0 <= reconnectAttempts st1 <= maxReconnectAttempts
  /\ 0 <= reconnectAttempts st2 <= maxReconnectAttempts
  /\ timers st2 = timers (stopPingInterval st)
  /\ (is_open st = false -> ws st2 = Some CONNECTING /\ isConnecting st2 = true)
  /\ (is_open st = true -> ws st2 = ws st).
Proof.
  intros Hfresh Hcount.
  destruct (stopPingInterval_timers_fresh st Hfresh) as [Hfresh0 _].
  assert (Hcount0 : reconnectAttempts (stopPingInterval st) = reconnectAttempts st)
    by (unfold stopPingInterval; destruct (pingInterval st); reflexivity).
  assert (Hopen0 : is_open (stopPingInterval st) = is_open st)
    by (unfold stopPingInterval; destruct (pingInterval st); reflexivity).
  assert (Hws0 : ws (stopPingInterval st) = ws st)
    by (unfold stopPingInterval; destruct (pingInterval st); reflexivity).
  assert (Hping0 : pingInterval (stopPingInterval st) = None)
    by (unfold stopPingInterval; destruct (pingInterval st) eqn:E; [reflexivity | exact E]).
  assert (Hping1 : pingInterval (ws_onclose st) = None).
  { unfold ws_onclose, handleReconnect, set_timer.
    destruct (_ <? _); cbn [snd pingInterval set_nextTimerId set_timers
                              set_reconnectAttempts set_isConnecting]; exact Hping0. }
  rewrite <- Hcount0 in Hcount.
  destruct (reconnect_timer_fires (set_isConnecting false (stopPingInterval st))
              Hfresh0 Hcount eq_refl) as (Htimers & Hcount1 & Hcount2 & Hgone & Hclosed & Hopen).
  cbn zeta.
  change (reconnectAttempts (set_isConnecting false (stopPingInterval st)))
    with (reconnectAttempts (stopPingInterval st)) in Hcount1, Hcount2, Htimers.
  rewrite Hcount0 in Hcount, Hcount1, Hcount2, Htimers.
  change (handleReconnect (set_isConnecting false (stopPingInterval st)))
    with (ws_onclose st) in Hcount1, Hcount2, Htimers, Hgone, Hclosed, Hopen.
  change (nextTimerId (set_isConnecting false (stopPingInterval st)))
    with (nextTimerId (stopPingInterval st)) in Hcount2, Htimers, Hgone, Hclosed, Hopen.
  change (timers (set_isConnecting false (stopPingInterval st)))
    with (timers (stopPingInterval st)) in Htimers, Hgone.
  change (is_open (set_isConnecting false (stopPingInterval st)))
    with (is_open (stopPingInterval st)) in Hclosed, Hopen.
  change (ws (set_isConnecting false (stopPingInterval st)))
    with (ws (stopPingInterval st)) in Hopen.
  rewrite Hopen0 in Hclosed, Hopen. rewrite Hws0 in Hopen.
  split; [exact Htimers |]. split; [exact Hping1 |].
  split; [exact Hcount1 |]. split; [exact Hcount2 |].
  unfold maxReconnectAttempts in *.
  split; [rewrite Hcount1; destruct (Z.ltb_spec (reconnectAttempts st) 5); lia |].
  split; [rewrite Hcount2; destruct (Z.ltb_spec (reconnectAttempts st) 5); lia |].
  split; [exact Hgone |]. split; [exact Hclosed | exact Hopen].
Qed.

Lemma closed_socket_is_reopened_witness :
  let st := set_reconnectAttempts 5 (set_ws (Some CLOSED) open_state) in
  let st1 := ws_onclose st in
  let st2 := fire_reconnect (nextTimerId (stopPingInterval st)) st1 in
  timers st1 = [(nextTimerId (stopPingInterval st), TReconnectCooldown)]
  /\ reconnectAttempts st1 = 5
  /\ reconnectAttempts st2 = 0
  /\ ws st2 = Some CONNECTING /\ isConnecting st2 = true.
Proof.
  cbn zeta.
  destruct (closed_socket_is_reopened
              (set_reconnectAttempts 5 (set_ws (Some CLOSED) open_state)))
    as (Ht & _ & H1 & H2 & _ & _ & _ & H4 & _).
  - unfold timers_fresh. vm_compute. repeat constructor.
  - vm_compute. split; discriminate.
  - split; [exact Ht |]. split; [exact H1 |]. split; [exact H2 |]. exact (H4 eq_refl).
Defined.

(** ** Results that are stored *)

Section StoredResults.

Variable toLocaleString : Z -> string.
Variable encodeURIComponent : string -> string.
Variable hmacSha256Hex : string -> string -> string.
Variable numberToString : JsNumber -> string.
Variable parseFloat : Json -> JsNumber.
Variable fetchOracle : nat -> FetchOutcome.
Variable lateness : nat -> nat.
Variable isValidTime : Json -> bool.

Local Abbreviation order_history :=
  (getOrderHistory toLocaleString encodeURIComponent hmacSha256Hex numberToString
     parseFloat fetchOracle lateness isValidTime).
Local Abbreviation account_info :=
  (getAccountInfo toLocaleString encodeURIComponent hmacSha256Hex fetchOracle lateness).


End StoredResults.

